(** * Personal budget tracker: the ledger, the rate cache and the import/export
    gateway of [src/app/page.tsx], embedded in Rocq.

    The page is one React component.  Its state cells ([useState]) become the
    fields of a record [State]; every event handler becomes a function from
    the handler's inputs and the state before to the state after.  The
    JavaScript built-ins the handlers rely on (numbers, [Number(...)],
    [Math.round], [Math.max], [String.prototype.trim], truthiness, property
    access on parsed JSON) are modelled first, then the handlers, then the
    statements about them.

    Outside the model: the rendering, the active tab, and the writing of
    the rate to local storage.  What the outside world answers (the clock,
    the random generator, [window.confirm], [window.prompt], the content of
    the picked file, what local storage holds and what the rate provider
    returns) is an argument of the handler that asks for it. *)

From Stdlib Require Import ZArith List String Ascii Bool Lia.
From Corelib Require Import SpecFloat.
From stdpp Require Import gmap strings.

Import ListNotations.
Local Open Scope string_scope.
Local Open Scope Z_scope.

(** ** JavaScript numbers

    A JavaScript Number is an IEEE 754 binary64 value.  [spec_float] is the
    standard library's specification of those values (no NaN payloads, which
    JavaScript cannot observe either), and the [SF*] operations at precision
    53 and maximal exponent 1024 are the binary64 operations with rounding to
    nearest, ties to even. *)

Definition number : Type := spec_float.

Module Num.

Definition prec : Z := 53.
Definition emax : Z := 1024.

Definition NaN : number := S754_nan.
Definition Infinity : number := S754_infinity false.
Definition zero : number := S754_zero false.
Definition negzero : number := S754_zero true.

(** The Number nearest to the integer [z]. *)
Definition of_Z (z : Z) : number := binary_normalize prec emax z 0 false.

Definition add : number -> number -> number := SFadd prec emax.
Definition sub : number -> number -> number := SFsub prec emax.
Definition mul : number -> number -> number := SFmul prec emax.
Definition div : number -> number -> number := SFdiv prec emax.

(** [x < y], [x <= y], [x > y]: a comparison with NaN is false. *)
Definition lt (x y : number) : bool := SFltb x y.
Definition le (x y : number) : bool := SFleb x y.
Definition gt (x y : number) : bool := SFltb y x.

Definition isNaN (x : number) : bool :=
  match x with S754_nan => true | _ => false end.

Definition isZero (x : number) : bool :=
  match x with S754_zero _ => true | _ => false end.

(** [Number.isFinite(x)] for a value that is a Number. *)
Definition isFinite (x : number) : bool :=
  match x with
  | S754_zero _ | S754_finite _ _ _ => true
  | S754_infinity _ | S754_nan => false
  end.

(** ToBoolean on a Number: NaN, +0 and -0 are falsy. *)
Definition truthy (x : number) : bool := negb (isNaN x || isZero x).

(** [x || d] for Numbers. *)
Definition or_else (x d : number) : number := if truthy x then x else d.

(** [Math.max(a, b)]: NaN if either is NaN, and +0 is larger than -0. *)
Definition max (a b : number) : number :=
  if isNaN a || isNaN b then NaN
  else if lt a b then b
  else if lt b a then a
  else match a, b with
       | S754_zero sa, S754_zero sb => S754_zero (sa && sb)
       | _, _ => a
       end.

(** [Math.round(x)]: the integer nearest to [x], ties towards +Infinity;
    NaN, the infinities, the zeros and integral values are returned as they
    are; a result of zero keeps the sign of [x]. *)
Definition round (x : number) : number :=
  match x with
  | S754_finite s m e =>
      if 0 <=? e then x
      else
        let k := - e in
        let twice := if s then Z.neg m * 2 else Z.pos m * 2 in
        let r := (twice + 2 ^ k) / 2 ^ (k + 1) in
        if r =? 0 then S754_zero s else of_Z r
  | _ => x
  end.

(** An integral Number (what [Number.isInteger] accepts). *)
Definition isInteger (x : number) : bool :=
  match x with
  | S754_zero _ => true
  | S754_finite _ m e =>
      (0 <=? e) || (Z.pos m mod 2 ^ (- e) =? 0)
  | _ => false
  end.

(** The integer part of a finite Number, towards zero; 0 for what is not
    finite. *)
Definition to_Z (x : number) : Z :=
  match x with
  | S754_finite s m e =>
      let v := if 0 <=? e then Z.pos m * 2 ^ e else Z.pos m / 2 ^ (- e) in
      if s then - v else v
  | _ => 0
  end.

(** The Number nearest to [m * 10 ^ e] for a positive integer [m], with
    sign [s].  Exponents that put the value beyond the binary64 range are
    cut off before any power is computed. *)
Definition of_decimal (s : bool) (m : positive) (e : Z) (digits : Z) : number :=
  if 310 <? e then S754_infinity s
  else if e + digits <? -330 then S754_zero s
  else if 0 <=? e then
    binary_normalize prec emax
      ((if s then Z.neg m else Z.pos m) * 10 ^ e) 0 false
  else
    let '(q, e', l) :=
      SFdiv_core_binary prec emax (Z.pos m) 0 (10 ^ (- e)) 0 in
    binary_round_aux prec emax s q e' l.

End Num.

(** ** JavaScript strings

    A string is a sequence of code units; the model keeps the code units
    below 256 (Latin-1), which is what [String.string] holds. *)

Module Str.

(** WhiteSpace and LineTerminator code units below 256: TAB, LF, VT, FF,
    CR, SP and NBSP. *)
Definition is_ws (c : ascii) : bool :=
  let n := nat_of_ascii c in
  ((9 <=? n) && (n <=? 13))%nat || (n =? 32)%nat || (n =? 160)%nat.

Fixpoint trimStart_list (l : list ascii) : list ascii :=
  match l with
  | c :: l' => if is_ws c then trimStart_list l' else l
  | [] => []
  end.

Definition trim_list (l : list ascii) : list ascii :=
  rev (trimStart_list (rev (trimStart_list l))).

(** [s.trim()] *)
Definition trim (s : string) : string :=
  string_of_list_ascii (trim_list (list_ascii_of_string s)).

(** [!s] is true exactly for the empty string. *)
Definition truthy (s : string) : bool :=
  match s with EmptyString => false | _ => true end.

(** [s.toLowerCase()] on Latin-1: A-Z, and the accented capitals
    U+00C0-U+00DE except the multiplication sign U+00D7. *)
Definition lower_char (c : ascii) : ascii :=
  let n := nat_of_ascii c in
  if ((65 <=? n) && (n <=? 90))%nat
     || ((192 <=? n) && (n <=? 222) && negb (n =? 215))%nat
  then ascii_of_nat (n + 32) else c.

Fixpoint toLowerCase (s : string) : string :=
  match s with
  | EmptyString => EmptyString
  | String c s' => String (lower_char c) (toLowerCase s')
  end.

(** *** StringToNumber, the conversion behind [Number(s)] *)

Definition digit_of (base : Z) (c : ascii) : option Z :=
  let n := Z.of_nat (nat_of_ascii c) in
  let d :=
    if (48 <=? n) && (n <=? 57) then Some (n - 48)
    else if (97 <=? n) && (n <=? 122) then Some (n - 87)
    else if (65 <=? n) && (n <=? 90) then Some (n - 55)
    else None in
  match d with
  | Some v => if v <? base then Some v else None
  | None => None
  end.

(** Reads the longest prefix of digits in [base]: the value read so far,
    the number of digits read, and the rest. *)
Fixpoint digits (base : Z) (acc : Z) (count : Z) (l : list ascii)
  : Z * Z * list ascii :=
  match l with
  | c :: l' =>
      match digit_of base c with
      | Some d => digits base (acc * base + d) (count + 1) l'
      | None => (acc, count, l)
      end
  | [] => (acc, count, [])
  end.

Definition sign_prefix (l : list ascii) : bool * list ascii :=
  match l with
  | "-"%char :: l' => (true, l')
  | "+"%char :: l' => (false, l')
  | _ => (false, l)
  end.

(** ExponentPart, optional: [Some e] when the rest of the literal is a
    well-formed exponent or empty, [None] when it is anything else. *)
Definition exponent_part (l : list ascii) : option Z :=
  match l with
  | [] => Some 0
  | c :: l' =>
      if (Ascii.eqb c "e" || Ascii.eqb c "E")%char then
        let '(neg, l'') := sign_prefix l' in
        match digits 10 0 0 l'' with
        | (v, n, []) => if 0 <? n then Some (if neg then - v else v) else None
        | _ => None
        end
      else None
  end.

(** StrUnsignedDecimalLiteral with its sign already read. *)
Definition unsigned_decimal (s : bool) (l : list ascii) : number :=
  if String.eqb (string_of_list_ascii l) "Infinity" then S754_infinity s
  else
    let '(ip, ni, rest) := digits 10 0 0 l in
    let '(m, nf, rest') :=
      match rest with
      | "."%char :: r => digits 10 ip 0 r
      | _ => (ip, 0, rest)
      end in
    if (ni + nf =? 0) then Num.NaN
    else
      match exponent_part rest' with
      | None => Num.NaN
      | Some e =>
          match m with
          | Z.pos p => Num.of_decimal s p (e - nf) (ni + nf)
          | _ => S754_zero s
          end
      end.

(** NonDecimalIntegerLiteral: [0x], [0o] and [0b] prefixes, no sign. *)
Definition non_decimal (l : list ascii) : option number :=
  match l with
  | "0"%char :: c :: l' =>
      let base :=
        if (Ascii.eqb c "x" || Ascii.eqb c "X")%char then Some 16
        else if (Ascii.eqb c "o" || Ascii.eqb c "O")%char then Some 8
        else if (Ascii.eqb c "b" || Ascii.eqb c "B")%char then Some 2
        else None in
      match base with
      | Some b =>
          match digits b 0 0 l' with
          | (v, n, []) => Some (if 0 <? n then Num.of_Z v else Num.NaN)
          | _ => Some Num.NaN
          end
      | None => None
      end
  | _ => None
  end.

(** [Number(s)] for a string [s]: white space is trimmed, the empty string
    is +0, anything that is not a StrNumericLiteral is NaN. *)
Definition toNumber (s : string) : number :=
  match trim_list (list_ascii_of_string s) with
  | [] => Num.zero
  | l =>
      match non_decimal l with
      | Some x => x
      | None => let '(neg, l') := sign_prefix l in unsigned_decimal neg l'
      end
  end.

End Str.

(** ** Parsed JSON and the values read from it

    [JSON.parse] produces null, booleans, Numbers, strings, arrays and plain
    objects; reading a property that is not there produces [undefined].  An
    object is the list of its own properties, each name once. *)

#[local] Set Warnings "-register-all".

Inductive value : Type :=
  | VUndef
  | VNull
  | VBool (b : bool)
  | VNum (x : number)
  | VStr (s : string)
  | VArr (items : list value)
  | VObj (props : list (string * value)).

Module Val.

(** ToBoolean *)
Definition truthy (v : value) : bool :=
  match v with
  | VUndef | VNull => false
  | VBool b => b
  | VNum x => Num.truthy x
  | VStr s => Str.truthy s
  | VArr _ | VObj _ => true
  end.

(** [v || d] *)
Definition or_else (v d : value) : value := if truthy v then v else d.

Fixpoint own (props : list (string * value)) (k : string) : option value :=
  match props with
  | [] => None
  | (k', v) :: rest => if String.eqb k' k then Some v else own rest k
  end.

(** [v.k] for a value [v] that is neither null nor undefined and a name
    [k] that no built-in prototype defines (all the names the page reads:
    income, expenses, categories, id, date, desc, amount, notes, category,
    rates, USD). *)
Definition get (v : value) (k : string) : value :=
  match v with
  | VObj props => match own props k with Some x => x | None => VUndef end
  | _ => VUndef
  end.

(** [Array.isArray(v)] *)
Definition isArray (v : value) : bool :=
  match v with VArr _ => true | _ => false end.

(** Converting an object to a primitive calls its [toString]; a parsed
    object that has an own property [toString] hides the inherited method
    behind a value that cannot be called, and the conversion throws a
    TypeError.  An array converts by joining the conversions of its
    elements. *)
Fixpoint unconvertible (v : value) : bool :=
  match v with
  | VObj props =>
      match own props "toString" with Some _ => true | None => false end
  | VArr items => existsb unconvertible items
  | _ => false
  end.

(** The Number that [Number(String(v))] denotes when [v] is the only
    element of an array: null and undefined join as the empty string, a
    Number prints as a literal that reads back as itself (-0 prints as
    [0]), booleans and objects print as text that is no numeric literal,
    and a text with a comma in it is no numeric literal either. *)
Fixpoint joined_number (v : value) : number :=
  match v with
  | VUndef | VNull => Num.zero
  | VBool _ => Num.NaN
  | VNum x => if Num.isZero x then Num.zero else x
  | VStr s => Str.toNumber s
  | VArr [] => Num.zero
  | VArr [e] => joined_number e
  | VArr _ => Num.NaN
  | VObj _ => Num.NaN
  end.

(** [Number(v)]; [None] is a thrown TypeError. *)
Definition toNumber (v : value) : option number :=
  match v with
  | VUndef => Some Num.NaN
  | VNull => Some Num.zero
  | VBool b => Some (if b then Num.of_Z 1 else Num.zero)
  | VNum x => Some x
  | VStr s => Some (Str.toNumber s)
  | VArr _ | VObj _ =>
      if unconvertible v then None else Some (joined_number v)
  end.

End Val.

(** ** The page's data

    [IncomeRow], [ExpenseRow] and [Toast] as the source declares them; an
    optional property is an [option]. *)

Record IncomeRow : Type := {
  id : string;
  date : string;
  desc : string;
  amount : number;
  notes : option string
}.

Record ExpenseRow : Type := {
  e_id : string;
  e_date : string;
  category : string;
  e_desc : string;
  e_amount : number;
  e_notes : option string
}.

Inductive ToastType : Type := info | success | error.

(** What an exception caught by the import handler can be: the SyntaxError
    of [JSON.parse], the [Error] the handler throws itself for a document
    without the two arrays, or a TypeError raised while the entries are
    converted. *)
Inductive Thrown : Type := SyntaxError | InvalidFormat | TypeError.

(** A toast's text: a literal of the source, or ["Import failed: "]
    followed by the message of the exception caught (the engine's own words
    for a SyntaxError or a TypeError, ["Invalid format: Missing
    income/expenses arrays"] for [InvalidFormat]). *)
Inductive Message : Type :=
  | Text (s : string)
  | ImportFailed (e : Thrown).

Record Toast : Type := {
  toast_id : string;
  message : Message;
  type : ToastType
}.

Record IncomeForm : Type := {
  f_date : string;
  f_desc : string;
  f_amount : string;
  f_notes : string
}.

Record ExpenseForm : Type := {
  x_date : string;
  x_category : string;
  x_desc : string;
  x_amount : string;
  x_notes : string
}.

(** The component's state cells.  [toasts] lists the toasts on the screen
    (a toast is taken off by its timer, [expireToast]); [ticks] counts the calls
    of [uid] so far, which is where the clock and the random generator are
    read. *)
Record State : Type := {
  rate : number;
  income : list IncomeRow;
  expenses : list ExpenseRow;
  categories : list string;
  incomeForm : IncomeForm;
  expenseForm : ExpenseForm;
  toasts : list Toast;
  ticks : nat
}.

(** The outside world as [uid] sees it: the [k]-th call reads
    [Date.now()], an integral number of milliseconds, and the six base-36
    digits that [Math.random().toString(36).slice(2,8)] leaves. *)
Record Env : Type := {
  Date_now : nat -> Z;
  Math_random : nat -> string
}.

Definition RATE_MAX_AGE_MS : number :=
  Num.mul (Num.mul (Num.mul (Num.of_Z 1000) (Num.of_Z 60)) (Num.of_Z 60))
    (Num.of_Z 12).

Definition DEFAULT_CATEGORIES : list string :=
  [ "Room and Utility"; "Daily Expense"; "Borrow Others"; "Food & Drinks";
    "Transportation"; "Entertainment"; "Shopping"; "Other" ].

Definition DEFAULT_RATE : number := Num.of_Z 1388.

(** *** [uid] *)

Definition digit36 (d : Z) : ascii :=
  ascii_of_nat (Z.to_nat (if d <? 10 then 48 + d else 87 + d)).

Fixpoint base36 (fuel : nat) (n : Z) (acc : string) : string :=
  match fuel with
  | O => acc
  | S fuel' =>
      let acc' := String (digit36 (n mod 36)) acc in
      if n / 36 =? 0 then acc' else base36 fuel' (n / 36) acc'
  end.

(** [n.toString(36)] for an integral [n]. *)
Definition toString36 (n : Z) : string :=
  let digits := base36 (S (Z.to_nat (Z.log2 (Z.abs n)))) (Z.abs n) "" in
  if n <? 0 then String "-" digits else digits.

Definition krwToUsd (krw rate : number) : number :=
  let normalizedRate := rate in
  if negb (Num.isFinite normalizedRate) || Num.le normalizedRate Num.zero
  then Num.zero
  else Num.div krw normalizedRate.

Definition initial_state : State := {|
  rate := DEFAULT_RATE;
  income := [];
  expenses := [];
  categories := DEFAULT_CATEGORIES;
  incomeForm := {| f_date := ""; f_desc := ""; f_amount := ""; f_notes := "" |};
  expenseForm :=
    {| x_date := ""; x_category := ""; x_desc := ""; x_amount := "";
       x_notes := "" |};
  toasts := [];
  ticks := 0
|}.

(** [setRate], [setIncome], ... : one state cell replaced. *)
Definition setRate (r : number) (st : State) : State :=
  {| rate := r; income := income st; expenses := expenses st;
     categories := categories st; incomeForm := incomeForm st;
     expenseForm := expenseForm st; toasts := toasts st; ticks := ticks st |}.

Definition setIncome (v : list IncomeRow) (st : State) : State :=
  {| rate := rate st; income := v; expenses := expenses st;
     categories := categories st; incomeForm := incomeForm st;
     expenseForm := expenseForm st; toasts := toasts st; ticks := ticks st |}.

Definition setExpenses (v : list ExpenseRow) (st : State) : State :=
  {| rate := rate st; income := income st; expenses := v;
     categories := categories st; incomeForm := incomeForm st;
     expenseForm := expenseForm st; toasts := toasts st; ticks := ticks st |}.

Definition setCategories (c : list string) (st : State) : State :=
  {| rate := rate st; income := income st; expenses := expenses st;
     categories := c; incomeForm := incomeForm st;
     expenseForm := expenseForm st; toasts := toasts st; ticks := ticks st |}.

Definition setIncomeForm (f : IncomeForm) (st : State) : State :=
  {| rate := rate st; income := income st; expenses := expenses st;
     categories := categories st; incomeForm := f;
     expenseForm := expenseForm st; toasts := toasts st; ticks := ticks st |}.

Definition setExpenseForm (f : ExpenseForm) (st : State) : State :=
  {| rate := rate st; income := income st; expenses := expenses st;
     categories := categories st; incomeForm := incomeForm st;
     expenseForm := f; toasts := toasts st; ticks := ticks st |}.

Definition setToasts (t : list Toast) (st : State) : State :=
  {| rate := rate st; income := income st; expenses := expenses st;
     categories := categories st; incomeForm := incomeForm st;
     expenseForm := expenseForm st; toasts := t; ticks := ticks st |}.

Definition setTicks (k : nat) (st : State) : State :=
  {| rate := rate st; income := income st; expenses := expenses st;
     categories := categories st; incomeForm := incomeForm st;
     expenseForm := expenseForm st; toasts := toasts st; ticks := k |}.

(** ** The handlers *)

(** The [type] argument of [onDelete]: ["income"] or ["expense"]. *)
Inductive RecordKind : Type := KIncome | KExpense.

(** The text of the picked file as [JSON.parse] sees it: empty (the handler
    then parses ["{}"]), not JSON, or the text of a JSON value. *)
Inductive FileText : Type :=
  | EmptyText
  | Garbled
  | Parses (obj : value).

(** [localStorage.getItem(key)]: the call throws, or returns null or a
    string. *)
Inductive Read : Type :=
  | ReadThrows
  | ReadValue (v : option string).

(** [await fetch(url)] followed by [await res.json()]: the request fails, or
    a response arrives with its [ok] flag and a body that is JSON or not. *)
Inductive Fetched : Type :=
  | NetworkError
  | Response (ok : bool) (body : option value).

(** Why the conversion of an imported document stops: an exception, or a
    property that the row types declare a string and that holds a truthy
    value of another type.  The page keeps such a value as it is; the typed
    rows of this model cannot, so the model makes no statement there. *)
Inductive Abort : Type :=
  | Throw (e : Thrown)
  | Untyped.

(** How [reader.onload] ends: the three collections are replaced; the user
    declines and nothing happens; an exception is caught and reported; or
    the document is one the typed rows cannot hold (see [Abort]). *)
Inductive ImportResult : Type :=
  | Replaced (st : State)
  | Declined (st : State)
  | Rejected (e : Thrown) (st : State)
  | Unmodelled.

Record Totals : Type := {
  incomeKRW : number;
  expenseKRW : number;
  remainingKRW : number;
  incomeUSD : number;
  expenseUSD : number;
  remainingUSD : number
}.

(** The names every object inherits from [Object.prototype]: reading one of
    them from the [byCat] object finds the inherited member, not a sum. *)
Definition Object_prototype_names : list string :=
  [ "constructor"; "hasOwnProperty"; "isPrototypeOf"; "propertyIsEnumerable";
    "toLocaleString"; "toString"; "valueOf"; "__proto__";
    "__defineGetter__"; "__defineSetter__"; "__lookupGetter__";
    "__lookupSetter__" ].

Definition inherited (k : string) : bool :=
  existsb (String.eqb k) Object_prototype_names.

(** A computation that reads [uid] as it goes and may stop early. *)
Definition Conv (A : Type) : Type := nat -> (A + Abort) * nat.

Definition ret {A : Type} (a : A) : Conv A := fun k => (inl a, k).

Definition abort {A : Type} (e : Abort) : Conv A := fun k => (inr e, k).

Definition bind {A B : Type} (m : Conv A) (f : A -> Conv B) : Conv B :=
  fun k =>
    match m k with
    | (inl a, k') => f a k'
    | (inr e, k') => (inr e, k')
    end.

Notation "'let!' x ':=' m 'in' f" := (bind m (fun x => f))
  (at level 10, x name, m at level 200, f at level 200,
   format "'let!'  x  ':='  m  'in'  '//' f").

Fixpoint mapM {A B : Type} (f : A -> Conv B) (l : list A) : Conv (list B) :=
  match l with
  | [] => ret []
  | a :: l' => let! b := f a in let! bs := mapM f l' in ret (b :: bs)
  end.

(** A truthy value kept in a property declared [string]. *)
Definition as_text (v : value) : Conv string :=
  match v with
  | VStr s => ret s
  | _ => abort Untyped
  end.

(** [v || d] for a property declared [string]. *)
Definition text_or (v : value) (d : string) : Conv string :=
  if Val.truthy v then as_text v else ret d.

(** [Number(v)] where a TypeError may be thrown. *)
Definition number_of (v : value) : Conv number :=
  match Val.toNumber v with
  | Some x => ret x
  | None => abort (Throw TypeError)
  end.

(** [String(c)] for an entry of the imported category list: a string is
    itself, null and the booleans print as their names; printing a Number
    (alone or inside an array or object) is not modelled. *)
Definition String_of (c : value) : Conv string :=
  match c with
  | VStr s => ret s
  | VNull => ret "null"
  | VBool true => ret "true"
  | VBool false => ret "false"
  | _ => abort Untyped
  end.

(** [Array.from(new Set(l))]: the first occurrence of each string, in
    order. *)
Definition Array_from_Set (l : list string) : list string :=
  fold_left
    (fun seen x => if existsb (String.eqb x) seen then seen else (seen ++ [x])%list)
    l [].

(** [JSON.parse(JSON.stringify(x))] for a Number: NaN and the infinities are
    written as [null], -0 as [0], and every other Number as a literal that
    reads back as the same Number. *)
Definition json_number (x : number) : value :=
  if Num.isFinite x then VNum (if Num.isZero x then Num.zero else x)
  else VNull.

Definition json_income (r : IncomeRow) : value :=
  VObj ([ ("id", VStr (id r)); ("date", VStr (date r));
          ("desc", VStr (desc r)); ("amount", json_number (amount r)) ]
        ++ match notes r with
           | Some s => [ ("notes", VStr s) ]
           | None => []
           end)%list.

Definition json_expense (r : ExpenseRow) : value :=
  VObj ([ ("id", VStr (e_id r)); ("date", VStr (e_date r));
          ("category", VStr (category r)); ("desc", VStr (e_desc r));
          ("amount", json_number (e_amount r)) ]
        ++ match e_notes r with
           | Some s => [ ("notes", VStr s) ]
           | None => []
           end)%list.

(** [data?.k] *)
Definition opt_get (v : value) (k : string) : value :=
  match v with
  | VUndef | VNull => VUndef
  | _ => Val.get v k
  end.

Section Handlers.

Variable env : Env.

Definition uid (k : nat) : string :=
  "id-" ++ toString36 (Date_now env k) ++ "-" ++ Math_random env k.

Definition fresh : Conv string := fun k => (inl (uid k), S k).

Definition toast (msg : Message) (ty : ToastType) (st : State) : State :=
  let id := uid (ticks st) in
  setTicks (S (ticks st))
    (setToasts (toasts st ++ [ {| toast_id := id; message := msg; type := ty |} ])%list
       st).

Definition onAddIncome (st : State) : State :=
  let date := Str.trim (f_date (incomeForm st)) in
  let desc := Str.trim (f_desc (incomeForm st)) in
  let amount := Num.round (Str.toNumber (f_amount (incomeForm st))) in
  let ok := true in
  let ok := if negb (Str.truthy date) then false else ok in
  let ok := if negb (Str.truthy desc) then false else ok in
  let ok := if negb (Num.gt amount Num.zero) then false else ok in
  if negb ok then toast (Text "Please fix the errors above.") error st
  else
    let row :=
      {| id := uid (ticks st); date := date; desc := desc; amount := amount;
         notes := Some (Str.trim (f_notes (incomeForm st))) |} in
    let st := setTicks (S (ticks st)) st in
    let st := setIncome (income st ++ [row])%list st in
    let st := toast (Text "Income added") success st in
    setIncomeForm
      {| f_date := f_date (incomeForm st); f_desc := ""; f_amount := "";
         f_notes := "" |} st.

Definition onAddExpense (st : State) : State :=
  let date := Str.trim (x_date (expenseForm st)) in
  let category := Str.trim (x_category (expenseForm st)) in
  let desc := Str.trim (x_desc (expenseForm st)) in
  let amount := Num.round (Str.toNumber (x_amount (expenseForm st))) in
  let ok := true in
  let ok := if negb (Str.truthy date) then false else ok in
  let ok := if negb (Str.truthy category) then false else ok in
  let ok := if negb (Str.truthy desc) then false else ok in
  let ok := if negb (Num.gt amount Num.zero) then false else ok in
  if negb ok then toast (Text "Please fix the errors above.") error st
  else
    let row :=
      {| e_id := uid (ticks st); e_date := date; category := category;
         e_desc := desc; e_amount := amount;
         e_notes := Some (Str.trim (x_notes (expenseForm st))) |} in
    let st := setTicks (S (ticks st)) st in
    let st := setExpenses (expenses st ++ [row])%list st in
    let st := toast (Text "Expense added") success st in
    setExpenseForm
      {| x_date := x_date (expenseForm st); x_category := ""; x_desc := "";
         x_amount := ""; x_notes := "" |} st.

(** [answer] is what [window.prompt] returned: [None] when cancelled. *)
Definition onAddCategory (answer : option string) (st : State) : State :=
  match answer with
  | None => st
  | Some typed =>
      let name := Str.trim typed in
      if negb (Str.truthy name) then st
      else if existsb
                (fun c => String.eqb (Str.toLowerCase c) (Str.toLowerCase name))
                (categories st)
      then toast (Text "Category already exists") error st
      else
        let st := setCategories (categories st ++ [name])%list st in
        let st :=
          setExpenseForm
            {| x_date := x_date (expenseForm st); x_category := name;
               x_desc := x_desc (expenseForm st);
               x_amount := x_amount (expenseForm st);
               x_notes := x_notes (expenseForm st) |} st in
        toast (Text "Category added") success st
  end.

(** [ok] is what [window.confirm] returned. *)
Definition onDelete (i : string) (kind : RecordKind) (ok : bool) (st : State)
  : State :=
  if negb ok then st
  else
    let st :=
      match kind with
      | KIncome =>
          setIncome (List.filter (fun r => negb (String.eqb (id r) i)) (income st)) st
      | KExpense =>
          setExpenses
            (List.filter (fun r => negb (String.eqb (e_id r) i)) (expenses st)) st
      end in
    toast (Text "Record deleted") success st.

Definition clearAll (ok : bool) (st : State) : State :=
  if negb ok then st
  else
    toast (Text "All data cleared") success
      (setCategories DEFAULT_CATEGORIES (setExpenses [] (setIncome [] st))).

(** *** Export and import *)

(** The document that [exportJSON] offers for download, as [JSON.parse]
    reads it back; [exportedAt] is [new Date().toISOString()]. *)
Definition export_document (exportedAt : string) (st : State) : value :=
  VObj [ ("version", VNum (Num.of_Z 1));
         ("rate", json_number (rate st));
         ("exportedAt", VStr exportedAt);
         ("income", VArr (map json_income (income st)));
         ("expenses", VArr (map json_expense (expenses st)));
         ("categories", VArr (map VStr (categories st))) ].

Definition exportJSON (exportedAt : string) (st : State) : value * State :=
  (export_document exportedAt st,
   toast (Text "Exported JSON downloaded") success st).

(** The arrow function mapped over [obj.income]. *)
Definition import_income (n : value) : Conv IncomeRow :=
  match n with
  | VUndef | VNull => abort (Throw TypeError)
  | _ =>
      let! i :=
        (if Val.truthy (Val.get n "id") then as_text (Val.get n "id")
         else fresh) in
      let! d := text_or (Val.get n "date") "" in
      let! t := text_or (Val.get n "desc") "" in
      let! a := number_of (Val.or_else (Val.get n "amount") (VNum Num.zero)) in
      let! o := text_or (Val.get n "notes") "" in
      ret {| id := i; date := d; desc := t; amount := Num.max Num.zero a;
             notes := Some o |}
  end.

(** The arrow function mapped over [obj.expenses]. *)
Definition import_expense (n : value) : Conv ExpenseRow :=
  match n with
  | VUndef | VNull => abort (Throw TypeError)
  | _ =>
      let! i :=
        (if Val.truthy (Val.get n "id") then as_text (Val.get n "id")
         else fresh) in
      let! d := text_or (Val.get n "date") "" in
      let! c := text_or (Val.get n "category") "Other" in
      let! t := text_or (Val.get n "desc") "" in
      let! a := number_of (Val.or_else (Val.get n "amount") (VNum Num.zero)) in
      let! o := text_or (Val.get n "notes") "" in
      ret {| e_id := i; e_date := d; category := c; e_desc := t;
             e_amount := Num.max Num.zero a; e_notes := Some o |}
  end.

(** The three conversions of the [try] block, in the order the source
    runs them. *)
Definition import_rows (income_items expenses_items : list value)
    (categories_field : value)
  : Conv (list IncomeRow * list ExpenseRow * list string) :=
  let! inc := mapM import_income income_items in
  let! exp := mapM import_expense expenses_items in
  let! cat :=
    match categories_field with
    | VArr (c :: cs) => mapM String_of (c :: cs)
    | _ => ret DEFAULT_CATEGORIES
    end in
  ret (inc, exp, cat).

(** [reader.onload]; [confirmReplace] is what [window.confirm] returns if
    it is asked. *)
Definition onFilePicked (file : FileText) (confirmReplace : bool) (st : State)
  : ImportResult :=
  let failed e st := Rejected e (toast (ImportFailed e) error st) in
  match file with
  | Garbled => failed SyntaxError st
  | EmptyText | Parses _ =>
      let obj := match file with Parses v => v | _ => VObj [] end in
      if negb (Val.truthy obj)
         || negb (Val.isArray (Val.get obj "income"))
         || negb (Val.isArray (Val.get obj "expenses"))
      then failed InvalidFormat st
      else if negb confirmReplace then Declined st
      else
        match Val.get obj "income", Val.get obj "expenses" with
        | VArr income_items, VArr expenses_items =>
            match import_rows income_items expenses_items
                    (Val.get obj "categories") (ticks st) with
            | (inl (inc, exp, cat), k) =>
                let st := setTicks k st in
                let st := setIncome inc st in
                let st := setExpenses exp st in
                let st :=
                  setCategories
                    (Array_from_Set (cat ++ map category exp)%list) st in
                Replaced (toast (Text "Import successful") success st)
            | (inr (Throw e), k) => failed e (setTicks k st)
            | (inr Untyped, _) => Unmodelled
            end
        | _, _ => failed InvalidFormat st
        end
  end.

(** *** The exchange rate *)

(** The effect that adopts the saved rate on start-up; [saved] is
    [localStorage.getItem(RATE_STORAGE_KEY)]. *)
Definition loadRate (saved : Read) (st : State) : State :=
  match saved with
  | ReadThrows => st
  | ReadValue None => st
  | ReadValue (Some s) =>
      if negb (Str.truthy s) then st
      else
        let parsed := Str.toNumber s in
        if negb (Num.isFinite parsed) || Num.le parsed Num.zero then st
        else setRate parsed st
  end.

(** The staleness test of the refresh effect: whether [refreshRate()] is
    called.  [now] is [Date.now()], [stored] is
    [localStorage.getItem(RATE_FETCHED_AT_KEY)]; [Number(null)] is +0. *)
Definition shouldRefresh (now : Z) (stored : Read) : bool :=
  match stored with
  | ReadThrows => true
  | ReadValue v =>
      let lastFetched :=
        match v with
        | None => Num.zero
        | Some s => Str.toNumber s
        end in
      negb (Num.isFinite lastFetched)
      || Num.gt (Num.sub (Num.of_Z now) lastFetched) RATE_MAX_AGE_MS
  end.

(** [refreshRate]; [cancelled] is the flag as it stands when the request
    settles.  Writing the new rate and its timestamp to local storage is
    not part of the model. *)
Definition refreshRate (res : Fetched) (cancelled : bool) (st : State) : State :=
  let failed :=
    if cancelled then st
    else
      toast (Text "Unable to refresh exchange rate. Using the last known value.")
        error st in
  match res with
  | NetworkError => failed
  | Response false _ => failed
  | Response true None => failed
  | Response true (Some data) =>
      match Val.toNumber (opt_get (opt_get data "rates") "USD") with
      | None => failed
      | Some usdPerKrw =>
          if negb (Num.isFinite usdPerKrw) || Num.le usdPerKrw Num.zero
          then failed
          else
            let krwPerUsd := Num.div (Num.of_Z 1) usdPerKrw in
            if cancelled then st else setRate krwPerUsd st
      end
  end.

End Handlers.

(** *** Summary *)

Definition totals (income : list IncomeRow) (expenses : list ExpenseRow)
    (rate : number) : Totals :=
  let incomeKRW :=
    fold_left (fun s r => Num.add s (Num.or_else (amount r) Num.zero))
      income Num.zero in
  let expenseKRW :=
    fold_left (fun s r => Num.add s (Num.or_else (e_amount r) Num.zero))
      expenses Num.zero in
  let remainingKRW := Num.sub incomeKRW expenseKRW in
  {| incomeKRW := incomeKRW; expenseKRW := expenseKRW;
     remainingKRW := remainingKRW;
     incomeUSD := krwToUsd incomeKRW rate;
     expenseUSD := krwToUsd expenseKRW rate;
     remainingUSD := krwToUsd remainingKRW rate |}.

(** [byCat[k] || 0] for a name [k] that is not inherited. *)
Definition count_or_0 (byCat : gmap string number) (k : string) : number :=
  match byCat !! k with
  | Some x => Num.or_else x Num.zero
  | None => Num.zero
  end.

(** The [byCat] object that the loop over the expenses builds: its own
    properties that hold Numbers.  Under an inherited name the loop reads the
    inherited member, which is truthy and no Number, and what it then writes
    is text: that name never holds a Number. *)
Definition breakdown (expenses : list ExpenseRow) : gmap string number :=
  fold_left
    (fun byCat e =>
       if inherited (category e) then byCat
       else
         <[ category e :=
              Num.add (count_or_0 byCat (category e))
                (Num.or_else (e_amount e) Num.zero) ]> byCat)
    expenses ∅.

(** [breakdown[cat] || 0] in a row of the breakdown table: a Number, or
    [None] for the member found under an inherited name. *)
Definition row_amt (byCat : gmap string number) (cat : string) : option number :=
  if inherited cat then None else Some (count_or_0 byCat cat).

(** [(amt / (totals.expenseKRW || 1)) * 100]; what is no Number converts to
    NaN. *)
Definition row_pct (amt : option number) (expenseKRW : number) : number :=
  let a := match amt with Some x => x | None => Num.NaN end in
  Num.mul (Num.div a (Num.or_else expenseKRW (Num.of_Z 1))) (Num.of_Z 100).

(** The rows of the breakdown table: category, amount, percentage. *)
Definition breakdown_table (st : State) : list (string * option number * number) :=
  let t := totals (income st) (expenses st) (rate st) in
  let byCat := breakdown (expenses st) in
  map (fun cat =>
         let amt := row_amt byCat cat in
         (cat, amt, row_pct amt (expenseKRW t)))
    (categories st).

(** ** Vocabulary of the statements *)

Section Outcomes.

Variable env : Env.

(** What the validation of the income form computes. *)
Definition income_ok (st : State) : bool :=
  Str.truthy (Str.trim (f_date (incomeForm st)))
  && Str.truthy (Str.trim (f_desc (incomeForm st)))
  && Num.gt (Num.round (Str.toNumber (f_amount (incomeForm st)))) Num.zero.

(** What the validation of the expense form computes. *)
Definition expense_ok (st : State) : bool :=
  Str.truthy (Str.trim (x_date (expenseForm st)))
  && Str.truthy (Str.trim (x_category (expenseForm st)))
  && Str.truthy (Str.trim (x_desc (expenseForm st)))
  && Num.gt (Num.round (Str.toNumber (x_amount (expenseForm st)))) Num.zero.

Definition new_income (st : State) : IncomeRow :=
  {| id := uid env (ticks st);
     date := Str.trim (f_date (incomeForm st));
     desc := Str.trim (f_desc (incomeForm st));
     amount := Num.round (Str.toNumber (f_amount (incomeForm st)));
     notes := Some (Str.trim (f_notes (incomeForm st))) |}.

Definition new_expense (st : State) : ExpenseRow :=
  {| e_id := uid env (ticks st);
     e_date := Str.trim (x_date (expenseForm st));
     category := Str.trim (x_category (expenseForm st));
     e_desc := Str.trim (x_desc (expenseForm st));
     e_amount := Num.round (Str.toNumber (x_amount (expenseForm st)));
     e_notes := Some (Str.trim (x_notes (expenseForm st))) |}.

Definition validation_toast (st : State) : Toast :=
  {| toast_id := uid env (ticks st);
     message := Text "Please fix the errors above.";
     type := error |}.

End Outcomes.

(** A picked file without the two arrays: empty, not JSON, or a JSON value
    whose [income] or [expenses] is not an array (which includes every value
    that is no object at all). *)
Definition lacks_arrays (file : FileText) : Prop :=
  match file with
  | EmptyText | Garbled => True
  | Parses obj =>
      Val.isArray (Val.get obj "income") = false
      \/ Val.isArray (Val.get obj "expenses") = false
  end.

(** A world for the examples: the clock starts on 14 November 2023 and
    advances one millisecond per reading. *)
Definition sample_env : Env :=
  {| Date_now := fun k => 1700000000000 + Z.of_nat k;
     Math_random := fun _ => "k3x9qa" |}.

(** The expense form filled in with a category that the category set does
    not list. *)
Definition travel_form : State :=
  setExpenseForm
    {| x_date := "2024-01-01"; x_category := "Travel"; x_desc := "Bus";
       x_amount := "1200"; x_notes := "" |}
    initial_state.

(** The income form holding an amount beyond the binary64 range. *)
Definition overflow_form : State :=
  setIncomeForm
    {| f_date := "2024-01-01"; f_desc := "Salary"; f_amount := "1e999";
       f_notes := "" |}
    initial_state.

(** The income form of the specification's example. *)
Definition salary_form : State :=
  setIncomeForm
    {| f_date := "2024-01-01"; f_desc := "Salary"; f_amount := "3000000";
       f_notes := "" |}
    initial_state.

(** A document with one income entry; [amount] is the entry's amount. *)
Definition one_income_document (amount : value) : FileText :=
  Parses
    (VObj [ ("income",
             VArr [ VObj [ ("date", VStr "2024-01-01"); ("desc", VStr "X");
                           ("amount", amount) ] ]);
            ("expenses", VArr []);
            ("categories", VArr []) ]).

(** A response of the rate provider whose USD factor is the smallest
    positive Number, 5e-324. *)
Definition tiny_factor_response : Fetched :=
  Response true
    (Some (VObj [ ("rates", VObj [ ("USD", VNum (Str.toNumber "5e-324")) ]) ])).

(** A Number that survives both the writing as JSON and the import: +0 or
    a positive finite Number. *)
Definition plain_amount (x : number) : bool :=
  match x with
  | S754_zero false | S754_finite false _ _ => true
  | _ => false
  end.

(** What the import makes of an exported income record: everything is kept,
    absent notes come back as the empty text, and an empty identifier is
    replaced by a generated one. *)
Definition same_income (env : Env) (r r' : IncomeRow) : Prop :=
  date r' = date r
  /\ desc r' = desc r
  /\ amount r' = amount r
  /\ notes r' = Some (match notes r with Some s => s | None => "" end)
  /\ (id r <> "" -> id r' = id r)
  /\ (id r = "" -> exists k, id r' = uid env k).

Definition same_expense (env : Env) (r r' : ExpenseRow) : Prop :=
  e_date r' = e_date r
  /\ category r' = category r
  /\ e_desc r' = e_desc r
  /\ e_amount r' = e_amount r
  /\ e_notes r' = Some (match e_notes r with Some s => s | None => "" end)
  /\ (e_id r <> "" -> e_id r' = e_id r)
  /\ (e_id r = "" -> exists k, e_id r' = uid env k).

(** The expense form filled in with a listed category. *)
Definition groceries_form (st : State) : State :=
  setExpenseForm
    {| x_date := "2024-01-02"; x_category := "Food & Drinks";
       x_desc := "Groceries"; x_amount := "35000"; x_notes := "" |}
    st.

(** A ledger built by the handlers: one income record and one expense. *)
Definition sample_ledger : State :=
  onAddExpense sample_env (groceries_form (onAddIncome sample_env salary_form)).

(** The sum that the loop of [breakdown] accumulates under one category:
    the amounts of the expenses that bear it, added one by one in the order
    of the list, each partial sum read back with [|| 0]. *)
Definition category_sum (c : string) (expenses : list ExpenseRow) : number :=
  fold_left
    (fun s e => Num.add (Num.or_else s Num.zero) (Num.or_else (e_amount e) Num.zero))
    (List.filter (fun e => String.eqb (category e) c) expenses)
    Num.zero.

(** An amount that is a whole, non-negative number of won. *)
Definition whole_amount (x : number) : Prop :=
  x = Num.of_Z (Num.to_Z x) /\ 0 <= Num.to_Z x.

(** The exact sum of whole amounts. *)
Definition whole_sum (expenses : list ExpenseRow) : Z :=
  fold_right (fun e s => Num.to_Z (e_amount e) + s) 0 expenses.

(** The exact sum of the whole amounts under one category. *)
Definition whole_category_sum (c : string) (expenses : list ExpenseRow) : Z :=
  whole_sum (List.filter (fun e => String.eqb (category e) c) expenses).

(** The percentages of the breakdown table added up from the first row to
    the last. *)
Definition percent_total (st : State) : number :=
  fold_left Num.add (map snd (breakdown_table st)) Num.zero.

(** The expense form filled in with a category and an amount. *)
Definition fill_expense_form (c a : string) (st : State) : State :=
  setExpenseForm
    {| x_date := "2024-01-05"; x_category := c; x_desc := "x"; x_amount := a;
       x_notes := "" |}
    st.

(** One won under "Other" and two won under "Shopping", added through the
    expense form. *)
Definition thirds_ledger : State :=
  onAddExpense sample_env
    (fill_expense_form "Shopping" "2"
       (onAddExpense sample_env (fill_expense_form "Other" "1" initial_state))).

(** A document with one expense of half a won. *)
Definition half_won_object : value :=
  VObj [ ("income", VArr []);
         ("expenses",
          VArr [ VObj [ ("date", VStr "2024-01-05");
                        ("category", VStr "Other"); ("desc", VStr "x");
                        ("amount", VNum (Str.toNumber "0.5")) ] ]);
         ("categories", VArr [ VStr "Other" ]) ].

Definition half_won_document : FileText := Parses half_won_object.

(** The ledger after that document was imported. *)
Definition half_won_ledger : State :=
  match onFilePicked sample_env half_won_document true initial_state with
  | Replaced st => st
  | _ => initial_state
  end.

(** The exact category sums added up over the category set. *)
Definition whole_breakdown_sum (cats : list string) (expenses : list ExpenseRow) : Z :=
  fold_right (fun c s => whole_category_sum c expenses + s) 0 cats.

(** The amount shown in the row of category [c]. *)
Definition shown_amt (c : string) (expenses : list ExpenseRow) : option number :=
  if inherited c then None
  else Some (Num.or_else (category_sum c expenses) Num.zero).

(** A value that a property declared [string] can hold in this model: a
    string, or anything falsy (absent, null, false, 0). *)
Definition textual (v : value) : Prop :=
  match v with
  | VStr _ => True
  | _ => Val.truthy v = false
  end.

(** [v || d] for such a value. *)
Definition text_of (v : value) (d : string) : string :=
  match v with
  | VStr s => if Str.truthy s then s else d
  | _ => d
  end.

(** The toast of a failed refresh. *)
Definition refresh_failed (env : Env) (st : State) : State :=
  toast env
    (Text "Unable to refresh exchange rate. Using the last known value.")
    error st.

(** The income entry of the specification's example: no identifier, no
    notes, and the amount -50. *)
Definition minus_fifty_entry : value :=
  VObj [ ("date", VStr "2024-01-01"); ("desc", VStr "X");
         ("amount", VNum (Num.of_Z (-50))) ].

(** An expense entry that has nothing but an amount. *)
Definition bare_expense_entry : value :=
  VObj [ ("amount", VStr "1200") ].

(** The expense form filled in but for the category, which is blank. *)
Definition blank_category_form : State :=
  fill_expense_form "  " "1200" sample_ledger.

(** ** The rest of the page *)

(** *** [esc] *)

(** The object literal of [esc]: what the callback returns for one of the
    five characters that the pattern matches (ampersand, less-than,
    greater-than, double quote, apostrophe); [None] for any other. *)
Definition esc_entry (s : ascii) : option string :=
  if Ascii.eqb s "&" then Some "&"
  else if Ascii.eqb s "<" then Some "<"
  else if Ascii.eqb s ">" then Some ">"
  else if Ascii.eqb s (ascii_of_nat 34) then Some (String (ascii_of_nat 34) "")
  else if Ascii.eqb s "'" then Some "'"
  else None.

(** [String(str).replace(pattern, s => table[s])], the pattern being
    global. *)
Fixpoint esc (str : string) : string :=
  match str with
  | EmptyString => EmptyString
  | String c rest =>
      match esc_entry c with
      | Some r => r
      | None => String c EmptyString
      end ++ esc rest
  end.

(** *** Toasts *)

(** The callback that [toast] hands to [setTimeout] for the toast [i]. *)
Definition expireToast (i : string) (st : State) : State :=
  setToasts (List.filter (fun x => negb (String.eqb (toast_id x) i)) (toasts st)) st.

(** *** Reading an identifier back *)

(** The value of a string of base-36 digits, most significant first,
    continuing from [v]. *)
Fixpoint digits36_value (s : string) (v : Z) : option Z :=
  match s with
  | EmptyString => Some v
  | String c rest =>
      match Str.digit_of 36 c with
      | Some d => digits36_value rest (v * 36 + d)
      | None => None
      end
  end.

(** The integer that a string written by [toString36] denotes. *)
Definition decode36 (s : string) : option Z :=
  match s with
  | String "-" rest => option_map Z.opp (digits36_value rest 0)
  | _ => digits36_value s 0
  end.

(** No hyphen occurs in the string. *)
Fixpoint hyphen_free (s : string) : bool :=
  match s with
  | EmptyString => true
  | String c rest => negb (Ascii.eqb c "-") && hyphen_free rest
  end.

(** *** The page as a transition system *)

(** What the save effect leaves in the state: the toast of its [catch]
    when one of the three [setItem] calls throws.  [written] is the number
    of calls that succeed. *)
Definition save_outcome (env : Env) (written : nat) (st : State) : State :=
  if (written <? 3)%nat
  then toast env (Text "Failed to save to local storage.") error st
  else st.

(** What can happen to the mounted page: the user edits a form, submits
    one, adds a category, deletes a record, clears the ledger, exports,
    picks a file to import; the file reader fails; the save effect runs; a
    toast's timer fires; the saved rate is read; a rate request settles. *)
Inductive Action : Type :=
  | EditIncomeForm (f : IncomeForm)
  | EditExpenseForm (f : ExpenseForm)
  | SubmitIncome
  | SubmitExpense
  | AddCategory (answer : option string)
  | Delete (i : string) (kind : RecordKind) (ok : bool)
  | ClearAll (ok : bool)
  | Export (exportedAt : string)
  | Import (file : FileText) (confirmReplace : bool)
  | ReadFailed
  | Save (written : nat)
  | Expire (i : string)
  | LoadRate (saved : Read)
  | RefreshRate (res : Fetched) (cancelled : bool).

(** The state after an action; [None] where the import meets a document
    that the typed rows cannot hold. *)
Definition perform (env : Env) (a : Action) (st : State) : option State :=
  match a with
  | EditIncomeForm f => Some (setIncomeForm f st)
  | EditExpenseForm f => Some (setExpenseForm f st)
  | SubmitIncome => Some (onAddIncome env st)
  | SubmitExpense => Some (onAddExpense env st)
  | AddCategory answer => Some (onAddCategory env answer st)
  | Delete i kind ok => Some (onDelete env i kind ok st)
  | ClearAll ok => Some (clearAll env ok st)
  | Export exportedAt => Some (snd (exportJSON env exportedAt st))
  | Import file confirmReplace =>
      match onFilePicked env file confirmReplace st with
      | Replaced st' | Declined st' | Rejected _ st' => Some st'
      | Unmodelled => None
      end
  | ReadFailed => Some (toast env (Text "Failed to read file.") error st)
  | Save written => Some (save_outcome env written st)
  | Expire i => Some (expireToast i st)
  | LoadRate saved => Some (loadRate saved st)
  | RefreshRate res cancelled => Some (refreshRate env res cancelled st)
  end.

Fixpoint perform_all (env : Env) (actions : list Action) (st : State)
  : option State :=
  match actions with
  | [] => Some st
  | a :: rest =>
      match perform env a st with
      | Some st' => perform_all env rest st'
      | None => None
      end
  end.

(** A Number that is neither NaN nor negative: +0, a positive finite Number
    or +Infinity. *)
Definition positive_or_zero (x : number) : bool :=
  match x with
  | S754_zero false | S754_finite false _ _ | S754_infinity false => true
  | _ => false
  end.

(** The well-formedness of the ledger: every record has an identifier and
    notes and no amount below zero, every expense has a category, the
    category set is not empty and has no repetition, and the rate is
    neither NaN nor below zero. *)
Definition income_sound (r : IncomeRow) : bool :=
  Str.truthy (id r) && negb (Num.lt (amount r) Num.zero)
  && match notes r with Some _ => true | None => false end.

Definition expense_sound (r : ExpenseRow) : bool :=
  Str.truthy (e_id r) && Str.truthy (category r)
  && negb (Num.lt (e_amount r) Num.zero)
  && match e_notes r with Some _ => true | None => false end.

Fixpoint distinct (l : list string) : bool :=
  match l with
  | [] => true
  | x :: l' => negb (existsb (String.eqb x) l') && distinct l'
  end.

Definition ledger_sound (st : State) : bool :=
  forallb income_sound (income st)
  && forallb expense_sound (expenses st)
  && match categories st with [] => false | _ => true end
  && distinct (categories st)
  && negb (Num.isNaN (rate st)) && negb (Num.lt (rate st) Num.zero).

(** A morning at the page, with an import that brings in an amount that is
    no Number and a rate provider that answers with the smallest factor. *)
Definition sample_actions : list Action :=
  [ EditIncomeForm
      {| f_date := "2024-01-01"; f_desc := "Salary"; f_amount := "3000000";
         f_notes := "" |};
    SubmitIncome;
    AddCategory (Some "Travel");
    EditExpenseForm
      {| x_date := "2024-01-02"; x_category := "Travel"; x_desc := "Bus";
         x_amount := "1200.4"; x_notes := "to Busan" |};
    SubmitExpense;
    Export "2024-01-03T00:00:00.000Z";
    Import (one_income_document (VStr "abc")) true;
    RefreshRate tiny_factor_response false;
    SubmitExpense;
    Delete "id-none" KIncome true ].

(** A conversion never moves the counter of [uid] back. *)
Definition advancing {A : Type} (m : Conv A) : Prop :=
  forall k, (k <= snd (m k))%nat.

(** No amount of the collection is below zero (an amount that is NaN is
    not). *)
Definition no_income_below_zero (l : list IncomeRow) : bool :=
  forallb (fun r => negb (Num.lt (amount r) Num.zero)) l.

Definition no_expense_below_zero (l : list ExpenseRow) : bool :=
  forallb (fun r => negb (Num.lt (e_amount r) Num.zero)) l.

(** The ledger that the import of a document with an amount that is no
    Number leaves. *)
Definition NaN_ledger : State :=
  match onFilePicked sample_env (one_income_document (VStr "abc")) true
          sample_ledger with
  | Replaced st => st
  | _ => sample_ledger
  end.

(** *** Identifiers *)

(** A world in which [uid] can tell its calls apart: the random digits are
    digits, and no two calls read both the same clock value and the same
    digits. *)
Definition fresh_world (env : Env) : Prop :=
  (forall k, hyphen_free (Math_random env k) = true)
  /\ forall k k' : nat,
       k <> k' ->
       Date_now env k <> Date_now env k'
       \/ Math_random env k <> Math_random env k'.

Definition imports_nothing (a : Action) : bool :=
  match a with
  | Import _ _ => false
  | _ => true
  end.

(** The identifiers in use. *)
Definition ids (st : State) : list string :=
  (map id (income st) ++ map e_id (expenses st))%list.

(** Entries made by hand: two income records and two expenses, one of each
    deleted again. *)
Definition sample_entries : list Action :=
  [ EditIncomeForm
      {| f_date := "2024-01-01"; f_desc := "Salary"; f_amount := "3000000";
         f_notes := "" |};
    SubmitIncome;
    EditIncomeForm
      {| f_date := "2024-01-05"; f_desc := "Refund"; f_amount := "12000";
         f_notes := "" |};
    SubmitIncome;
    EditExpenseForm
      {| x_date := "2024-01-02"; x_category := "Other"; x_desc := "Bus";
         x_amount := "1200"; x_notes := "" |};
    SubmitExpense;
    Delete "id-loyw3v28-k3x9qa" KIncome true;
    ClearAll false ].

(** Every identifier in use was made by an earlier call of [uid], and no
    two records share one. *)
Definition minted (env : Env) (st : State) : Prop :=
  List.NoDup (ids st)
  /\ forall i, In i (ids st) -> exists k, (k < ticks st)%nat /\ i = uid env k.

(** *** What an exported record is after its import *)

(** The amount that comes back: the amount itself when it is finite and
    above zero, +0 in every other case (NaN and the infinities are written
    as [null], which the import reads as 0; a negative amount is raised to
    0). *)
Definition reimported_amount (x : number) : number :=
  if Num.isFinite x && Num.gt x Num.zero then x else Num.zero.

Definition reimported_income (r : IncomeRow) : IncomeRow :=
  {| id := id r; date := date r; desc := desc r;
     amount := reimported_amount (amount r); notes := notes r |}.

Definition reimported_expense (r : ExpenseRow) : ExpenseRow :=
  {| e_id := e_id r; e_date := e_date r; category := category r;
     e_desc := e_desc r; e_amount := reimported_amount (e_amount r);
     e_notes := e_notes r |}.

(** Export followed at once by the confirmed import of the document. *)
Definition export_import (env : Env) (exportedAt : string) (st : State)
  : ImportResult :=
  onFilePicked env (Parses (fst (exportJSON env exportedAt st))) true
    (snd (exportJSON env exportedAt st)).

(** *** The ledger in local storage *)

(** What [JSON.parse(localStorage.getItem(key) || '[]')] meets under one
    key: [getItem] throws or the text is not JSON; the key is absent or its
    text is empty, so that the text of the empty array is parsed instead;
    or the text is that of a JSON value. *)
Inductive Slot : Type :=
  | Unreadable
  | Absent
  | Kept (v : value).

(** The three keys of the ledger. *)
Record Storage : Type := {
  budget_income : Slot;
  budget_expenses : Slot;
  budget_categories : Slot
}.

(** [None] where the [try] block is left by an exception. *)
Definition parse_slot (s : Slot) : option value :=
  match s with
  | Unreadable => None
  | Absent => Some (VArr [])
  | Kept v => Some v
  end.

(** The start-up effect puts the parsed arrays into the state as they are.
    The typed rows of this model hold an entry only if it is an object as
    the page itself writes one: the properties of the row type in the order
    of the object literals of the handlers, a Number as the amount, and the
    notes present or not. *)
Definition stored_income (v : value) : option IncomeRow :=
  match v with
  | VObj props =>
      match map snd props with
      | [VStr i; VStr d; VStr t; VNum a] =>
          if bool_decide (map fst props = ["id"; "date"; "desc"; "amount"])
          then Some {| id := i; date := d; desc := t; amount := a;
                       notes := None |}
          else None
      | [VStr i; VStr d; VStr t; VNum a; VStr o] =>
          if bool_decide
               (map fst props = ["id"; "date"; "desc"; "amount"; "notes"])
          then Some {| id := i; date := d; desc := t; amount := a;
                       notes := Some o |}
          else None
      | _ => None
      end
  | _ => None
  end.

Definition stored_expense (v : value) : option ExpenseRow :=
  match v with
  | VObj props =>
      match map snd props with
      | [VStr i; VStr d; VStr c; VStr t; VNum a] =>
          if bool_decide
               (map fst props = ["id"; "date"; "category"; "desc"; "amount"])
          then Some {| e_id := i; e_date := d; category := c; e_desc := t;
                       e_amount := a; e_notes := None |}
          else None
      | [VStr i; VStr d; VStr c; VStr t; VNum a; VStr o] =>
          if bool_decide
               (map fst props
                = ["id"; "date"; "category"; "desc"; "amount"; "notes"])
          then Some {| e_id := i; e_date := d; category := c; e_desc := t;
                       e_amount := a; e_notes := Some o |}
          else None
      | _ => None
      end
  | _ => None
  end.

Definition stored_text (v : value) : option string :=
  match v with
  | VStr s => Some s
  | _ => None
  end.

Fixpoint read_all {A : Type} (f : value -> option A) (items : list value)
  : option (list A) :=
  match items with
  | [] => Some []
  | v :: rest =>
      match f v, read_all f rest with
      | Some a, Some l => Some (a :: l)
      | _, _ => None
      end
  end.

(** [Array.isArray(v) ? v : []], entry by entry in the typed rows. *)
Definition stored_rows {A : Type} (f : value -> option A) (v : value)
  : option (list A) :=
  match v with
  | VArr items => read_all f items
  | _ => Some []
  end.

(** [Array.isArray(cat) && cat.length ? cat : [...DEFAULT_CATEGORIES]] *)
Definition stored_categories (v : value) : option (list string) :=
  match v with
  | VArr (c :: cs) => read_all stored_text (c :: cs)
  | _ => Some DEFAULT_CATEGORIES
  end.

Definition nullish (v : value) : bool :=
  match v with
  | VUndef | VNull => true
  | _ => false
  end.

(** The [catch] of the start-up effect. *)
Definition corrupted (env : Env) (st : State) : State :=
  toast env (Text "Local data was corrupted and has been reset.") error
    (setCategories DEFAULT_CATEGORIES (setExpenses [] (setIncome [] st))).

(** The start-up effect that reads the ledger.  Reading [e.category] from
    an entry of the expenses that is null throws; [None] where an array
    holds an entry that the typed rows cannot hold. *)
Definition loadLedger (env : Env) (store : Storage) (st : State) : option State :=
  match parse_slot (budget_income store), parse_slot (budget_expenses store),
        parse_slot (budget_categories store) with
  | Some inc, Some exp, Some cat =>
      if match exp with VArr items => existsb nullish items | _ => false end
      then Some (corrupted env st)
      else
        match stored_rows stored_income inc, stored_rows stored_expense exp,
              stored_categories cat with
        | Some inc, Some exp, Some catArr =>
            let expCats := List.filter Str.truthy (map category exp) in
            Some (setCategories (Array_from_Set (catArr ++ expCats)%list)
                    (setExpenses exp (setIncome inc st)))
        | _, _, _ => None
        end
  | _, _, _ => Some (corrupted env st)
  end.

(** The effect that writes the ledger after every change of a collection:
    three [setItem] calls in a [try] block, of which the first [written]
    succeed; a stored text is given by the value it parses to. *)
Definition saveLedger (env : Env) (written : nat) (st : State) (store : Storage)
  : Storage * State :=
  let store :=
    if (0 <? written)%nat
    then {| budget_income := Kept (VArr (map json_income (income st)));
            budget_expenses := budget_expenses store;
            budget_categories := budget_categories store |}
    else store in
  let store :=
    if (1 <? written)%nat
    then {| budget_income := budget_income store;
            budget_expenses := Kept (VArr (map json_expense (expenses st)));
            budget_categories := budget_categories store |}
    else store in
  let store :=
    if (2 <? written)%nat
    then {| budget_income := budget_income store;
            budget_expenses := budget_expenses store;
            budget_categories := Kept (VArr (map VStr (categories st))) |}
    else store in
  (store, save_outcome env written st).

(** A Number that JSON writes and reads back as it is: finite and not
    -0. *)
Definition json_exact (x : number) : bool :=
  match x with
  | S754_zero false | S754_finite _ _ _ => true
  | _ => false
  end.

Definition empty_storage : Storage :=
  {| budget_income := Absent; budget_expenses := Absent;
     budget_categories := Absent |}.

(** The exact sum of whole income amounts. *)
Definition whole_income_sum (income : list IncomeRow) : Z :=
  fold_right (fun r s => Num.to_Z (amount r) + s) 0 income.

(** A ledger that spends more than it earns. *)
Definition overdrawn_ledger : State :=
  onAddExpense sample_env
    (groceries_form
       (onAddIncome sample_env
          (setIncomeForm
             {| f_date := "2024-01-01"; f_desc := "Refund"; f_amount := "1200";
                f_notes := "" |}
             initial_state))).

(** *** Toasts on the screen *)

(** Every toast on the screen got its identifier from an earlier call of
    [uid], and no two toasts share one. *)
Definition toasts_minted (env : Env) (st : State) : Prop :=
  List.NoDup (map toast_id (toasts st))
  /\ forall t, In t (toasts st) ->
       exists k, (k < ticks st)%nat /\ toast_id t = uid env k.

(** What an action other than a timer does to the toasts: nothing, or one
    toast more, named by a call of [uid] that the action made. *)
Definition toast_step (env : Env) (st st' : State) : Prop :=
  (ticks st <= ticks st')%nat
  /\ (toasts st' = toasts st
      \/ exists k msg ty,
           (ticks st <= k < ticks st')%nat
           /\ toasts st'
              = (toasts st
                 ++ [ {| toast_id := uid env k; message := msg; type := ty |} ])%list).

(** *** Today's date *)

Fixpoint base10 (fuel : nat) (n : Z) (acc : string) : string :=
  match fuel with
  | O => acc
  | S fuel' =>
      let acc' := String (ascii_of_nat (Z.to_nat (48 + n mod 10))) acc in
      if n / 10 =? 0 then acc' else base10 fuel' (n / 10) acc'
  end.

(** [String(n)] for an integral [n] that is written without an exponent. *)
Definition String_of_integer (n : Z) : string :=
  let digits := base10 (S (Z.to_nat (Z.log2 (Z.abs n)))) (Z.abs n) "" in
  if n <? 0 then String "-" digits else digits.

(** [s.padStart(2, '0')] *)
Definition padStart2 (s : string) : string :=
  match s with
  | EmptyString => "00"
  | String c EmptyString => String "0" s
  | _ => s
  end.

(** What the page reads from [new Date()]: [getFullYear()], [getMonth()]
    (January is 0) and [getDate()], in local time. *)
Record LocalDate : Type := {
  getFullYear : Z;
  getMonth : Z;
  getDate : Z
}.

(** The template literal that the two date effects and the export share. *)
Definition date_stamp (t : LocalDate) : string :=
  String_of_integer (getFullYear t)
  ++ "-" ++ padStart2 (String_of_integer (getMonth t + 1))
  ++ "-" ++ padStart2 (String_of_integer (getDate t)).

(** The name of the file that [exportJSON] offers. *)
Definition export_name (ts : LocalDate) : string :=
  "budget_export_" ++ date_stamp ts ++ ".json".

(** The effect that gives the two forms today's date when they mount:
    [t] and [t'] are the two readings of the clock, the flags tell whether
    the refs of the date inputs are set. *)
Definition initDates (t t' : LocalDate) (income_ref expense_ref : bool)
    (st : State) : State :=
  let st' :=
    if negb (Str.truthy (f_date (incomeForm st))) && income_ref
    then
      setIncomeForm
        {| f_date := date_stamp t; f_desc := f_desc (incomeForm st);
           f_amount := f_amount (incomeForm st);
           f_notes := f_notes (incomeForm st) |} st
    else st in
  if negb (Str.truthy (x_date (expenseForm st))) && expense_ref
  then
    setExpenseForm
      {| x_date := date_stamp t'; x_category := x_category (expenseForm st);
         x_desc := x_desc (expenseForm st);
         x_amount := x_amount (expenseForm st);
         x_notes := x_notes (expenseForm st) |} st'
  else st'.

(** The value of a string of decimal digits, continuing from [v]. *)
Fixpoint decimal_value (s : string) (v : Z) : option Z :=
  match s with
  | EmptyString => Some v
  | String c rest =>
      match Str.digit_of 10 c with
      | Some d => decimal_value rest (v * 10 + d)
      | None => None
      end
  end.

(** Year, month (January is 1) and day of a string of the form
    [YYYY-MM-DD], which is what an input of type [date] holds. *)
Definition read_date (s : string) : option (Z * Z * Z) :=
  match s with
  | String y1 (String y2 (String y3 (String y4 (String h (String m1
      (String m2 (String h' (String d1 (String d2 EmptyString))))))))) =>
      if Ascii.eqb h "-" && Ascii.eqb h' "-" then
        match decimal_value (String y1 (String y2 (String y3 (String y4 ""))))
                0,
              decimal_value (String m1 (String m2 "")) 0,
              decimal_value (String d1 (String d2 "")) 0 with
        | Some y, Some m, Some d => Some (y, m, d)
        | _, _, _ => None
        end
      else None
  | _ => None
  end.

(** The digits of a numeral of the given length, read back. *)
Definition numeral_of (len : nat) (s : string) (n : Z) : bool :=
  (String.length s =? len)%nat
  && match decimal_value s 0 with
     | Some v => v =? n
     | None => false
     end.

Definition new_year_2024 : LocalDate :=
  {| getFullYear := 2024; getMonth := 0; getDate := 1 |}.

(** ** Proof steps *)

(** One step of a conversion that is known to succeed: names the result of
    the first computation and discards the case where it stopped. *)
Ltac conv_step H :=
  match type of H with
  | (let (_, _) := ?c in _) = _ =>
      let E := fresh "E" in
      destruct c as [[? | ?] ?] eqn:E; [| discriminate H]
  end.

(** * Statements *)

(** ** Numbers *)

Lemma gt_zero_iff_not_le_zero (x : number) :
  Num.isFinite x = true -> Num.gt x Num.zero = negb (Num.le x Num.zero).
Proof.
  destruct x as [s | s | | s m e]; simpl; try discriminate; intros _.
  - reflexivity.
  - destruct s; reflexivity.
Qed.

Lemma gt_zero_truthy (x : number) :
  Num.gt x Num.zero = true -> Num.truthy x = true.
Proof.
  destruct x as [s | s | | s m e]; simpl; try discriminate; reflexivity.
Qed.

Lemma or_else_gt_zero (x : number) :
  Num.gt x Num.zero = true -> Num.or_else x Num.zero = x.
Proof.
  intros H. unfold Num.or_else. rewrite (gt_zero_truthy x H). reflexivity.
Qed.

(** *** Integers below 2^53 are computed with exactly

    A non-negative integer below 2^53 is a Number, and sums, differences and
    comparisons of such integers are exact as long as the result stays below
    2^53.  The proofs follow the rounding of [SpecFloat] step by step: a
    positive integer is brought to a mantissa of 53 binary digits, either by
    shifting it left or by shifting zeros out on the right, and nothing is
    lost on the way. *)

Lemma iter_xO_Z (p k : positive) :
  Z.pos (Pos.iter xO p k) = Z.pos p * 2 ^ Z.pos k.
Proof.
  induction k as [| k IH] using Pos.peano_ind.
  - simpl. lia.
  - rewrite Pos.iter_succ, Pos2Z.inj_succ, Z.pow_succ_r by lia.
    rewrite Pos2Z.inj_xO, IH. ring.
Qed.

Lemma digits_iter_xO (p k : positive) :
  digits2_pos (Pos.iter xO p k) = (digits2_pos p + k)%positive.
Proof.
  induction k as [| k IH] using Pos.peano_ind.
  - simpl. lia.
  - rewrite Pos.iter_succ. simpl. rewrite IH. lia.
Qed.

Lemma digits2_size (p : positive) : digits2_pos p = Pos.size p.
Proof. induction p; simpl; congruence. Qed.

Lemma shr_iter_xO (j q : positive) :
  SpecFloat.iter_pos shr_1 j
    {| shr_m := Z.pos (Pos.iter xO q j); shr_r := false; shr_s := false |}
  = {| shr_m := Z.pos q; shr_r := false; shr_s := false |}.
Proof.
  revert q. induction j as [j IH | j IH |]; intros q; simpl.
  - rewrite IH, IH. reflexivity.
  - rewrite IH, IH. reflexivity.
  - reflexivity.
Qed.

Lemma round_aux_canonical (s : bool) (q : positive) (e : Z) :
  Z.pos (digits2_pos q) = 53 -> -1074 <= e <= 971 ->
  binary_round_aux Num.prec Num.emax s (Z.pos q) e loc_Exact
  = S754_finite s q e.
Proof.
  intros Hd He.
  unfold binary_round_aux, shr_fexp, fexp, emin, Num.prec, Num.emax. simpl Zdigits2.
  rewrite Hd.
  replace (Z.max (53 + e - 53) (3 - 1024 - 53) - e) with 0 by lia.
  simpl. rewrite Hd.
  replace (Z.max (53 + e - 53) (3 - 1024 - 53) - e) with 0 by lia.
  simpl. destruct (e <=? 1024 - 53) eqn:H; [reflexivity | lia].
Qed.

Lemma iter_xO_of_Z (n q k : positive) :
  Z.pos q = Z.pos n * 2 ^ Z.pos k -> q = Pos.iter xO n k.
Proof.
  intros H. rewrite <- iter_xO_Z in H. congruence.
Qed.

Lemma binary_round_widen (s : bool) (n q : positive) (e i : Z) :
  0 <= i -> Z.pos q = Z.pos n * 2 ^ i ->
  Z.pos (digits2_pos q) = 53 -> -1074 <= e - i <= 971 ->
  binary_round Num.prec Num.emax s n e = S754_finite s q (e - i).
Proof.
  intros Hi Hq Hd He.
  unfold binary_round, shl_align, fexp, emin, Num.prec, Num.emax.
  destruct i as [| i | i]; [| | lia].
  - rewrite Z.pow_0_r, Z.mul_1_r in Hq. injection Hq as ->.
    rewrite Hd.
    replace (Z.max (53 + e - 53) (3 - 1024 - 53) - e) with 0 by lia.
    rewrite Z.sub_0_r. apply round_aux_canonical; [assumption | lia].
  - apply iter_xO_of_Z in Hq. subst q.
    rewrite digits_iter_xO in Hd.
    replace (Z.max (Z.pos (digits2_pos n) + e - 53) (3 - 1024 - 53) - e)
      with (Z.neg i) by lia.
    replace (Z.max (Z.pos (digits2_pos n) + e - 53) (3 - 1024 - 53))
      with (e - Z.pos i) by lia.
    apply round_aux_canonical; [rewrite digits_iter_xO; assumption | lia].
Qed.

Lemma binary_round_narrow (s : bool) (n q : positive) (e j : Z) :
  0 <= j -> Z.pos n = Z.pos q * 2 ^ j ->
  Z.pos (digits2_pos q) = 53 -> -1074 <= e + j <= 971 ->
  binary_round Num.prec Num.emax s n e = S754_finite s q (e + j).
Proof.
  intros Hj Hn Hd He.
  destruct j as [| j | j]; [| | lia].
  - replace (e + 0) with (e - 0) by lia.
    apply binary_round_widen; try assumption; lia.
  - apply iter_xO_of_Z in Hn. subst n.
    unfold binary_round, shl_align, fexp, emin, Num.prec, Num.emax.
    rewrite digits_iter_xO.
    replace (Z.max (Z.pos (digits2_pos q + j) + e - 53) (3 - 1024 - 53) - e)
      with (Z.pos j) by lia.
    unfold binary_round_aux, shr_fexp, fexp, emin. simpl Zdigits2.
    rewrite digits_iter_xO.
    replace (Z.max (Z.pos (digits2_pos q + j) + e - 53) (3 - 1024 - 53) - e)
      with (Z.pos j) by lia.
    unfold shr. cbn [shr_record_of_loc]. rewrite shr_iter_xO.
    cbn [shr_m loc_of_shr_record round_nearest_even shr_record_of_loc Zdigits2].
    rewrite Hd.
    replace (Z.max (53 + (e + Z.pos j) - 53) (3 - 1024 - 53) - (e + Z.pos j))
      with 0 by lia.
    simpl. destruct (e + Z.pos j <=? 1024 - 53) eqn:H; [reflexivity | lia].
Qed.

Lemma digits_bound (n : positive) :
  Z.pos n < 2 ^ 53 -> Z.pos (digits2_pos n) <= 53.
Proof.
  intros H. rewrite digits2_size.
  pose proof (Pos.size_le n) as Hs.
  assert (Hz : 2 ^ Z.pos (Pos.size n) <= 2 * Z.pos n).
  { change 2 with (Z.pos 2) at 1. rewrite <- Pos2Z.inj_pow.
    change (2 * Z.pos n) with (Z.pos n~0). apply Pos2Z.pos_le_pos. exact Hs. }
  destruct (Z_le_gt_dec (Z.pos (Pos.size n)) 53) as [Hle | Hgt]; [exact Hle |].
  exfalso.
  assert (2 ^ 54 <= 2 ^ Z.pos (Pos.size n)) by (apply Z.pow_le_mono_r; lia).
  change (2 ^ 54) with (2 * 2 ^ 53) in H0. lia.
Qed.

(** The 53-digit mantissa of a positive integer below 2^53. *)
Lemma canonical_mantissa_of (n : positive) :
  Z.pos n < 2 ^ 53 ->
  exists q : positive,
    Z.pos q = Z.pos n * 2 ^ (53 - Z.pos (digits2_pos n))
    /\ Z.pos (digits2_pos q) = 53.
Proof.
  intros H. apply digits_bound in H.
  destruct (53 - Z.pos (digits2_pos n)) as [| k | k] eqn:Hk; [| | lia].
  - exists n. split; [rewrite Z.pow_0_r; lia | lia].
  - exists (Pos.iter xO n k). split; [apply iter_xO_Z |].
    rewrite digits_iter_xO. lia.
Qed.

Lemma binary_round_exact (s : bool) (m n : positive) (e : Z) :
  e <= 0 -> -1000 <= e -> Z.pos m = Z.pos n * 2 ^ (- e) -> Z.pos n < 2 ^ 53 ->
  binary_round Num.prec Num.emax s m e = binary_round Num.prec Num.emax s n 0.
Proof.
  intros He He' Hm Hn.
  destruct (canonical_mantissa_of n Hn) as [q [Hq Hd]].
  pose proof (digits_bound n Hn) as Hb.
  set (i := 53 - Z.pos (digits2_pos n)) in *.
  assert (Hi : 0 <= i) by (unfold i; lia).
  assert (Hi' : i <= 52) by (unfold i; lia).
  rewrite (binary_round_widen s n q 0 i Hi Hq Hd) by lia.
  destruct (Z_le_gt_dec (- e) i) as [Hle | Hgt].
  - replace (0 - i) with (e - (i + e)) by lia.
    apply binary_round_widen; try assumption; try lia.
    rewrite Hq, Hm, <- Z.mul_assoc, <- Z.pow_add_r by lia.
    f_equal. f_equal. lia.
  - replace (0 - i) with (e + (- e - i)) by lia.
    apply binary_round_narrow; try assumption; try lia.
    rewrite Hq, Hm, <- Z.mul_assoc, <- Z.pow_add_r by lia.
    f_equal. f_equal. lia.
Qed.

Lemma of_Z_pos_canonical (n : positive) :
  Z.pos n < 2 ^ 53 ->
  exists q : positive,
    Num.of_Z (Z.pos n)
      = S754_finite false q (Z.pos (digits2_pos n) - 53)
    /\ Z.pos q = Z.pos n * 2 ^ (53 - Z.pos (digits2_pos n))
    /\ Z.pos (digits2_pos q) = 53.
Proof.
  intros Hn.
  destruct (canonical_mantissa_of n Hn) as [q [Hq Hd]].
  pose proof (digits_bound n Hn) as Hb.
  exists q. split; [| split; assumption].
  unfold Num.of_Z, binary_normalize.
  replace (Z.pos (digits2_pos n) - 53)
    with (0 - (53 - Z.pos (digits2_pos n))) by lia.
  apply binary_round_widen; try assumption; lia.
Qed.

Lemma shl_align_value (m : positive) (e ez : Z) :
  ez <= e ->
  Z.pos (fst (shl_align m e ez)) = Z.pos m * 2 ^ (e - ez).
Proof.
  intros H. unfold shl_align.
  destruct (ez - e) as [| d | d] eqn:Hd; simpl; try lia.
  - replace (e - ez) with 0 by lia. rewrite Z.pow_0_r. lia.
  - rewrite iter_xO_Z. f_equal. f_equal. lia.
Qed.

Lemma of_Z_add (a b : Z) :
  0 <= a -> 0 <= b -> a + b < 2 ^ 53 ->
  Num.add (Num.of_Z a) (Num.of_Z b) = Num.of_Z (a + b).
Proof.
  intros Ha Hb Hs.
  destruct a as [| a | a]; [| | lia].
  { destruct b as [| b | b]; [reflexivity | | lia].
    change (0 + Z.pos b) with (Z.pos b).
    destruct (of_Z_pos_canonical b) as [q [-> _]]; [lia | reflexivity]. }
  destruct b as [| b | b]; [| | lia].
  { rewrite Z.add_0_r.
    destruct (of_Z_pos_canonical a) as [q [-> _]]; [lia | reflexivity]. }
  destruct (of_Z_pos_canonical a) as [qa [-> [Hqa Hda]]]; [lia |].
  destruct (of_Z_pos_canonical b) as [qb [-> [Hqb Hdb]]]; [lia |].
  pose proof (digits_bound a ltac:(lia)) as Hba.
  pose proof (digits_bound b ltac:(lia)) as Hbb.
  set (ea := Z.pos (digits2_pos a) - 53) in *.
  set (eb := Z.pos (digits2_pos b) - 53) in *.
  unfold Num.add, SFadd. cbn [cond_Zopp].
  set (ez := Z.min ea eb).
  assert (Hez : ez <= ea /\ ez <= eb /\ ez <= 0 /\ -52 <= ez) by (unfold ez, ea, eb; lia).
  pose proof (shl_align_value qa ea ez ltac:(lia)) as Hsa.
  pose proof (shl_align_value qb eb ez ltac:(lia)) as Hsb.
  change (Z.pos a + Z.pos b) with (Z.pos (a + b)).
  unfold Num.of_Z. unfold binary_normalize at 2.
  rewrite <- (binary_round_exact false
                (fst (shl_align qa ea ez) + fst (shl_align qb eb ez)) (a + b) ez);
    try lia.
  - reflexivity.
  - rewrite Pos2Z.inj_add, Hsa, Hsb, Hqa, Hqb.
    rewrite <- !Z.mul_assoc, <- !Z.pow_add_r by (unfold ea, eb; lia).
    replace (53 - Z.pos (digits2_pos a) + (ea - ez)) with (- ez) by (unfold ea; lia).
    replace (53 - Z.pos (digits2_pos b) + (eb - ez)) with (- ez) by (unfold eb; lia).
    lia.
Qed.

Lemma of_Z_sub (a b : Z) :
  0 <= b -> b <= a -> a < 2 ^ 53 ->
  Num.sub (Num.of_Z a) (Num.of_Z b) = Num.of_Z (a - b).
Proof.
  intros Hb Hab Ha.
  destruct b as [| b | b]; [| | lia].
  { rewrite Z.sub_0_r. destruct a as [| a | a]; [reflexivity | | lia].
    destruct (of_Z_pos_canonical a) as [q [-> _]]; [lia | reflexivity]. }
  destruct a as [| a | a]; [lia | | lia].
  destruct (of_Z_pos_canonical a) as [qa [-> [Hqa Hda]]]; [lia |].
  destruct (of_Z_pos_canonical b) as [qb [-> [Hqb Hdb]]]; [lia |].
  pose proof (digits_bound a ltac:(lia)) as Hba.
  pose proof (digits_bound b ltac:(lia)) as Hbb.
  set (ea := Z.pos (digits2_pos a) - 53) in *.
  set (eb := Z.pos (digits2_pos b) - 53) in *.
  unfold Num.sub, SFsub. cbn [cond_Zopp].
  set (ez := Z.min ea eb).
  assert (Hez : ez <= ea /\ ez <= eb /\ ez <= 0 /\ -52 <= ez) by (unfold ez, ea, eb; lia).
  pose proof (shl_align_value qa ea ez ltac:(lia)) as Hsa.
  pose proof (shl_align_value qb eb ez ltac:(lia)) as Hsb.
  assert (Hva : Z.pos (fst (shl_align qa ea ez)) = Z.pos a * 2 ^ (- ez)).
  { rewrite Hsa, Hqa, <- Z.mul_assoc, <- Z.pow_add_r by (unfold ea; lia).
    f_equal. f_equal. unfold ea. lia. }
  assert (Hvb : Z.pos (fst (shl_align qb eb ez)) = Z.pos b * 2 ^ (- ez)).
  { rewrite Hsb, Hqb, <- Z.mul_assoc, <- Z.pow_add_r by (unfold eb; lia).
    f_equal. f_equal. unfold eb. lia. }
  rewrite Hva, Hvb, <- Z.mul_sub_distr_r.
  assert (Hp : 0 < 2 ^ (- ez)) by (apply Z.pow_pos_nonneg; lia).
  destruct (Z.pos a - Z.pos b) as [| d | d] eqn:Hd; [reflexivity | | lia].
  assert (Hm : exists m, Z.pos d * 2 ^ (- ez) = Z.pos m).
  { destruct (Z.pos d * 2 ^ (- ez)) as [| m | m] eqn:Hm; [lia | eauto | lia]. }
  destruct Hm as [m Hm]. rewrite Hm.
  unfold Num.of_Z, binary_normalize.
  apply binary_round_exact; lia.
Qed.

Lemma size_bounds (n : positive) :
  2 ^ (Z.pos (digits2_pos n) - 1) <= Z.pos n < 2 ^ Z.pos (digits2_pos n).
Proof.
  rewrite digits2_size. split.
  - pose proof (Pos.size_le n) as Hs.
    apply Pos2Z.pos_le_pos in Hs. rewrite Pos2Z.inj_pow in Hs.
    change (Z.pos n~0) with (2 * Z.pos n) in Hs.
    replace (Z.pos (Pos.size n)) with (Z.succ (Z.pos (Pos.size n) - 1)) in Hs by lia.
    rewrite Z.pow_succ_r in Hs by lia. lia.
  - pose proof (Pos.size_gt n) as Hs.
    apply Pos2Z.pos_lt_pos in Hs. rewrite Pos2Z.inj_pow in Hs. exact Hs.
Qed.

Lemma of_Z_lt (a b : Z) :
  0 <= a < 2 ^ 53 -> 0 <= b < 2 ^ 53 ->
  Num.lt (Num.of_Z a) (Num.of_Z b) = (a <? b).
Proof.
  intros Ha Hb.
  destruct a as [| a | a]; [| | lia].
  { destruct b as [| b | b]; [reflexivity | | lia].
    destruct (of_Z_pos_canonical b) as [q [-> _]]; [lia | reflexivity]. }
  destruct b as [| b | b]; [| | lia].
  { destruct (of_Z_pos_canonical a) as [q [-> _]]; [lia | reflexivity]. }
  destruct (of_Z_pos_canonical a) as [qa [-> [Hqa Hda]]]; [lia |].
  destruct (of_Z_pos_canonical b) as [qb [-> [Hqb Hdb]]]; [lia |].
  pose proof (size_bounds a) as Hsa. pose proof (size_bounds b) as Hsb.
  pose proof (digits_bound a ltac:(lia)) as Hba.
  pose proof (digits_bound b ltac:(lia)) as Hbb.
  unfold Num.lt, SFltb, SFcompare.
  destruct (Z.compare_spec (Z.pos (digits2_pos a) - 53) (Z.pos (digits2_pos b) - 53))
    as [He | He | He].
  - assert (Hdd : Z.pos (digits2_pos a) = Z.pos (digits2_pos b)) by lia.
    rewrite Hdd in Hqa.
    assert (Hp : 0 < 2 ^ (53 - Z.pos (digits2_pos b))) by (apply Z.pow_pos_nonneg; lia).
    change (Pos.compare_cont Eq qa qb) with (Pos.compare qa qb).
    rewrite Pos2Z.inj_compare.
    destruct (Z.compare_spec (Z.pos qa) (Z.pos qb)) as [Hc | Hc | Hc];
      symmetry; [apply Z.ltb_ge | apply Z.ltb_lt | apply Z.ltb_ge]; nia.
  - symmetry. apply Z.ltb_lt.
    assert (2 ^ Z.pos (digits2_pos a) <= 2 ^ (Z.pos (digits2_pos b) - 1))
      by (apply Z.pow_le_mono_r; lia).
    lia.
  - symmetry. apply Z.ltb_ge.
    assert (2 ^ Z.pos (digits2_pos b) <= 2 ^ (Z.pos (digits2_pos a) - 1))
      by (apply Z.pow_le_mono_r; lia).
    lia.
Qed.

(** *** [Math.round] returns integers *)

Lemma shr_exponent (mrs : shr_record) (e n : Z) : e <= snd (shr mrs e n).
Proof. unfold shr. destruct n; simpl; lia. Qed.

Lemma binary_round_aux_exponent (s : bool) (m e : Z) (l : location) :
  match binary_round_aux Num.prec Num.emax s m e l with
  | S754_finite _ _ e' => e <= e'
  | _ => True
  end.
Proof.
  unfold binary_round_aux, shr_fexp.
  destruct (shr (shr_record_of_loc m l) e _) as [mrs' e'] eqn:E1.
  destruct (shr (shr_record_of_loc _ loc_Exact) e' _) as [mrs'' e''] eqn:E2.
  pose proof (shr_exponent (shr_record_of_loc m l) e
                (fexp Num.prec Num.emax (Zdigits2 m + e) - e)) as H1.
  rewrite E1 in H1. simpl in H1.
  match type of E2 with shr ?r ?x ?n = _ =>
    pose proof (shr_exponent r x n) as H2 end.
  rewrite E2 in H2. simpl in H2.
  destruct (shr_m mrs''); [exact I | | exact I].
  destruct (e'' <=? Num.emax - Num.prec); [lia | exact I].
Qed.

Lemma binary_round_integer (s : bool) (n : positive) :
  Num.isFinite (binary_round Num.prec Num.emax s n 0) = true ->
  Num.isInteger (binary_round Num.prec Num.emax s n 0) = true.
Proof.
  intros Hfin.
  destruct (Z_lt_le_dec (Z.pos n) (2 ^ 53)) as [Hlt | Hge].
  - destruct (canonical_mantissa_of n Hlt) as [q [Hq Hd]].
    pose proof (digits_bound n Hlt) as Hb.
    rewrite (binary_round_widen s n q 0 (53 - Z.pos (digits2_pos n))) by (try assumption; lia).
    unfold Num.isInteger.
    replace (- (0 - (53 - Z.pos (digits2_pos n)))) with (53 - Z.pos (digits2_pos n)) by lia.
    rewrite Hq, Z.mod_mul by (apply Z.pow_nonzero; lia).
    apply orb_true_r.
  - pose proof (size_bounds n) as [_ Hs].
    assert (Hd : 53 < Z.pos (digits2_pos n)).
    { destruct (Z_lt_le_dec 53 (Z.pos (digits2_pos n))) as [H | H]; [exact H |].
      exfalso.
      assert (2 ^ Z.pos (digits2_pos n) <= 2 ^ 53) by (apply Z.pow_le_mono_r; lia).
      lia. }
    revert Hfin. unfold binary_round, shl_align, fexp, emin, Num.prec, Num.emax.
    replace (Z.max (Z.pos (digits2_pos n) + 0 - 53) (3 - 1024 - 53) - 0)
      with (Z.pos (digits2_pos n) - 53) by lia.
    destruct (Z.pos (digits2_pos n) - 53) as [| k | k] eqn:Ek; try lia.
    pose proof (binary_round_aux_exponent s (Z.pos n) 0 loc_Exact) as He.
    unfold Num.prec, Num.emax in He.
    destruct (binary_round_aux 53 1024 s (Z.pos n) 0 loc_Exact) as [| | | s' m' e'];
      try discriminate; try reflexivity.
    intros _. unfold Num.isInteger.
    destruct (0 <=? e') eqn:E; [reflexivity | lia].
Qed.

Lemma of_Z_integer (z : Z) :
  Num.isFinite (Num.of_Z z) = true -> Num.isInteger (Num.of_Z z) = true.
Proof.
  destruct z as [| n | n]; [reflexivity | |]; apply binary_round_integer.
Qed.

Lemma round_integer (x : number) :
  Num.isFinite (Num.round x) = true -> Num.isInteger (Num.round x) = true.
Proof.
  destruct x as [s | s | | s m e]; try discriminate; try reflexivity.
  unfold Num.round.
  destruct (0 <=? e) eqn:He.
  - intros _. unfold Num.isInteger. rewrite He. reflexivity.
  - destruct (_ =? 0); [reflexivity | apply of_Z_integer].
Qed.

(** ** Conversion *)

(** C6.  For every amount and every rate, [krwToUsd] returns the quotient
    amount / rate when the rate is finite and strictly above zero and +0
    otherwise; "otherwise" is exactly "not finite, or at most zero", and the
    value the guard returns is finite and no NaN. *)
Theorem krwToUsd_guarded (krw r : number) :
  krwToUsd krw r
    = (if Num.isFinite r && Num.gt r Num.zero then Num.div krw r else Num.zero)
  /\ (Num.isFinite r && Num.gt r Num.zero = false
      <-> Num.isFinite r = false \/ Num.le r Num.zero = true)
  /\ Num.isFinite Num.zero = true
  /\ Num.isNaN Num.zero = false.
Proof.
  unfold krwToUsd.
  destruct (Num.isFinite r) eqn:Hfin; simpl.
  - rewrite (gt_zero_iff_not_le_zero r Hfin).
    destruct (Num.le r Num.zero); simpl; repeat split; auto;
      try discriminate.
    intros [H | H]; discriminate.
  - repeat split; auto.
Qed.

(** ** Adding and deleting records *)

Section Ledger.

Variable env : Env.

Lemma onAddIncome_accepts (st : State) :
  income_ok st = true ->
  income (onAddIncome env st) = (income st ++ [new_income env st])%list
  /\ expenses (onAddIncome env st) = expenses st
  /\ categories (onAddIncome env st) = categories st
  /\ rate (onAddIncome env st) = rate st.
Proof.
  unfold income_ok, onAddIncome, new_income. intros H.
  apply andb_prop in H as [H Ha]. apply andb_prop in H as [Hd Ht].
  rewrite Hd, Ht, Ha. simpl. repeat split.
Qed.

Lemma onAddIncome_rejects (st : State) :
  income_ok st = false ->
  onAddIncome env st
    = setTicks (S (ticks st))
        (setToasts (toasts st ++ [validation_toast env st])%list st).
Proof.
  unfold income_ok, onAddIncome. intros H.
  destruct (Str.truthy (Str.trim (f_date (incomeForm st))));
    destruct (Str.truthy (Str.trim (f_desc (incomeForm st))));
    destruct (Num.gt _ Num.zero); simpl in *; try discriminate; reflexivity.
Qed.

Lemma onAddExpense_accepts (st : State) :
  expense_ok st = true ->
  expenses (onAddExpense env st) = (expenses st ++ [new_expense env st])%list
  /\ income (onAddExpense env st) = income st
  /\ categories (onAddExpense env st) = categories st
  /\ rate (onAddExpense env st) = rate st.
Proof.
  unfold expense_ok, onAddExpense, new_expense. intros H.
  apply andb_prop in H as [H Ha]. apply andb_prop in H as [H Ht].
  apply andb_prop in H as [Hd Hc].
  rewrite Hd, Hc, Ht, Ha. simpl. repeat split.
Qed.

Lemma onAddExpense_rejects (st : State) :
  expense_ok st = false ->
  onAddExpense env st
    = setTicks (S (ticks st))
        (setToasts (toasts st ++ [validation_toast env st])%list st).
Proof.
  unfold expense_ok, onAddExpense. intros H.
  destruct (Str.truthy (Str.trim (x_date (expenseForm st))));
    destruct (Str.truthy (Str.trim (x_category (expenseForm st))));
    destruct (Str.truthy (Str.trim (x_desc (expenseForm st))));
    destruct (Num.gt _ Num.zero); simpl in *; try discriminate; reflexivity.
Qed.

(** C10.  Every mutation of one collection leaves the others as they
    were: adding or deleting an income record keeps the expenses and the
    categories, adding or deleting an expense record keeps the income and
    the categories, and adding a category keeps the income and the
    expenses. *)
Theorem single_collection_frames
    (st : State) (i : string) (ok : bool) (answer : option string) :
  (expenses (onAddIncome env st) = expenses st
   /\ categories (onAddIncome env st) = categories st)
  /\ (expenses (onDelete env i KIncome ok st) = expenses st
      /\ categories (onDelete env i KIncome ok st) = categories st)
  /\ (income (onAddExpense env st) = income st
      /\ categories (onAddExpense env st) = categories st)
  /\ (income (onDelete env i KExpense ok st) = income st
      /\ categories (onDelete env i KExpense ok st) = categories st)
  /\ (income (onAddCategory env answer st) = income st
      /\ expenses (onAddCategory env answer st) = expenses st).
Proof.
  repeat split.
  - destruct (income_ok st) eqn:H.
    + apply (onAddIncome_accepts st H).
    + rewrite (onAddIncome_rejects st H). reflexivity.
  - destruct (income_ok st) eqn:H.
    + apply (onAddIncome_accepts st H).
    + rewrite (onAddIncome_rejects st H). reflexivity.
  - unfold onDelete. destruct ok; reflexivity.
  - unfold onDelete. destruct ok; reflexivity.
  - destruct (expense_ok st) eqn:H.
    + apply (onAddExpense_accepts st H).
    + rewrite (onAddExpense_rejects st H). reflexivity.
  - destruct (expense_ok st) eqn:H.
    + apply (onAddExpense_accepts st H).
    + rewrite (onAddExpense_rejects st H). reflexivity.
  - unfold onDelete. destruct ok; reflexivity.
  - unfold onDelete. destruct ok; reflexivity.
  - unfold onAddCategory. destruct answer as [typed |]; [| reflexivity].
    destruct (negb (Str.truthy (Str.trim typed))); [reflexivity |].
    destruct (existsb _ (categories st)); reflexivity.
  - unfold onAddCategory. destruct answer as [typed |]; [| reflexivity].
    destruct (negb (Str.truthy (Str.trim typed))); [reflexivity |].
    destruct (existsb _ (categories st)); reflexivity.
Qed.

End Ledger.

(** ** Expenses and their category *)

(** C9, as the claim states it, fails: with the default category set and
    the form holding the category "Travel", which the set does not list,
    [onAddExpense] appends the record. *)
Lemma onAddExpense_unlisted_category :
  ~ In "Travel" (categories travel_form)
  /\ exists row,
       expenses (onAddExpense sample_env travel_form) = [row]
       /\ category row = "Travel".
Proof.
  split.
  - vm_compute. intuition discriminate.
  - eexists. split; vm_compute; reflexivity.
Qed.

Lemma truthy_nonempty (s : string) : Str.truthy s = true <-> s <> "".
Proof.
  destruct s; simpl; split; intros H; congruence.
Qed.

(** C9, amended.  [onAddExpense] appends the new record exactly when the
    trimmed date, the trimmed category and the trimmed description are
    non-empty and the amount rounds to a Number above zero; the record
    carries the trimmed category as typed, whether the category set lists it
    or not.  When the trimmed category is empty the call fails: income,
    expenses and categories stay as they were. *)
Theorem onAddExpense_needs_category (env : Env) (st : State) :
  expenses (onAddExpense env st)
    = (if expense_ok st then (expenses st ++ [new_expense env st])%list
       else expenses st)
  /\ category (new_expense env st) = Str.trim (x_category (expenseForm st))
  /\ (expense_ok st = true <->
       Str.trim (x_date (expenseForm st)) <> ""
       /\ Str.trim (x_category (expenseForm st)) <> ""
       /\ Str.trim (x_desc (expenseForm st)) <> ""
       /\ Num.gt (Num.round (Str.toNumber (x_amount (expenseForm st))))
            Num.zero = true)
  /\ (Str.trim (x_category (expenseForm st)) = "" ->
       income (onAddExpense env st) = income st
       /\ expenses (onAddExpense env st) = expenses st
       /\ categories (onAddExpense env st) = categories st
       /\ toasts (onAddExpense env st)
            = (toasts st ++ [validation_toast env st])%list).
Proof.
  split; [| split; [reflexivity | split]].
  - destruct (expense_ok st) eqn:H.
    + apply (onAddExpense_accepts env st H).
    + rewrite (onAddExpense_rejects env st H). reflexivity.
  - unfold expense_ok. rewrite !andb_true_iff, !truthy_nonempty. tauto.
  - intros Hc.
    assert (H : expense_ok st = false).
    { unfold expense_ok. rewrite Hc. simpl. rewrite andb_false_r. reflexivity. }
    rewrite (onAddExpense_rejects env st H). repeat split.
Qed.

(** C9 on a form whose category is blank, submitted while the ledger holds
    one income record and one expense: nothing is appended. *)
Lemma onAddExpense_needs_category_witness :
  Str.trim (x_category (expenseForm blank_category_form)) = ""
  /\ income (onAddExpense sample_env blank_category_form)
     = income blank_category_form
  /\ expenses (onAddExpense sample_env blank_category_form)
     = expenses blank_category_form
  /\ categories (onAddExpense sample_env blank_category_form)
     = categories blank_category_form
  /\ toasts (onAddExpense sample_env blank_category_form)
     = (toasts blank_category_form
        ++ [validation_toast sample_env blank_category_form])%list.
Proof.
  assert (H : Str.trim (x_category (expenseForm blank_category_form)) = "")
    by (vm_compute; reflexivity).
  split; [exact H |].
  exact (proj2 (proj2 (proj2
           (onAddExpense_needs_category sample_env blank_category_form))) H).
Defined.

(** ** Import of a document without the two arrays *)

(** C2.  When the picked file is empty, is not JSON, or is JSON whose
    [income] or [expenses] is no array, the import fails: an error toast
    "Import failed: ..." is shown, and income, expenses and categories are
    those of before, whatever the answer to the confirmation would be.  The
    exception is the parser's SyntaxError exactly when the text is not JSON,
    and the handler's own "Invalid format" error otherwise (an empty file is
    read as the text of an empty object, so it is reported as invalid
    format). *)
Theorem import_without_arrays_rejected
    (env : Env) (file : FileText) (confirmReplace : bool) (st : State) :
  lacks_arrays file ->
  exists e,
    onFilePicked env file confirmReplace st
      = Rejected e (toast env (ImportFailed e) error st)
    /\ (e = SyntaxError <-> file = Garbled)
    /\ (e <> SyntaxError -> e = InvalidFormat)
    /\ income (toast env (ImportFailed e) error st) = income st
    /\ expenses (toast env (ImportFailed e) error st) = expenses st
    /\ categories (toast env (ImportFailed e) error st) = categories st.
Proof.
  intros H. destruct file as [| | obj]; simpl in H.
  - exists InvalidFormat. simpl. repeat split; try discriminate; auto.
  - exists SyntaxError. simpl. repeat split; auto. congruence.
  - exists InvalidFormat. unfold onFilePicked.
    assert (Hg : negb (Val.truthy obj)
                 || negb (Val.isArray (Val.get obj "income"))
                 || negb (Val.isArray (Val.get obj "expenses")) = true).
    { destruct H as [H | H]; rewrite H; simpl;
        rewrite ?orb_true_r; reflexivity. }
    rewrite Hg. repeat split; try discriminate; auto.
Qed.

(** An instance of C2: a document that has [income] but no [expenses],
    picked while the ledger holds one expense. *)
Lemma import_without_arrays_rejected_witness :
  let doc := Parses (VObj [ ("income", VArr []) ]) in
  let st := onAddExpense sample_env travel_form in
  lacks_arrays doc
  /\ exists e,
       onFilePicked sample_env doc true st
         = Rejected e (toast sample_env (ImportFailed e) error st)
       /\ (e = SyntaxError <-> doc = Garbled)
       /\ (e <> SyntaxError -> e = InvalidFormat)
       /\ income (toast sample_env (ImportFailed e) error st) = income st
       /\ expenses (toast sample_env (ImportFailed e) error st) = expenses st
       /\ categories (toast sample_env (ImportFailed e) error st)
            = categories st.
Proof.
  assert (H : lacks_arrays (Parses (VObj [ ("income", VArr []) ]))).
  { simpl. right. reflexivity. }
  split; [exact H |].
  exact (import_without_arrays_rejected sample_env
           (Parses (VObj [ ("income", VArr []) ])) true
           (onAddExpense sample_env travel_form) H).
Defined.

(** ** Where the code departs from the specification *)


(** C1 at an entry whose amount is the text "abc": the import succeeds and
    the record's amount is NaN, neither 0 nor a non-negative Number.  And at
    a document whose only income entry is [null]: reading [n.id] throws a
    TypeError, and the import is rejected as a whole. *)
Lemma import_keeps_NaN_amount :
  (exists st row,
     onFilePicked sample_env (one_income_document (VStr "abc")) true initial_state
       = Replaced st
     /\ income st = [row]
     /\ amount row = Num.NaN
     /\ Num.le Num.zero (amount row) = false)
  /\ onFilePicked sample_env
       (Parses (VObj [ ("income", VArr [ VNull ]); ("expenses", VArr []) ]))
       true initial_state
     = Rejected TypeError
         (toast sample_env (ImportFailed TypeError) error initial_state).
Proof.
  split.
  - do 2 eexists. repeat split; vm_compute; reflexivity.
  - vm_compute. reflexivity.
Qed.

(** C5 at a response whose USD factor is 5e-324: the factor is finite and
    above zero, so it passes the test, and its inverse, which becomes the
    rate, is +Infinity. *)
Lemma refreshRate_adopts_infinite_rate :
  Num.isFinite (Str.toNumber "5e-324") = true
  /\ Num.gt (Str.toNumber "5e-324") Num.zero = true
  /\ rate (refreshRate sample_env tiny_factor_response false initial_state)
     = Num.Infinity
  /\ Num.isFinite
       (rate (refreshRate sample_env tiny_factor_response false initial_state))
     = false.
Proof.
  repeat split; vm_compute; reflexivity.
Qed.

(** ** Staleness of the cached rate *)

Lemma of_Z_finite (z : Z) :
  0 <= z < 2 ^ 53 -> Num.isFinite (Num.of_Z z) = true.
Proof.
  intros H. destruct z as [| p | p]; [reflexivity | | lia].
  destruct (of_Z_pos_canonical p) as [q [-> _]]; [lia | reflexivity].
Qed.

Lemma max_age_value : RATE_MAX_AGE_MS = Num.of_Z 43200000.
Proof. vm_compute. reflexivity. Qed.

Lemma shouldRefresh_whole_timestamp (now t : Z) (s : string) :
  Str.toNumber s = Num.of_Z t -> 0 <= t <= now -> now < 2 ^ 53 ->
  shouldRefresh now (ReadValue (Some s)) = (43200000 <? now - t).
Proof.
  intros Hs Ht Hnow. unfold shouldRefresh. rewrite Hs.
  rewrite of_Z_finite by lia. simpl.
  rewrite of_Z_sub by lia. rewrite max_age_value.
  unfold Num.gt. fold (Num.lt (Num.of_Z 43200000) (Num.of_Z (now - t))).
  apply of_Z_lt; [| lia].
  split; [lia | reflexivity].
Qed.

(** C4, as the claim states it, fails: with no timestamp on record and a
    clock that reads one second past the epoch, no refresh is due.  The
    absent timestamp is read as 0, and one second is not more than twelve
    hours. *)
Lemma shouldRefresh_absent_near_epoch :
  shouldRefresh 1000 (ReadValue None) = false.
Proof. vm_compute. reflexivity. Qed.

(** C4, amended.  The maximal age is 43 200 000 ms.  A refresh is due when
    reading the timestamp throws, and when the stored text does not convert
    to a finite Number.  When it converts to a finite Number, a refresh is
    due exactly when [now - lastFetchedAt > maxAge]; for a stored timestamp
    that is a whole number of milliseconds not after [now], that is exactly
    when more than 43 200 000 ms have passed, so it is not due one
    millisecond before the twelve hours are over and due one millisecond
    after.  An absent timestamp is read as 0: a refresh is then due exactly
    when [now] is more than twelve hours past the epoch. *)
Theorem shouldRefresh_by_age (now : Z) :
  RATE_MAX_AGE_MS = Num.of_Z 43200000
  /\ shouldRefresh now ReadThrows = true
  /\ (forall s, Num.isFinite (Str.toNumber s) = false ->
       shouldRefresh now (ReadValue (Some s)) = true)
  /\ (forall s, Num.isFinite (Str.toNumber s) = true ->
       shouldRefresh now (ReadValue (Some s))
         = Num.gt (Num.sub (Num.of_Z now) (Str.toNumber s)) RATE_MAX_AGE_MS)
  /\ (forall s t, Str.toNumber s = Num.of_Z t -> 0 <= t <= now -> now < 2 ^ 53 ->
       shouldRefresh now (ReadValue (Some s)) = (43200000 <? now - t))
  /\ (forall s t, Str.toNumber s = Num.of_Z t -> 0 <= t -> now < 2 ^ 53 ->
       (now = t + 43200000 - 1 -> shouldRefresh now (ReadValue (Some s)) = false)
       /\ (now = t + 43200000 + 1 -> shouldRefresh now (ReadValue (Some s)) = true))
  /\ (0 <= now < 2 ^ 53 ->
       shouldRefresh now (ReadValue None) = (43200000 <? now)).
Proof.
  split; [exact max_age_value |].
  split; [reflexivity |].
  split; [intros s H; unfold shouldRefresh; rewrite H; reflexivity |].
  split; [intros s H; unfold shouldRefresh; rewrite H; reflexivity |].
  split; [intros s t; apply shouldRefresh_whole_timestamp |].
  split.
  - intros s t Hs Ht Hnow. split; intros ->.
    + rewrite (shouldRefresh_whole_timestamp _ t s Hs) by lia.
      apply Z.ltb_ge. lia.
    + rewrite (shouldRefresh_whole_timestamp _ t s Hs) by lia.
      apply Z.ltb_lt. lia.
  - intros Hnow. unfold shouldRefresh.
    change Num.zero with (Num.of_Z 0). rewrite of_Z_finite by lia.
    cbn [negb orb]. rewrite of_Z_sub by lia. rewrite Z.sub_0_r, max_age_value.
    unfold Num.gt. fold (Num.lt (Num.of_Z 43200000) (Num.of_Z now)).
    apply of_Z_lt; [| lia].
    split; [lia | reflexivity].
Qed.

(** C4 at a timestamp of 14 November 2023: not due after twelve hours less
    one millisecond, due after twelve hours and one millisecond. *)
Lemma shouldRefresh_by_age_witness :
  shouldRefresh (1700000000000 + 43200000 - 1)
    (ReadValue (Some "1700000000000")) = false
  /\ shouldRefresh (1700000000000 + 43200000 + 1)
       (ReadValue (Some "1700000000000")) = true.
Proof.
  assert (Hs : Str.toNumber "1700000000000" = Num.of_Z 1700000000000)
    by (vm_compute; reflexivity).
  assert (Hb : 1700000000000 + 43200000 + 1 < 2 ^ 53) by reflexivity.
  split.
  - refine (proj1 (proj1 (proj2 (proj2 (proj2 (proj2 (proj2
              (shouldRefresh_by_age (1700000000000 + 43200000 - 1)))))))
              "1700000000000" 1700000000000 Hs _ _) eq_refl);
      [discriminate | reflexivity].
  - refine (proj2 (proj1 (proj2 (proj2 (proj2 (proj2 (proj2
              (shouldRefresh_by_age (1700000000000 + 43200000 + 1)))))))
              "1700000000000" 1700000000000 Hs _ _) eq_refl);
      [discriminate | reflexivity].
Defined.

(** ** Export followed by import *)

Lemma text_or_text (s d : string) (k : nat) :
  text_or (VStr s) d k = (inl (if Str.truthy s then s else d), k).
Proof. unfold text_or. simpl. destruct (Str.truthy s); reflexivity. Qed.

Lemma plain_amount_reimport (x : number) (k : nat) :
  plain_amount x = true ->
  number_of (Val.or_else (json_number x) (VNum Num.zero)) k = (inl x, k).
Proof.
  intros H. destruct x as [[] | [] | | [] m e]; try discriminate; reflexivity.
Qed.

Lemma plain_amount_max (x : number) :
  plain_amount x = true -> Num.max Num.zero x = x.
Proof.
  intros H. destruct x as [[] | [] | | [] m e]; try discriminate; reflexivity.
Qed.

Lemma text_or_notes (o : option string) (k : nat) :
  text_or
    match Val.own match o with Some s => [("notes", VStr s)] | None => [] end
            "notes" with
    | Some x => x
    | None => VUndef
    end "" k
  = (inl (match o with Some s => s | None => "" end), k).
Proof.
  destruct o as [s |]; [| reflexivity].
  cbn [Val.own String.eqb Ascii.eqb Bool.eqb].
  rewrite text_or_text. destruct s; reflexivity.
Qed.

Lemma truthy_text (s : string) : (if Str.truthy s then s else "") = s.
Proof. destruct s; reflexivity. Qed.

Lemma existsb_eqb_In (x : string) (l : list string) :
  existsb (String.eqb x) l = true <-> In x l.
Proof.
  rewrite existsb_exists. split.
  - intros [y [Hy He]]. apply String.eqb_eq in He. congruence.
  - intros H. exists x. split; [assumption | apply String.eqb_refl].
Qed.

Lemma Set_absorbs (extra seen : list string) :
  (forall x, In x extra -> In x seen) ->
  fold_left
    (fun seen x => if existsb (String.eqb x) seen then seen else (seen ++ [x])%list)
    extra seen = seen.
Proof.
  induction extra as [| x extra IH]; intros H; [reflexivity |].
  cbn [fold_left].
  assert (Hx : existsb (String.eqb x) seen = true)
    by (apply existsb_eqb_In, H; left; reflexivity).
  rewrite Hx. apply IH. intros y Hy. apply H. right. exact Hy.
Qed.

Lemma Set_keeps_distinct (l seen : list string) :
  List.NoDup (seen ++ l)%list ->
  fold_left
    (fun seen x => if existsb (String.eqb x) seen then seen else (seen ++ [x])%list)
    l seen = (seen ++ l)%list.
Proof.
  revert seen. induction l as [| x l IH]; intros seen H.
  - rewrite app_nil_r. reflexivity.
  - cbn [fold_left].
    assert (Hx : existsb (String.eqb x) seen = false).
    { destruct (existsb (String.eqb x) seen) eqn:E; [| reflexivity].
      apply existsb_eqb_In in E. apply NoDup_remove_2 in H.
      exfalso. apply H. apply in_or_app. left. exact E. }
    rewrite Hx. rewrite IH; rewrite <- app_assoc; [reflexivity | exact H].
Qed.

Lemma Array_from_Set_listed (cats extra : list string) :
  List.NoDup cats -> (forall x, In x extra -> In x cats) ->
  Array_from_Set (cats ++ extra)%list = cats.
Proof.
  intros Hn Hin. unfold Array_from_Set. rewrite fold_left_app.
  rewrite (Set_keeps_distinct cats []) by exact Hn.
  apply Set_absorbs. exact Hin.
Qed.

Lemma mapM_String_of_texts (cats : list string) (k : nat) :
  mapM String_of (map VStr cats) k = (inl cats, k).
Proof.
  induction cats as [| c cats IH]; [reflexivity |].
  cbn [map mapM]. unfold bind at 1. cbn [String_of]. unfold ret at 1.
  unfold bind at 1. rewrite IH. reflexivity.
Qed.

Section RoundTrip.

Variable env : Env.

Lemma import_income_exported (r : IncomeRow) (k : nat) :
  plain_amount (amount r) = true ->
  exists r' k',
    import_income env (json_income r) k = (inl r', k')
    /\ same_income env r r'.
Proof.
  intros Ha.
  destruct r as [i d t a o]. simpl in Ha.
  unfold import_income, json_income, bind. cbn [id date desc amount notes].
  cbn [Val.get Val.own String.eqb Ascii.eqb Bool.eqb app].
  cbn [Val.truthy].
  destruct (Str.truthy i) eqn:Hi.
  - cbn [as_text]. unfold ret at 1. rewrite !text_or_text, !truthy_text.
    rewrite (plain_amount_reimport a _ Ha), text_or_notes.
    rewrite (plain_amount_max a Ha). unfold ret.
    do 2 eexists. split; [reflexivity |].
    unfold same_income. cbn [id date desc amount notes].
    repeat split; try reflexivity.
    intros ->. discriminate.
  - unfold fresh. rewrite !text_or_text, !truthy_text.
    rewrite (plain_amount_reimport a _ Ha), text_or_notes.
    rewrite (plain_amount_max a Ha). unfold ret.
    do 2 eexists. split; [reflexivity |].
    unfold same_income. cbn [id date desc amount notes].
    repeat split; try reflexivity.
    + intros Hne. destruct i; [congruence | discriminate].
    + intros _. exists k. reflexivity.
Qed.

Lemma import_expense_exported (r : ExpenseRow) (k : nat) :
  plain_amount (e_amount r) = true -> category r <> "" ->
  exists r' k',
    import_expense env (json_expense r) k = (inl r', k')
    /\ same_expense env r r'.
Proof.
  intros Ha Hc.
  destruct r as [i d c t a o]. simpl in Ha, Hc.
  assert (Hct : Str.truthy c = true) by (destruct c; [congruence | reflexivity]).
  unfold import_expense, json_expense, bind.
  cbn [e_id e_date category e_desc e_amount e_notes].
  cbn [Val.get Val.own String.eqb Ascii.eqb Bool.eqb app].
  cbn [Val.truthy].
  destruct (Str.truthy i) eqn:Hi.
  - cbn [as_text]. unfold ret at 1. rewrite !text_or_text, !truthy_text, Hct.
    rewrite (plain_amount_reimport a _ Ha), text_or_notes.
    rewrite (plain_amount_max a Ha). unfold ret.
    do 2 eexists. split; [reflexivity |].
    unfold same_expense. cbn [e_id e_date category e_desc e_amount e_notes].
    repeat split; try reflexivity.
    intros ->. discriminate.
  - unfold fresh. rewrite !text_or_text, !truthy_text, Hct.
    rewrite (plain_amount_reimport a _ Ha), text_or_notes.
    rewrite (plain_amount_max a Ha). unfold ret.
    do 2 eexists. split; [reflexivity |].
    unfold same_expense. cbn [e_id e_date category e_desc e_amount e_notes].
    repeat split; try reflexivity.
    + intros Hne. destruct i; [congruence | discriminate].
    + intros _. exists k. reflexivity.
Qed.

Lemma import_all_income (rows : list IncomeRow) (k : nat) :
  Forall (fun r => plain_amount (amount r) = true) rows ->
  exists rows' k',
    mapM (import_income env) (map json_income rows) k = (inl rows', k')
    /\ Forall2 (same_income env) rows rows'.
Proof.
  intros H. revert k. induction H as [| r rows Hr _ IH]; intros k.
  - exists [], k. split; [reflexivity | constructor].
  - destruct (import_income_exported r k Hr) as [r' [k1 [E1 S1]]].
    destruct (IH k1) as [rows' [k2 [E2 S2]]].
    exists (r' :: rows'), k2. split; [| constructor; assumption].
    cbn [map mapM]. unfold bind at 1. rewrite E1.
    unfold bind at 1. rewrite E2. reflexivity.
Qed.

Lemma import_all_expenses (rows : list ExpenseRow) (k : nat) :
  Forall (fun r => plain_amount (e_amount r) = true /\ category r <> "") rows ->
  exists rows' k',
    mapM (import_expense env) (map json_expense rows) k = (inl rows', k')
    /\ Forall2 (same_expense env) rows rows'.
Proof.
  intros H. revert k. induction H as [| r rows [Ha Hc] _ IH]; intros k.
  - exists [], k. split; [reflexivity | constructor].
  - destruct (import_expense_exported r k Ha Hc) as [r' [k1 [E1 S1]]].
    destruct (IH k1) as [rows' [k2 [E2 S2]]].
    exists (r' :: rows'), k2. split; [| constructor; assumption].
    cbn [map mapM]. unfold bind at 1. rewrite E1.
    unfold bind at 1. rewrite E2. reflexivity.
Qed.

Lemma same_expense_categories (rows rows' : list ExpenseRow) :
  Forall2 (same_expense env) rows rows' ->
  map category rows' = map category rows.
Proof.
  induction 1 as [| r r' rows rows' [_ [Hc _]] _ IH]; [reflexivity |].
  cbn [map]. rewrite Hc, IH. reflexivity.
Qed.

(** C3, amended.  Take a ledger in which every amount is +0 or a positive
    finite Number, every expense has a non-empty category that the category
    set lists, and the category set is non-empty and without repetition.
    Exporting it and importing the produced document at once, with the
    replacement confirmed, succeeds; the imported records are the exported
    ones in the same order, each with the same date, description, amount and
    category, with its notes (absent notes come back as the empty text) and
    with its identifier unless that was empty, in which case a generated one
    takes its place; and the category set is the one exported. *)
Theorem export_then_import (exportedAt : string) (st : State) :
  Forall (fun r => plain_amount (amount r) = true) (income st) ->
  Forall (fun r => plain_amount (e_amount r) = true /\ category r <> "")
    (expenses st) ->
  categories st <> [] ->
  List.NoDup (categories st) ->
  (forall r, In r (expenses st) -> In (category r) (categories st)) ->
  exists st',
    onFilePicked env (Parses (fst (exportJSON env exportedAt st))) true
      (snd (exportJSON env exportedAt st))
    = Replaced st'
    /\ Forall2 (same_income env) (income st) (income st')
    /\ Forall2 (same_expense env) (expenses st) (expenses st')
    /\ categories st' = categories st.
Proof.
  intros Hi He Hc Hn Hin.
  set (cur := snd (exportJSON env exportedAt st)).
  destruct (import_all_income (income st) (ticks cur) Hi) as [inc [k1 [E1 S1]]].
  destruct (import_all_expenses (expenses st) k1 He) as [exp [k2 [E2 S2]]].
  cbn [exportJSON fst].
  unfold onFilePicked, export_document.
  cbn [Val.truthy Val.get Val.own String.eqb Ascii.eqb Bool.eqb Val.isArray negb orb].
  unfold import_rows. unfold bind at 1. rewrite E1.
  unfold bind at 1. rewrite E2.
  destruct (categories st) as [| c cs] eqn:Ecats; [congruence |].
  cbn [map].
  change (VStr c :: map VStr cs) with (map VStr (c :: cs)).
  unfold bind at 1. rewrite mapM_String_of_texts. unfold ret.
  eexists. split; [reflexivity |].
  cbn [income expenses categories toast setTicks setToasts setCategories setExpenses setIncome].
  repeat split; try assumption.
  rewrite (same_expense_categories _ _ S2).
  apply Array_from_Set_listed; [exact Hn |].
  intros x Hx. apply in_map_iff in Hx as [r [<- Hr]]. apply Hin. exact Hr.
Qed.
End RoundTrip.

(** C3, as the claim states it, fails.  After an expense was added under a
    category that the category set does not list, the import of the exported
    document adds that category to the set; and an income record whose amount
    is +Infinity is written with the amount [null] and comes back with the
    amount 0. *)
Lemma export_then_import_changes_ledger :
  (let st := onAddExpense sample_env travel_form in
   exists st',
     onFilePicked sample_env
       (Parses (fst (exportJSON sample_env "2024-01-03T00:00:00.000Z" st))) true
       (snd (exportJSON sample_env "2024-01-03T00:00:00.000Z" st))
     = Replaced st'
     /\ categories st' <> categories st)
  /\ (let st := onAddIncome sample_env overflow_form in
      exists st' r r',
        onFilePicked sample_env
          (Parses (fst (exportJSON sample_env "2024-01-03T00:00:00.000Z" st))) true
          (snd (exportJSON sample_env "2024-01-03T00:00:00.000Z" st))
        = Replaced st'
        /\ income st = [r] /\ income st' = [r']
        /\ amount r = Num.Infinity /\ amount r' = Num.zero).
Proof.
  split.
  - eexists. split; [vm_compute; reflexivity |]. vm_compute. discriminate.
  - do 3 eexists. repeat split; vm_compute; reflexivity.
Qed.

(** C3 on a ledger with one income record and one expense. *)
Lemma export_then_import_witness :
  exists st',
    onFilePicked sample_env
      (Parses (fst (exportJSON sample_env "2024-01-03T00:00:00.000Z" sample_ledger)))
      true
      (snd (exportJSON sample_env "2024-01-03T00:00:00.000Z" sample_ledger))
    = Replaced st'
    /\ Forall2 (same_income sample_env) (income sample_ledger) (income st')
    /\ Forall2 (same_expense sample_env) (expenses sample_ledger) (expenses st')
    /\ categories st' = categories sample_ledger.
Proof.
  apply (export_then_import sample_env "2024-01-03T00:00:00.000Z" sample_ledger).
  - vm_compute. repeat constructor.
  - vm_compute. repeat constructor. discriminate.
  - vm_compute. discriminate.
  - vm_compute. repeat constructor; simpl; intuition discriminate.
  - vm_compute. intros r [<- | []]. tauto.
Defined.

(** ** The category breakdown *)

Lemma count_or_0_insert_eq (m : gmap string number) (c : string) (x : number) :
  count_or_0 (<[c := x]> m) c = Num.or_else x Num.zero.
Proof. unfold count_or_0. rewrite lookup_insert_eq. reflexivity. Qed.

Lemma count_or_0_insert_ne (m : gmap string number) (c c' : string) (x : number) :
  c' <> c -> count_or_0 (<[c' := x]> m) c = count_or_0 m c.
Proof. intros H. unfold count_or_0. rewrite lookup_insert_ne by exact H. reflexivity. Qed.

Lemma breakdown_fold (c : string) (l : list ExpenseRow) :
  inherited c = false ->
  forall (m : gmap string number) (s : number),
    count_or_0 m c = Num.or_else s Num.zero ->
    count_or_0
      (fold_left
         (fun byCat e =>
            if inherited (category e) then byCat
            else
              <[ category e :=
                   Num.add (count_or_0 byCat (category e))
                     (Num.or_else (e_amount e) Num.zero) ]> byCat)
         l m) c
    = Num.or_else
        (fold_left
           (fun s e =>
              Num.add (Num.or_else s Num.zero) (Num.or_else (e_amount e) Num.zero))
           (List.filter (fun e => String.eqb (category e) c) l) s)
        Num.zero.
Proof.
  intros Hc. induction l as [| e l IH]; intros m s Hm; [exact Hm |].
  cbn [fold_left List.filter].
  destruct (String.eqb (category e) c) eqn:E; cbn [fold_left].
  - apply String.eqb_eq in E. rewrite E, Hc.
    apply IH. rewrite count_or_0_insert_eq, Hm. reflexivity.
  - apply String.eqb_neq in E.
    destruct (inherited (category e)); apply IH; [exact Hm |].
    rewrite count_or_0_insert_ne by exact E. exact Hm.
Qed.

Lemma breakdown_category_sum (c : string) (l : list ExpenseRow) :
  inherited c = false ->
  count_or_0 (breakdown l) c = Num.or_else (category_sum c l) Num.zero.
Proof.
  intros Hc. unfold breakdown, category_sum.
  apply breakdown_fold; [exact Hc | reflexivity].
Qed.

(** *** Whole amounts *)

Lemma or_else_whole (z : Z) :
  0 <= z < 2 ^ 53 -> Num.or_else (Num.of_Z z) Num.zero = Num.of_Z z.
Proof.
  intros H. destruct z as [| p | p]; [reflexivity | | lia].
  destruct (of_Z_pos_canonical p) as [q [-> _]]; [lia | reflexivity].
Qed.

Lemma whole_sum_nonneg (l : list ExpenseRow) :
  Forall (fun e => whole_amount (e_amount e)) l -> 0 <= whole_sum l.
Proof.
  induction 1 as [| e l [_ He] _ IH]; cbn [whole_sum fold_right]; [lia |].
  fold (whole_sum l). lia.
Qed.

Lemma whole_sum_filter_le (f : ExpenseRow -> bool) (l : list ExpenseRow) :
  Forall (fun e => whole_amount (e_amount e)) l ->
  0 <= whole_sum (List.filter f l) <= whole_sum l.
Proof.
  induction 1 as [| e l [_ He] _ IH]; cbn [List.filter whole_sum fold_right]; [lia |].
  fold (whole_sum l). destruct (f e); cbn [whole_sum fold_right];
    fold (whole_sum (List.filter f l)); lia.
Qed.

Lemma Forall_filter_whole (f : ExpenseRow -> bool) (l : list ExpenseRow) :
  Forall (fun e => whole_amount (e_amount e)) l ->
  Forall (fun e => whole_amount (e_amount e)) (List.filter f l).
Proof.
  induction 1 as [| e l He _ IH]; cbn [List.filter]; [constructor |].
  destruct (f e); [constructor |]; assumption.
Qed.

(** Adding whole amounts one by one is exact below 2^53, with or without
    the [|| 0] on the partial sums. *)
Lemma fold_whole (guard : bool) (l : list ExpenseRow) :
  Forall (fun e => whole_amount (e_amount e)) l ->
  forall z, 0 <= z -> z + whole_sum l < 2 ^ 53 ->
  fold_left
    (fun s e =>
       Num.add (if guard then Num.or_else s Num.zero else s)
         (Num.or_else (e_amount e) Num.zero))
    l (Num.of_Z z)
  = Num.of_Z (z + whole_sum l).
Proof.
  induction 1 as [| e l [He Hp] Hl IH]; intros z Hz Hb;
    cbn [fold_left whole_sum fold_right] in *.
  - rewrite Z.add_0_r. reflexivity.
  - fold (whole_sum l) in *. pose proof (whole_sum_nonneg l Hl) as Hn.
    set (a := Num.to_Z (e_amount e)) in *. rewrite He.
    replace (if guard then Num.or_else (Num.of_Z z) Num.zero else Num.of_Z z)
      with (Num.of_Z z) by (destruct guard; [rewrite or_else_whole by lia |]; reflexivity).
    rewrite or_else_whole by lia. rewrite of_Z_add by lia.
    rewrite IH by lia. f_equal. lia.
Qed.

Lemma whole_sum_cons (e : ExpenseRow) (l : list ExpenseRow) :
  whole_sum (e :: l) = Num.to_Z (e_amount e) + whole_sum l.
Proof. reflexivity. Qed.

Lemma whole_sum_filter_cons (f : ExpenseRow -> bool) (e : ExpenseRow)
    (l : list ExpenseRow) :
  whole_sum (List.filter f (e :: l))
  = (if f e then Num.to_Z (e_amount e) else 0) + whole_sum (List.filter f l).
Proof.
  cbn [List.filter]. destruct (f e); reflexivity.
Qed.

Lemma indicator_sum (x : string) (a : Z) (cats : list string) :
  List.NoDup cats -> In x cats ->
  fold_right (fun c s => (if String.eqb x c then a else 0) + s) 0 cats = a.
Proof.
  intros Hn. induction Hn as [| c cats Hc Hn IH]; intros Hin; [destruct Hin |].
  cbn [fold_right].
  destruct (String.eqb x c) eqn:E.
  - apply String.eqb_eq in E. subst c.
    assert (H0 : forall l, ~ In x l ->
              fold_right (fun c s => (if String.eqb x c then a else 0) + s) 0 l = 0).
    { induction l as [| y l IHl]; intros Hl; [reflexivity |].
      cbn [fold_right].
      destruct (String.eqb x y) eqn:Ey.
      - apply String.eqb_eq in Ey. exfalso. apply Hl. left. congruence.
      - rewrite IHl; [reflexivity |]. intros Hy. apply Hl. right. exact Hy. }
    rewrite (H0 cats Hc). lia.
  - apply String.eqb_neq in E. destruct Hin as [Hin | Hin]; [congruence |].
    rewrite (IH Hin). lia.
Qed.

Lemma whole_partition (cats : list string) (l : list ExpenseRow) :
  List.NoDup cats ->
  (forall e, In e l -> In (category e) cats) ->
  whole_breakdown_sum cats l = whole_sum l.
Proof.
  intros Hn. unfold whole_breakdown_sum, whole_category_sum.
  induction l as [| e l IH]; intros Hin.
  - cbn [List.filter]. clear Hn Hin.
    induction cats as [| c cats IHc]; [reflexivity |].
    cbn [fold_right]. rewrite IHc. reflexivity.
  - rewrite whole_sum_cons.
    rewrite <- IH by (intros e' He'; apply Hin; right; exact He').
    rewrite <- (indicator_sum (category e) (Num.to_Z (e_amount e)) cats Hn)
      by (apply Hin; left; reflexivity).
    clear. induction cats as [| c cats IHc]; [reflexivity |].
    cbn [fold_right]. rewrite whole_sum_filter_cons, IHc. lia.
Qed.

Lemma row_pct_of_zero (total : number) :
  Num.isZero (row_pct (Some Num.zero) total) = true.
Proof.
  destruct total as [[] | [] | | [] m e]; reflexivity.
Qed.

Lemma category_sum_none (c : string) (l : list ExpenseRow) :
  (forall e, In e l -> category e <> c) -> category_sum c l = Num.zero.
Proof.
  intros H. unfold category_sum.
  replace (List.filter (fun e => String.eqb (category e) c) l) with (@nil ExpenseRow);
    [reflexivity |].
  induction l as [| e l IH]; [reflexivity |].
  cbn [List.filter].
  destruct (String.eqb (category e) c) eqn:E.
  - apply String.eqb_eq in E. exfalso. apply (H e); [left; reflexivity | exact E].
  - apply IH. intros e' He'. apply H. right. exact He'.
Qed.

Lemma breakdown_table_rows (st : State) :
  breakdown_table st
  = map (fun c =>
           (c, shown_amt c (expenses st),
            row_pct (shown_amt c (expenses st))
              (expenseKRW (totals (income st) (expenses st) (rate st)))))
      (categories st).
Proof.
  unfold breakdown_table. apply map_ext. intros c.
  unfold row_amt, shown_amt.
  destruct (inherited c) eqn:Hc; [reflexivity |].
  rewrite (breakdown_category_sum c (expenses st) Hc). reflexivity.
Qed.

Lemma whole_total (inc : list IncomeRow) (exps : list ExpenseRow) (r : number) :
  Forall (fun e => whole_amount (e_amount e)) exps ->
  whole_sum exps < 2 ^ 53 ->
  expenseKRW (totals inc exps r) = Num.of_Z (whole_sum exps).
Proof.
  intros Hw Hb. unfold totals. cbn [expenseKRW].
  change Num.zero with (Num.of_Z 0) at 2.
  apply (fold_whole false exps Hw 0); lia.
Qed.

Lemma whole_category (c : string) (exps : list ExpenseRow) :
  Forall (fun e => whole_amount (e_amount e)) exps ->
  whole_sum exps < 2 ^ 53 ->
  Num.or_else (category_sum c exps) Num.zero
  = Num.of_Z (whole_category_sum c exps).
Proof.
  intros Hw Hb. unfold category_sum, whole_category_sum.
  pose proof (whole_sum_filter_le (fun e => String.eqb (category e) c) exps Hw) as Hle.
  change Num.zero with (Num.of_Z 0) at 3.
  rewrite (fold_whole true _ (Forall_filter_whole _ exps Hw) 0) by lia.
  apply or_else_whole. lia.
Qed.

Lemma whole_divisor (z : Z) :
  0 <= z < 2 ^ 53 ->
  Num.or_else (Num.of_Z z) (Num.of_Z 1) = Num.of_Z (Z.max z 1).
Proof.
  intros H. destruct z as [| p | p]; [reflexivity | | lia].
  replace (Z.max (Z.pos p) 1) with (Z.pos p) by lia.
  destruct (of_Z_pos_canonical p) as [q [-> _]]; [lia | reflexivity].
Qed.




(** ** What the handlers guarantee besides *)

Lemma max_zero_cases (a : number) :
  (Num.isNaN a = false -> Num.le Num.zero (Num.max Num.zero a) = true)
  /\ (Num.lt a Num.zero = true -> Num.max Num.zero a = Num.zero)
  /\ (Num.isNaN a = true -> Num.max Num.zero a = Num.NaN).
Proof.
  destruct a as [[] | [] | | [] m e]; repeat split; intros H;
    try discriminate; reflexivity.
Qed.

Lemma text_or_textual (v : value) (d : string) (k : nat) :
  textual v -> text_or v d k = (inl (text_of v d), k).
Proof.
  unfold text_or.
  destruct v as [| | b | x | s | items | props]; simpl; intros H;
    try discriminate; try (rewrite H; reflexivity); try reflexivity.
  destruct (Str.truthy s); reflexivity.
Qed.

Section Guarantees.

Variable env : Env.

(** X1.  [onAddIncome] appends the new record exactly when the trimmed date and
    the trimmed description are non-empty and the amount rounds to a Number
    above zero.  The record then carries the identifier that [uid] makes at
    that moment and the rounded amount, which is an integer whenever it is
    finite; the income total grows by that amount, exactly so when the
    total before and the amount are whole numbers with a sum below 2^53.
    Otherwise nothing changes but for the toast that reports the failed
    validation. *)
Theorem onAddIncome_validated (st : State) (exps : list ExpenseRow) (r : number) :
  income (onAddIncome env st)
    = (if income_ok st then (income st ++ [new_income env st])%list
       else income st)
  /\ (income_ok st = true <->
       Str.trim (f_date (incomeForm st)) <> ""
       /\ Str.trim (f_desc (incomeForm st)) <> ""
       /\ Num.gt (Num.round (Str.toNumber (f_amount (incomeForm st))))
            Num.zero = true)
  /\ (income_ok st = true ->
       incomeKRW (totals (income (onAddIncome env st)) exps r)
       = Num.add (incomeKRW (totals (income st) exps r))
           (amount (new_income env st))
       /\ (Num.isFinite (amount (new_income env st)) = true ->
           Num.isInteger (amount (new_income env st)) = true)
       /\ (forall T a,
             incomeKRW (totals (income st) exps r) = Num.of_Z T ->
             amount (new_income env st) = Num.of_Z a ->
             0 <= T -> 0 <= a -> T + a < 2 ^ 53 ->
             incomeKRW (totals (income (onAddIncome env st)) exps r)
             = Num.of_Z (T + a)))
  /\ (income_ok st = false ->
       onAddIncome env st
       = setTicks (S (ticks st))
           (setToasts (toasts st ++ [validation_toast env st])%list st)).
Proof.
  split.
  { destruct (income_ok st) eqn:H.
    - apply (onAddIncome_accepts env st H).
    - rewrite (onAddIncome_rejects env st H). reflexivity. }
  split.
  { unfold income_ok. rewrite !andb_true_iff, !truthy_nonempty. tauto. }
  split; [| apply onAddIncome_rejects].
  intros Hok.
  assert (Hsum :
    incomeKRW (totals (income (onAddIncome env st)) exps r)
    = Num.add (incomeKRW (totals (income st) exps r))
        (amount (new_income env st))).
  { destruct (onAddIncome_accepts env st Hok) as [-> _].
    unfold totals. cbn [incomeKRW]. rewrite fold_left_app. cbn [fold_left].
    rewrite or_else_gt_zero; [reflexivity |].
    unfold income_ok in Hok. apply andb_prop in Hok as [_ Hgt]. exact Hgt. }
  split; [exact Hsum |].
  split; [apply round_integer |].
  intros T a HT Ha H0 H1 H2. rewrite Hsum, HT, Ha. apply of_Z_add; assumption.
Qed.

(** X2.  An imported income entry that is not null, whose text properties hold
    strings or nothing, and whose amount converts without an exception, is
    repaired and kept: a missing identifier is generated, a missing date,
    description or notes becomes the empty text, and the amount becomes
    [Math.max(0, Number(amount || 0))], which is 0 for a missing or negative
    amount, at least 0 whenever the conversion is no NaN, and NaN when it
    is. *)
Theorem import_income_repairs (n : value) (k : nat) (a : number) :
  n <> VNull -> n <> VUndef ->
  textual (Val.get n "id") -> textual (Val.get n "date") ->
  textual (Val.get n "desc") -> textual (Val.get n "notes") ->
  Val.toNumber (Val.or_else (Val.get n "amount") (VNum Num.zero)) = Some a ->
  import_income env n k
  = (inl {| id := text_of (Val.get n "id") (uid env k);
            date := text_of (Val.get n "date") "";
            desc := text_of (Val.get n "desc") "";
            amount := Num.max Num.zero a;
            notes := Some (text_of (Val.get n "notes") "") |},
     if Val.truthy (Val.get n "id") then k else S k)
  /\ (Val.truthy (Val.get n "amount") = false -> a = Num.zero)
  /\ (Num.isNaN a = false -> Num.le Num.zero (Num.max Num.zero a) = true)
  /\ (Num.lt a Num.zero = true -> Num.max Num.zero a = Num.zero)
  /\ (Num.isNaN a = true -> Num.max Num.zero a = Num.NaN).
Proof.
  intros Hnull Hundef Hid Hdate Hdesc Hnotes Ha.
  split; [| split; [| apply max_zero_cases]].
  - assert (Hbody :
      (let! i :=
         (if Val.truthy (Val.get n "id") then as_text (Val.get n "id")
          else fresh env) in
       let! d := text_or (Val.get n "date") "" in
       let! t := text_or (Val.get n "desc") "" in
       let! a := number_of (Val.or_else (Val.get n "amount") (VNum Num.zero)) in
       let! o := text_or (Val.get n "notes") "" in
       ret {| id := i; date := d; desc := t; amount := Num.max Num.zero a;
              notes := Some o |}) k
      = (inl {| id := text_of (Val.get n "id") (uid env k);
                date := text_of (Val.get n "date") "";
                desc := text_of (Val.get n "desc") "";
                amount := Num.max Num.zero a;
                notes := Some (text_of (Val.get n "notes") "") |},
         if Val.truthy (Val.get n "id") then k else S k)).
    { unfold bind, number_of. rewrite Ha.
      destruct (Val.get n "id") as [| | b | x | s | items | props];
        simpl in Hid; try discriminate; simpl; try rewrite Hid; simpl;
        try (destruct (Str.truthy s) eqn:Hs; simpl);
        rewrite !text_or_textual by assumption; reflexivity. }
    destruct n; try congruence; exact Hbody.
  - intros Hf. unfold Val.or_else in Ha. rewrite Hf in Ha.
    simpl in Ha. congruence.
Qed.

(** X3.  The same for an imported expense entry, whose missing category becomes
    "Other". *)
Theorem import_expense_repairs (n : value) (k : nat) (a : number) :
  n <> VNull -> n <> VUndef ->
  textual (Val.get n "id") -> textual (Val.get n "date") ->
  textual (Val.get n "category") -> textual (Val.get n "desc") ->
  textual (Val.get n "notes") ->
  Val.toNumber (Val.or_else (Val.get n "amount") (VNum Num.zero)) = Some a ->
  import_expense env n k
  = (inl {| e_id := text_of (Val.get n "id") (uid env k);
            e_date := text_of (Val.get n "date") "";
            category := text_of (Val.get n "category") "Other";
            e_desc := text_of (Val.get n "desc") "";
            e_amount := Num.max Num.zero a;
            e_notes := Some (text_of (Val.get n "notes") "") |},
     if Val.truthy (Val.get n "id") then k else S k).
Proof.
  intros Hnull Hundef Hid Hdate Hcat Hdesc Hnotes Ha.
  assert (Hbody :
    (let! i :=
       (if Val.truthy (Val.get n "id") then as_text (Val.get n "id")
        else fresh env) in
     let! d := text_or (Val.get n "date") "" in
     let! c := text_or (Val.get n "category") "Other" in
     let! t := text_or (Val.get n "desc") "" in
     let! a := number_of (Val.or_else (Val.get n "amount") (VNum Num.zero)) in
     let! o := text_or (Val.get n "notes") "" in
     ret {| e_id := i; e_date := d; category := c; e_desc := t;
            e_amount := Num.max Num.zero a; e_notes := Some o |}) k
    = (inl {| e_id := text_of (Val.get n "id") (uid env k);
              e_date := text_of (Val.get n "date") "";
              category := text_of (Val.get n "category") "Other";
              e_desc := text_of (Val.get n "desc") "";
              e_amount := Num.max Num.zero a;
              e_notes := Some (text_of (Val.get n "notes") "") |},
       if Val.truthy (Val.get n "id") then k else S k)).
  { unfold bind, number_of. rewrite Ha.
    destruct (Val.get n "id") as [| | b | x | s | items | props];
      simpl in Hid; try discriminate; simpl; try rewrite Hid; simpl;
      try (destruct (Str.truthy s) eqn:Hs; simpl);
      rewrite !text_or_textual by assumption; reflexivity. }
  destruct n; try congruence; exact Hbody.
Qed.


End Guarantees.

(** The entry of the specification's example is kept with the amount 0 and
    a generated identifier, and the import of the document that holds it
    leaves the default category set. *)
Lemma import_income_repairs_witness :
  import_income sample_env minus_fifty_entry 0%nat
  = (inl {| id := uid sample_env 0%nat; date := "2024-01-01"; desc := "X";
            amount := Num.zero; notes := Some "" |}, 1%nat)
  /\ exists st,
       onFilePicked sample_env (one_income_document (VNum (Num.of_Z (-50))))
         true initial_state = Replaced st
       /\ income st
          = [ {| id := uid sample_env 0%nat; date := "2024-01-01"; desc := "X";
                 amount := Num.zero; notes := Some "" |} ]
       /\ categories st = DEFAULT_CATEGORIES.
Proof.
  split.
  - refine (proj1 (import_income_repairs sample_env minus_fifty_entry 0%nat
                     (Num.of_Z (-50)) _ _ _ _ _ _ _));
      try discriminate; try reflexivity; exact I.
  - eexists. repeat split; vm_compute; reflexivity.
Defined.

(** An expense entry that has nothing but the amount "1200" is kept under
    the category "Other". *)
Lemma import_expense_repairs_witness :
  import_expense sample_env bare_expense_entry 0%nat
  = (inl {| e_id := uid sample_env 0%nat; e_date := ""; category := "Other";
            e_desc := ""; e_amount := Num.of_Z 1200; e_notes := Some "" |},
     1%nat).
Proof.
  refine (import_expense_repairs sample_env bare_expense_entry 0%nat
            (Num.of_Z 1200) _ _ _ _ _ _ _ _);
    try discriminate; reflexivity.
Defined.

(** The specification's example: with the date "2024-01-01", the
    description "Salary" and the amount "3000000" the record is appended with
    the amount 3000000, and the income total goes from 0 to 3000000. *)
Lemma onAddIncome_validated_witness :
  income_ok salary_form = true
  /\ incomeKRW (totals (income salary_form) [] (rate salary_form)) = Num.of_Z 0
  /\ amount (new_income sample_env salary_form) = Num.of_Z 3000000
  /\ incomeKRW
       (totals (income (onAddIncome sample_env salary_form)) []
          (rate salary_form))
     = Num.of_Z (0 + 3000000).
Proof.
  assert (Hok : income_ok salary_form = true) by (vm_compute; reflexivity).
  assert (HT : incomeKRW (totals (income salary_form) [] (rate salary_form))
               = Num.of_Z 0) by (vm_compute; reflexivity).
  assert (Ha : amount (new_income sample_env salary_form) = Num.of_Z 3000000)
    by (vm_compute; reflexivity).
  split; [exact Hok |]. split; [exact HT |]. split; [exact Ha |].
  refine (proj2 (proj2 (proj1 (proj2 (proj2
            (onAddIncome_validated sample_env salary_form [] (rate salary_form))))
            Hok)) 0 3000000 HT Ha _ _ _); [discriminate | discriminate | reflexivity].
Defined.

(** ** What a successful import establishes *)

Lemma Set_fold_spec (l seen : list string) :
  List.NoDup seen ->
  List.NoDup
    (fold_left
       (fun seen x => if existsb (String.eqb x) seen then seen else (seen ++ [x])%list)
       l seen)
  /\ forall x,
       In x
         (fold_left
            (fun seen x => if existsb (String.eqb x) seen then seen else (seen ++ [x])%list)
            l seen)
       <-> In x seen \/ In x l.
Proof.
  revert seen. induction l as [| y l IH]; intros seen Hn; cbn [fold_left].
  - split; [exact Hn |]. intros x. simpl. tauto.
  - destruct (existsb (String.eqb y) seen) eqn:E.
    + destruct (IH seen Hn) as [H1 H2]. split; [exact H1 |].
      intros x. rewrite H2. apply existsb_eqb_In in E. simpl.
      split; [tauto |]. intros [H | [<- | H]]; tauto.
    + assert (Hy : ~ In y seen).
      { intros H. apply existsb_eqb_In in H. congruence. }
      assert (Hn' : List.NoDup (seen ++ [y])%list).
      { apply List.NoDup_app; [exact Hn | repeat constructor; intros [] |].
        intros x Hx [<- | []]. exact (Hy Hx). }
      destruct (IH _ Hn') as [H1 H2]. split; [exact H1 |].
      intros x. rewrite H2, in_app_iff. simpl. tauto.
Qed.

Lemma Array_from_Set_spec (l : list string) :
  List.NoDup (Array_from_Set l) /\ forall x, In x (Array_from_Set l) <-> In x l.
Proof.
  destruct (Set_fold_spec l [] (List.NoDup_nil string)) as [H1 H2].
  split; [exact H1 |]. intros x. unfold Array_from_Set. rewrite H2. simpl. tauto.
Qed.

Lemma mapM_inversion {A B : Type} (f : A -> Conv B) (P : B -> Prop) :
  (forall a k b k', f a k = (inl b, k') -> P b) ->
  forall l k bs k',
    mapM f l k = (inl bs, k') -> length bs = length l /\ Forall P bs.
Proof.
  intros Hf. induction l as [| a l IH]; intros k bs k' H; cbn [mapM] in H.
  - unfold ret in H. injection H as <- _. split; [reflexivity | constructor].
  - unfold bind in H at 1.
    destruct (f a k) as [[b | e] k1] eqn:E1; [| discriminate].
    unfold bind in H at 1.
    destruct (mapM f l k1) as [[bs' | e] k2] eqn:E2; [| discriminate].
    unfold ret in H. injection H as <- _.
    destruct (IH _ _ _ E2) as [Hl HP].
    split; [simpl; congruence |].
    constructor; [exact (Hf _ _ _ _ E1) | exact HP].
Qed.

Lemma max_zero_not_negative (a : number) :
  Num.lt (Num.max Num.zero a) Num.zero = false.
Proof. destruct a as [[] | [] | | [] m e]; reflexivity. Qed.

Lemma text_or_result (v : value) (d : string) (k : nat) (s : string) (k' : nat) :
  text_or v d k = (inl s, k') -> s = d \/ s <> "".
Proof.
  unfold text_or.
  destruct v as [| | b | x | t | items | props]; simpl;
    try (unfold ret; intros H; injection H as <- _; left; reflexivity);
    try (destruct b); try (destruct (Num.truthy x));
    unfold ret, abort; try discriminate;
    try (intros H; injection H as <- _; left; reflexivity).
  destruct t; intros H; injection H as <- _; [left; reflexivity | right; discriminate].
Qed.

Section Imported.

Variable env : Env.

Lemma uid_nonempty (k : nat) : uid env k <> "".
Proof. unfold uid. discriminate. Qed.

Lemma imported_id (n : value) (k : nat) (s : string) (k' : nat) :
  (if Val.truthy (Val.get n "id") then as_text (Val.get n "id") else fresh env) k
  = (inl s, k') -> s <> "".
Proof.
  destruct (Val.get n "id") as [| | b | x | t | items | props]; simpl;
    try (destruct b); try (destruct (Num.truthy x)); try (destruct t);
    unfold fresh, ret, abort; intros H; try discriminate;
    injection H as <- _; try apply uid_nonempty; discriminate.
Qed.

Lemma import_income_result (n : value) (k : nat) (r : IncomeRow) (k' : nat) :
  import_income env n k = (inl r, k') ->
  id r <> "" /\ Num.lt (amount r) Num.zero = false /\ notes r <> None.
Proof.
  intros H.
  assert (Hbody :
    (let! i :=
       (if Val.truthy (Val.get n "id") then as_text (Val.get n "id")
        else fresh env) in
     let! d := text_or (Val.get n "date") "" in
     let! t := text_or (Val.get n "desc") "" in
     let! a := number_of (Val.or_else (Val.get n "amount") (VNum Num.zero)) in
     let! o := text_or (Val.get n "notes") "" in
     ret {| id := i; date := d; desc := t; amount := Num.max Num.zero a;
            notes := Some o |}) k = (inl r, k')).
  { destruct n; try exact H; discriminate. }
  clear H. unfold bind in Hbody.
  conv_step Hbody. rename E into Eid.
  do 4 conv_step Hbody.
  unfold ret in Hbody. injection Hbody as <- _. cbn [id amount notes].
  split; [exact (imported_id _ _ _ _ Eid) |].
  split; [apply max_zero_not_negative | discriminate].
Qed.

Lemma import_expense_result (n : value) (k : nat) (r : ExpenseRow) (k' : nat) :
  import_expense env n k = (inl r, k') ->
  e_id r <> "" /\ category r <> "" /\ Num.lt (e_amount r) Num.zero = false
  /\ e_notes r <> None.
Proof.
  intros H.
  assert (Hbody :
    (let! i :=
       (if Val.truthy (Val.get n "id") then as_text (Val.get n "id")
        else fresh env) in
     let! d := text_or (Val.get n "date") "" in
     let! c := text_or (Val.get n "category") "Other" in
     let! t := text_or (Val.get n "desc") "" in
     let! a := number_of (Val.or_else (Val.get n "amount") (VNum Num.zero)) in
     let! o := text_or (Val.get n "notes") "" in
     ret {| e_id := i; e_date := d; category := c; e_desc := t;
            e_amount := Num.max Num.zero a; e_notes := Some o |}) k = (inl r, k')).
  { destruct n; try exact H; discriminate. }
  clear H. unfold bind in Hbody.
  conv_step Hbody. rename E into Eid.
  conv_step Hbody. clear E.
  conv_step Hbody. rename E into Ecat.
  do 3 conv_step Hbody.
  unfold ret in Hbody. injection Hbody as <- _.
  cbn [e_id category e_amount e_notes].
  split; [exact (imported_id _ _ _ _ Eid) |].
  split; [| split; [apply max_zero_not_negative | discriminate]].
  destruct (text_or_result _ _ _ _ _ Ecat) as [-> | H]; [discriminate | exact H].
Qed.

End Imported.


(** ** Deleting records and adding categories *)

Section Maintenance.

Variable env : Env.

(** X6.  A confirmed deletion removes from the collection of the given kind
    exactly the records that carry the identifier, so that it changes
    nothing when no record carries it; a deletion that is not confirmed
    changes nothing at all. *)
Theorem onDelete_removes (i : string) (kind : RecordKind) (st : State) :
  onDelete env i kind false st = st
  /\ (forall r, In r (income (onDelete env i KIncome true st))
               <-> In r (income st) /\ id r <> i)
  /\ (forall r, In r (expenses (onDelete env i KExpense true st))
               <-> In r (expenses st) /\ e_id r <> i)
  /\ (Forall (fun r => id r <> i) (income st) ->
      income (onDelete env i KIncome true st) = income st)
  /\ (Forall (fun r => e_id r <> i) (expenses st) ->
      expenses (onDelete env i KExpense true st) = expenses st).
Proof.
  split; [reflexivity |].
  split.
  { intros r. unfold onDelete. cbn [negb income toast setTicks setToasts setIncome].
    rewrite filter_In, negb_true_iff, String.eqb_neq. reflexivity. }
  split.
  { intros r. unfold onDelete.
    cbn [negb expenses toast setTicks setToasts setExpenses].
    rewrite filter_In, negb_true_iff, String.eqb_neq. reflexivity. }
  split.
  - intros H. unfold onDelete. cbn [negb income toast setTicks setToasts setIncome].
    induction H as [| r l Hr _ IH]; [reflexivity |].
    cbn [List.filter]. apply String.eqb_neq in Hr. rewrite Hr. cbn [negb].
    rewrite IH. reflexivity.
  - intros H. unfold onDelete.
    cbn [negb expenses toast setTicks setToasts setExpenses].
    induction H as [| r l Hr _ IH]; [reflexivity |].
    cbn [List.filter]. apply String.eqb_neq in Hr. rewrite Hr. cbn [negb].
    rewrite IH. reflexivity.
Qed.

(** X7.  [onAddCategory] does nothing when the prompt is cancelled or the
    trimmed name is empty; it leaves the category set and reports an error
    when an entry equals the name up to the case of its letters; otherwise it
    appends the trimmed name.  A category set without repetition stays
    without repetition. *)
Theorem onAddCategory_appends_new (answer : option string) (st : State) :
  onAddCategory env None st = st
  /\ (forall typed, Str.trim typed = "" -> onAddCategory env (Some typed) st = st)
  /\ (forall typed,
        Str.trim typed <> "" ->
        (exists c, In c (categories st)
                   /\ Str.toLowerCase c = Str.toLowerCase (Str.trim typed)) ->
        categories (onAddCategory env (Some typed) st) = categories st
        /\ onAddCategory env (Some typed) st
           = toast env (Text "Category already exists") error st)
  /\ (forall typed,
        Str.trim typed <> "" ->
        (forall c, In c (categories st) ->
                   Str.toLowerCase c <> Str.toLowerCase (Str.trim typed)) ->
        categories (onAddCategory env (Some typed) st)
        = (categories st ++ [Str.trim typed])%list)
  /\ (List.NoDup (categories st) ->
      List.NoDup (categories (onAddCategory env answer st))).
Proof.
  assert (Hsome : forall name : string,
            existsb (fun c => String.eqb (Str.toLowerCase c) (Str.toLowerCase name))
              (categories st) = true
            <-> exists c, In c (categories st)
                          /\ Str.toLowerCase c = Str.toLowerCase name).
  { intros name. rewrite existsb_exists.
    split; intros [c [Hc He]]; exists c; split; try assumption;
      apply String.eqb_eq; exact He. }
  split; [reflexivity |].
  split.
  { intros typed H. unfold onAddCategory. rewrite H. reflexivity. }
  split.
  { intros typed Hne Hex. unfold onAddCategory.
    apply truthy_nonempty in Hne. rewrite Hne. cbn [negb].
    apply Hsome in Hex. rewrite Hex. split; reflexivity. }
  split.
  { intros typed Hne Hall. unfold onAddCategory.
    apply truthy_nonempty in Hne. rewrite Hne. cbn [negb].
    destruct (existsb _ (categories st)) eqn:E; [| reflexivity].
    apply Hsome in E as [c [Hc He]]. exfalso. exact (Hall c Hc He). }
  intros Hn. unfold onAddCategory.
  destruct answer as [typed |]; [| exact Hn].
  destruct (negb (Str.truthy (Str.trim typed))); [exact Hn |].
  destruct (existsb _ (categories st)) eqn:E; [exact Hn |].
  cbn [categories toast setTicks setToasts setExpenseForm setCategories].
  apply List.NoDup_app; [exact Hn | repeat constructor; intros [] |].
  intros c Hc [<- | []].
  assert (Hex : existsb
                  (fun c => String.eqb (Str.toLowerCase c)
                              (Str.toLowerCase (Str.trim typed)))
                  (categories st) = true)
    by (apply Hsome; exists (Str.trim typed); split; [exact Hc | reflexivity]).
  congruence.
Qed.

End Maintenance.

(** Deleting by an identifier that no record carries, confirmed, on the
    ledger with one income record and one expense. *)
Lemma onDelete_removes_witness :
  income (onDelete sample_env "id-none" KIncome true sample_ledger)
  = income sample_ledger
  /\ expenses (onDelete sample_env "id-none" KExpense true sample_ledger)
     = expenses sample_ledger.
Proof.
  destruct (onDelete_removes sample_env "id-none" KIncome sample_ledger)
    as [_ [_ [_ [Hi He]]]].
  split.
  - apply Hi. vm_compute. repeat constructor; discriminate.
  - apply He. vm_compute. repeat constructor; discriminate.
Defined.

(** Adding "Travel" to the default categories, and then "travel". *)
Lemma onAddCategory_appends_new_witness :
  categories (onAddCategory sample_env (Some " Travel ") initial_state)
  = (DEFAULT_CATEGORIES ++ [ "Travel" ])%list
  /\ categories
       (onAddCategory sample_env (Some "travel")
          (onAddCategory sample_env (Some " Travel ") initial_state))
     = (DEFAULT_CATEGORIES ++ [ "Travel" ])%list.
Proof.
  assert (H1 : Str.trim " Travel " <> "") by (vm_compute; discriminate).
  assert (H2 : forall c, In c (categories initial_state) ->
                 Str.toLowerCase c <> Str.toLowerCase (Str.trim " Travel ")).
  { vm_compute. intuition (subst; discriminate). }
  assert (H3 : Str.trim "travel" <> "") by (vm_compute; discriminate).
  assert (H4 : exists c,
             In c (categories
                     (onAddCategory sample_env (Some " Travel ") initial_state))
             /\ Str.toLowerCase c = Str.toLowerCase (Str.trim "travel")).
  { exists "Travel". split; vm_compute; auto 20. }
  split.
  - exact (proj1 (proj2 (proj2 (proj2
             (onAddCategory_appends_new sample_env None initial_state))))
             " Travel " H1 H2).
  - exact (proj1 (proj1 (proj2 (proj2
             (onAddCategory_appends_new sample_env None
                (onAddCategory sample_env (Some " Travel ") initial_state))))
             "travel" H3 H4)).
Defined.

Lemma esc_entry_same (c : ascii) (r : string) :
  esc_entry c = Some r -> r = String c "".
Proof.
  unfold esc_entry.
  repeat match goal with
         | |- context [Ascii.eqb c ?x] =>
             destruct (Ascii.eqb_spec c x) as [-> | _]; [intros [= <-]; reflexivity |]
         end.
  discriminate.
Qed.

(** X8.  [esc] returns every string as it is. *)
Theorem esc_changes_nothing (str : string) :
  esc str = str
  /\ forall c, esc_entry c <> None -> esc_entry c = Some (String c "").
Proof.
  split.
  - induction str as [| c rest IH]; [reflexivity |].
    cbn [esc]. rewrite IH.
    destruct (esc_entry c) as [r |] eqn:E; [| reflexivity].
    apply esc_entry_same in E. subst r. reflexivity.
  - intros c H. destruct (esc_entry c) as [r |] eqn:E; [| contradiction].
    apply esc_entry_same in E. now subst r.
Qed.

Lemma digit_of_digit36 (d : Z) :
  0 <= d < 36 -> Str.digit_of 36 (digit36 d) = Some d.
Proof.
  intros H.
  rewrite <- (Z2Nat.id d) by lia.
  assert (Hn : (Z.to_nat d < 36)%nat) by (apply Nat2Z.inj_lt; rewrite Z2Nat.id; lia).
  revert Hn. generalize (Z.to_nat d). clear. intros n Hn.
  do 36 (destruct n as [| n]; [reflexivity |]). lia.
Qed.

Lemma digit36_hyphen (d : Z) :
  0 <= d < 36 -> Ascii.eqb (digit36 d) "-" = false.
Proof.
  intros H.
  rewrite <- (Z2Nat.id d) by lia.
  assert (Hn : (Z.to_nat d < 36)%nat) by (apply Nat2Z.inj_lt; rewrite Z2Nat.id; lia).
  revert Hn. generalize (Z.to_nat d). clear. intros n Hn.
  do 36 (destruct n as [| n]; [reflexivity |]). lia.
Qed.

Lemma append_cons (c : ascii) (a b : string) :
  String c a ++ b = String c (a ++ b).
Proof. reflexivity. Qed.

Lemma append_empty (a : string) : a ++ "" = a.
Proof. induction a as [| c a IH]; [reflexivity |]. now rewrite append_cons, IH. Qed.

Lemma append_assoc (a b c : string) : (a ++ b) ++ c = a ++ (b ++ c).
Proof.
  induction a as [| x a IH]; [reflexivity |]. now rewrite !append_cons, IH.
Qed.

Lemma length_append (a b : string) :
  String.length (a ++ b) = (String.length a + String.length b)%nat.
Proof.
  induction a as [| x a IH]; [reflexivity |].
  rewrite append_cons. cbn [String.length]. now rewrite IH.
Qed.

Lemma digits36_value_app (a b : string) (v : Z) :
  digits36_value (a ++ b) v
  = match digits36_value a v with
    | Some w => digits36_value b w
    | None => None
    end.
Proof.
  revert v. induction a as [| c a IH]; intros v; [reflexivity |].
  rewrite append_cons. cbn [digits36_value].
  destruct (Str.digit_of 36 c); [apply IH | reflexivity].
Qed.

Lemma hyphen_free_app (a b : string) :
  hyphen_free (a ++ b) = hyphen_free a && hyphen_free b.
Proof.
  induction a as [| c a IH]; [reflexivity |].
  rewrite append_cons. cbn [hyphen_free]. rewrite IH. now rewrite andb_assoc.
Qed.

(** What [base36] writes in front of [acc]: digits whose value is [n]. *)
Lemma base36_digits (fuel : nat) :
  forall n acc, 0 <= n < 36 ^ Z.of_nat fuel ->
    exists ds,
      base36 fuel n acc = ds ++ acc
      /\ (forall v, digits36_value ds v = Some (v * 36 ^ Z.of_nat (String.length ds) + n))
      /\ hyphen_free ds = true
      /\ (fuel <> O -> ds <> "").
Proof.
  induction fuel as [| fuel IH]; intros n acc Hn.
  - exists "". cbn. repeat split; try congruence.
    intros v. f_equal. change (36 ^ 0) with 1 in Hn. lia.
  - cbn [base36].
    assert (Hd : 0 <= n mod 36 < 36) by (apply Z.mod_pos_bound; lia).
    destruct (Z.eqb_spec (n / 36) 0) as [Hq | Hq].
    + exists (String (digit36 (n mod 36)) ""). repeat split; try easy.
      * intros v. cbn [digits36_value String.length].
        rewrite (digit_of_digit36 _ Hd). f_equal.
        change (36 ^ Z.of_nat 1) with 36.
        pose proof (Z.div_mod n 36). lia.
      * cbn [hyphen_free]. now rewrite (digit36_hyphen _ Hd).
    + assert (Hn' : 0 <= n / 36 < 36 ^ Z.of_nat fuel).
      { split; [apply Z.div_pos; lia |].
        apply Z.div_lt_upper_bound; [lia |].
        rewrite Nat2Z.inj_succ, Z.pow_succ_r in Hn; lia. }
      destruct (IH (n / 36) (String (digit36 (n mod 36)) acc) Hn')
        as (ds & E & V & F & _).
      exists (ds ++ String (digit36 (n mod 36)) ""). repeat split.
      * rewrite E. now rewrite append_assoc.
      * intros v. rewrite digits36_value_app, V.
        cbn [digits36_value]. rewrite (digit_of_digit36 _ Hd). f_equal.
        rewrite length_append. cbn [String.length].
        rewrite Nat2Z.inj_add, Z.pow_add_r by lia.
        change (36 ^ Z.of_nat 1) with 36.
        pose proof (Z.div_mod n 36). lia.
      * rewrite hyphen_free_app, F. cbn [hyphen_free].
        now rewrite (digit36_hyphen _ Hd).
      * intros _. destruct ds; discriminate.
Qed.

Lemma log2_fuel (n : Z) : 0 <= n -> n < 36 ^ Z.of_nat (S (Z.to_nat (Z.log2 n))).
Proof.
  intros Hn.
  rewrite Nat2Z.inj_succ, Z2Nat.id by apply Z.log2_nonneg.
  destruct (Z.eq_dec n 0) as [-> | Hz]; [reflexivity |].
  assert (H : n < 2 ^ Z.succ (Z.log2 n)) by (apply Z.log2_spec; lia).
  eapply Z.lt_le_trans; [exact H |].
  apply Z.pow_le_mono_l. split; [lia |]. lia.
Qed.

Lemma toString36_digits (n : Z) :
  exists ds,
    toString36 n = (if n <? 0 then String "-" ds else ds)
    /\ digits36_value ds 0 = Some (Z.abs n)
    /\ hyphen_free ds = true
    /\ ds <> "".
Proof.
  unfold toString36.
  destruct (base36_digits (S (Z.to_nat (Z.log2 (Z.abs n)))) (Z.abs n) ""
              (conj (Z.abs_nonneg n) (log2_fuel _ (Z.abs_nonneg n))))
    as (ds & E & V & F & N).
  exists ds. rewrite E. cbn zeta.
  rewrite append_empty.
  split; [reflexivity |]. split; [| split; [exact F | now apply N]].
  rewrite V. f_equal; lia.
Qed.

Lemma decode36_toString36 (k : Z) : decode36 (toString36 k) = Some k.
Proof.
  destruct (toString36_digits k) as (ds & E & V & F & N).
  rewrite E. destruct (Z.ltb_spec k 0) as [Hk | Hk].
  - cbn [decode36]. rewrite V. cbn. f_equal. lia.
  - unfold decode36. destruct ds as [| c ds]; [congruence |].
    destruct (Ascii.eqb_spec c "-") as [-> | Hc]; [discriminate F |].
    replace (match c with "-"%char => option_map Z.opp (digits36_value ds 0)
                       | _ => digits36_value (String c ds) 0 end)
      with (digits36_value (String c ds) 0).
    + rewrite V. f_equal. lia.
    + clear - Hc.
      destruct c as [[] [] [] [] [] [] [] []]; try reflexivity.
      now contradiction Hc.
Qed.

Lemma toString36_injective (m n : Z) : toString36 m = toString36 n -> m = n.
Proof.
  intros H. pose proof (decode36_toString36 m) as Dm.
  rewrite H, decode36_toString36 in Dm. congruence.
Qed.

(** X9.  The base-36 numeral of an integer reads back as that integer, so
    distinct integers have distinct numerals; the numeral is never empty
    and carries a hyphen only as the sign of a negative integer. *)
Theorem toString36_decodes (n : Z) :
  decode36 (toString36 n) = Some n
  /\ toString36 n <> ""
  /\ (forall m, toString36 m = toString36 n -> m = n)
  /\ (0 <= n -> hyphen_free (toString36 n) = true).
Proof.
  split; [apply decode36_toString36 |]. split; [| split].
  - destruct (toString36_digits n) as (ds & E & _ & _ & N). rewrite E.
    destruct (n <? 0); [discriminate | exact N].
  - intros m. apply toString36_injective.
  - intros Hn. destruct (toString36_digits n) as (ds & E & _ & F & _).
    rewrite E. destruct (Z.ltb_spec n 0); [lia | exact F].
Qed.

(** ** The ledger stays well-formed *)

Lemma distinct_NoDup (l : list string) : distinct l = true <-> List.NoDup l.
Proof.
  induction l as [| x l IH]; cbn [distinct].
  - split; [constructor | reflexivity].
  - rewrite andb_true_iff, negb_true_iff, IH. split.
    + intros [Hx Hl]. constructor; [| exact Hl].
      intros Hin. apply existsb_eqb_In in Hin. congruence.
    + intros H. inversion H as [| ? ? Hx Hl]; subst. split; [| exact Hl].
      destruct (existsb (String.eqb x) l) eqn:E; [| reflexivity].
      apply existsb_eqb_In in E. contradiction.
Qed.

Lemma ledger_sound_spec (st : State) :
  ledger_sound st = true
  <-> Forall (fun r => income_sound r = true) (income st)
      /\ Forall (fun r => expense_sound r = true) (expenses st)
      /\ categories st <> []
      /\ List.NoDup (categories st)
      /\ Num.isNaN (rate st) = false
      /\ Num.lt (rate st) Num.zero = false.
Proof.
  unfold ledger_sound.
  rewrite !andb_true_iff, !negb_true_iff, !forallb_forall, !List.Forall_forall,
    distinct_NoDup.
  destruct (categories st); intuition congruence.
Qed.

Lemma income_sound_spec (r : IncomeRow) :
  income_sound r = true
  <-> id r <> "" /\ Num.lt (amount r) Num.zero = false /\ notes r <> None.
Proof.
  unfold income_sound.
  rewrite !andb_true_iff, negb_true_iff, truthy_nonempty.
  destruct (notes r); intuition congruence.
Qed.

Lemma expense_sound_spec (r : ExpenseRow) :
  expense_sound r = true
  <-> e_id r <> "" /\ category r <> "" /\ Num.lt (e_amount r) Num.zero = false
      /\ e_notes r <> None.
Proof.
  unfold expense_sound.
  rewrite !andb_true_iff, negb_true_iff, !truthy_nonempty.
  destruct (e_notes r); intuition congruence.
Qed.

Lemma gt_zero_not_lt (x : number) :
  Num.gt x Num.zero = true -> Num.lt x Num.zero = false.
Proof. destruct x as [[] | [] | | [] m e]; cbv; congruence. Qed.

Lemma not_le_zero_sound (x : number) :
  Num.isFinite x = true -> Num.le x Num.zero = false ->
  positive_or_zero x = true.
Proof. destruct x as [[] | [] | | [] m e]; cbv; congruence. Qed.

Lemma positive_or_zero_spec (x : number) :
  positive_or_zero x = true ->
  Num.isNaN x = false /\ Num.lt x Num.zero = false.
Proof. destruct x as [[] | [] | | [] m e]; cbv; intros; split; congruence. Qed.

(** *** Rounding never turns a sign *)

Lemma shr_1_nonneg (mrs : shr_record) : 0 <= shr_m mrs -> 0 <= shr_m (shr_1 mrs).
Proof.
  destruct mrs as [m r s]. cbn [shr_m].
  destruct m as [| [p | p |] | p]; cbn; lia.
Qed.

Lemma iter_shr_1_nonneg (p : positive) (mrs : shr_record) :
  0 <= shr_m mrs -> 0 <= shr_m (SpecFloat.iter_pos shr_1 p mrs).
Proof.
  revert mrs. induction p as [p IH | p IH |]; intros mrs H; cbn [SpecFloat.iter_pos].
  - apply IH, IH, shr_1_nonneg, H.
  - apply IH, IH, H.
  - apply shr_1_nonneg, H.
Qed.

Lemma shr_fexp_nonneg (m e : Z) (l : location) :
  0 <= m -> 0 <= shr_m (fst (shr_fexp Num.prec Num.emax m e l)).
Proof.
  intros H. unfold shr_fexp, shr.
  assert (H0 : 0 <= shr_m (shr_record_of_loc m l))
    by (destruct l as [| []]; exact H).
  destruct (fexp Num.prec Num.emax (Zdigits2 m + e) - e); cbn [fst];
    [exact H0 | apply iter_shr_1_nonneg, H0 | exact H0].
Qed.

(** The sign bit of a Number, none for NaN. *)
Lemma binary_round_aux_sign (s : bool) (m e : Z) (l : location) :
  0 <= m ->
  match binary_round_aux Num.prec Num.emax s m e l with
  | S754_zero s' | S754_infinity s' | S754_finite s' _ _ => s' = s
  | S754_nan => False
  end.
Proof.
  intros H. unfold binary_round_aux.
  pose proof (shr_fexp_nonneg m e l H) as H1.
  destruct (shr_fexp Num.prec Num.emax m e l) as [mrs' e'].
  cbn [fst] in H1.
  assert (H2 : 0 <= round_nearest_even (shr_m mrs') (loc_of_shr_record mrs')).
  { unfold round_nearest_even.
    destruct (loc_of_shr_record mrs') as [| []]; try lia.
    destruct (Z.even (shr_m mrs')); lia. }
  pose proof (shr_fexp_nonneg _ e' loc_Exact H2) as H3.
  destruct (shr_fexp Num.prec Num.emax _ e' loc_Exact) as [mrs'' e''].
  cbn [fst] in H3.
  destruct (shr_m mrs'') as [| p | p]; [reflexivity | | lia].
  destruct (e'' <=? Num.emax - Num.prec); reflexivity.
Qed.

Lemma binary_round_sign (s : bool) (m : positive) (e : Z) :
  match binary_round Num.prec Num.emax s m e with
  | S754_zero s' | S754_infinity s' | S754_finite s' _ _ => s' = s
  | S754_nan => False
  end.
Proof.
  unfold binary_round.
  destruct (shl_align m e _) as [mz ez].
  apply binary_round_aux_sign. lia.
Qed.

Lemma div_core_nonneg (m1 : positive) (e1 : Z) (m2 : positive) (e2 : Z) :
  0 <= fst (fst (SFdiv_core_binary Num.prec Num.emax (Z.pos m1) e1 (Z.pos m2) e2)).
Proof.
  unfold SFdiv_core_binary.
  set (s := e1 - e2 - _).
  set (m' := match s with Z.pos _ => Z.shiftl (Z.pos m1) s | 0 => Z.pos m1
                        | Z.neg _ => 0 end).
  assert (Hm : 0 <= m').
  { subst m'. destruct s; [lia | | lia]. apply Z.shiftl_nonneg. lia. }
  pose proof (Z_div_mod m' (Z.pos m2) eq_refl) as D.
  destruct (Z.div_eucl m' (Z.pos m2)) as [q r]. cbn [fst].
  destruct D as [D1 D2]. nia.
Qed.

(** A Number that is no NaN, divided by a finite Number above zero, is no
    NaN and keeps its sign. *)
Lemma div_by_positive (x : number) (my : positive) (ey : Z) :
  positive_or_zero x = true ->
  positive_or_zero (Num.div x (S754_finite false my ey)) = true.
Proof.
  destruct x as [[] | [] | | [] mx ex]; try discriminate; intros _;
    try reflexivity.
  unfold Num.div, SFdiv.
  pose proof (div_core_nonneg mx ex my ey) as H.
  destruct (SFdiv_core_binary Num.prec Num.emax (Z.pos mx) ex (Z.pos my) ey)
    as [[q e'] l].
  cbn [fst] in H. cbn [xorb].
  pose proof (binary_round_aux_sign false q e' l H) as S.
  destruct (binary_round_aux _ _ _ _ _ _) as [[] | [] | | [] m e];
    try reflexivity; try discriminate; contradiction.
Qed.

Lemma div_not_NaN (x : number) (my : positive) (ey : Z) :
  Num.isNaN x = false ->
  Num.isNaN (Num.div x (S754_finite false my ey)) = false.
Proof.
  destruct x as [sx | sx | | sx mx ex]; try discriminate; intros _;
    try reflexivity.
  unfold Num.div, SFdiv.
  pose proof (div_core_nonneg mx ex my ey) as H.
  destruct (SFdiv_core_binary Num.prec Num.emax (Z.pos mx) ex (Z.pos my) ey)
    as [[q e'] l].
  cbn [fst] in H.
  pose proof (binary_round_aux_sign (xorb sx false) q e' l H) as S.
  destruct (binary_round_aux _ _ _ _ _ _); try reflexivity. contradiction.
Qed.

Lemma add_positive_or_zero (a b : number) :
  positive_or_zero a = true -> positive_or_zero b = true ->
  positive_or_zero (Num.add a b) = true.
Proof.
  destruct a as [[] | [] | | [] ma ea]; try discriminate;
    destruct b as [[] | [] | | [] mb eb]; try discriminate; intros _ _;
    try reflexivity.
  unfold Num.add, SFadd. cbn [cond_Zopp].
  set (ez := Z.min ea eb).
  change (Z.pos (fst (shl_align ma ea ez)) + Z.pos (fst (shl_align mb eb ez)))
    with (Z.pos (fst (shl_align ma ea ez) + fst (shl_align mb eb ez))).
  cbn [binary_normalize].
  pose proof (binary_round_sign false
                (fst (shl_align ma ea ez) + fst (shl_align mb eb ez)) ez) as S.
  destruct (binary_round _ _ _ _ _) as [[] | [] | | [] m e];
    try reflexivity; try discriminate; contradiction.
Qed.

(** *** What each action does to the ledger *)

Section Steps.

Variable env : Env.

(** The four cells of the ledger are those of before. *)
Lemma same_ledger_sound (st st' : State) :
  income st' = income st -> expenses st' = expenses st ->
  categories st' = categories st -> rate st' = rate st ->
  ledger_sound st = true -> ledger_sound st' = true.
Proof.
  intros Hi He Hc Hr. unfold ledger_sound. now rewrite Hi, He, Hc, Hr.
Qed.

Lemma new_income_sound (st : State) :
  income_ok st = true -> income_sound (new_income env st) = true.
Proof.
  unfold income_ok. intros H. apply andb_prop in H as [_ Ha].
  apply income_sound_spec. cbn [new_income id amount notes].
  split; [apply uid_nonempty |].
  split; [apply gt_zero_not_lt, Ha | discriminate].
Qed.

Lemma new_expense_sound (st : State) :
  expense_ok st = true -> expense_sound (new_expense env st) = true.
Proof.
  unfold expense_ok. intros H. apply andb_prop in H as [H Ha].
  apply andb_prop in H as [H _]. apply andb_prop in H as [_ Hc].
  apply expense_sound_spec. cbn [new_expense e_id category e_amount e_notes].
  split; [apply uid_nonempty |].
  split; [apply truthy_nonempty, Hc |].
  split; [apply gt_zero_not_lt, Ha | discriminate].
Qed.

Lemma onAddCategory_ledger (answer : option string) (st : State) :
  income (onAddCategory env answer st) = income st
  /\ expenses (onAddCategory env answer st) = expenses st
  /\ rate (onAddCategory env answer st) = rate st
  /\ (categories (onAddCategory env answer st) = categories st
      \/ exists name,
           categories (onAddCategory env answer st)
           = (categories st ++ [name])%list
           /\ ~ In name (categories st)).
Proof.
  unfold onAddCategory.
  destruct answer as [typed |]; [| now repeat split; try left].
  destruct (negb (Str.truthy (Str.trim typed))); [now repeat split; try left |].
  destruct (existsb _ (categories st)) eqn:E; [now repeat split; try left |].
  repeat split. right. exists (Str.trim typed). split; [reflexivity |].
  intros Hin.
  assert (Hex : existsb
                  (fun c => String.eqb (Str.toLowerCase c)
                              (Str.toLowerCase (Str.trim typed)))
                  (categories st) = true).
  { apply existsb_exists. exists (Str.trim typed).
    split; [exact Hin | apply String.eqb_refl]. }
  congruence.
Qed.

Lemma mapM_String_of_length (l : list value) (k : nat) (cat : list string) (k' : nat) :
  mapM String_of l k = (inl cat, k') -> length cat = length l.
Proof.
  intros H.
  exact (proj1 (mapM_inversion String_of (fun _ => True) (fun _ _ _ _ _ => I)
                  _ _ _ _ H)).
Qed.

Lemma advancing_bind {A B : Type} (m : Conv A) (f : A -> Conv B) :
  advancing m -> (forall a, advancing (f a)) -> advancing (bind m f).
Proof.
  intros Hm Hf k. unfold bind. specialize (Hm k).
  destruct (m k) as [[a | e] k1]; cbn [snd] in *; [| exact Hm].
  specialize (Hf a k1). lia.
Qed.

Lemma advancing_ret {A : Type} (a : A) : advancing (ret a).
Proof. intros k. cbn. lia. Qed.

Lemma advancing_abort {A : Type} (e : Abort) : advancing (@abort A e).
Proof. intros k. cbn. lia. Qed.

Lemma advancing_text_or (v : value) (d : string) : advancing (text_or v d).
Proof.
  unfold text_or. destruct (Val.truthy v); [| apply advancing_ret].
  destruct v; first [apply advancing_ret | apply advancing_abort].
Qed.

Lemma advancing_number_of (v : value) : advancing (number_of v).
Proof.
  unfold number_of.
  destruct (Val.toNumber v); [apply advancing_ret | apply advancing_abort].
Qed.

Lemma advancing_id (v : value) :
  advancing (if Val.truthy v then as_text v else fresh env).
Proof.
  destruct (Val.truthy v).
  - destruct v; first [apply advancing_ret | apply advancing_abort].
  - intros k. cbn. lia.
Qed.

Lemma advancing_import_income (n : value) : advancing (import_income env n).
Proof.
  assert (H : advancing
    (let! i :=
       (if Val.truthy (Val.get n "id") then as_text (Val.get n "id")
        else fresh env) in
     let! d := text_or (Val.get n "date") "" in
     let! t := text_or (Val.get n "desc") "" in
     let! a := number_of (Val.or_else (Val.get n "amount") (VNum Num.zero)) in
     let! o := text_or (Val.get n "notes") "" in
     ret {| id := i; date := d; desc := t; amount := Num.max Num.zero a;
            notes := Some o |})).
  { repeat (apply advancing_bind; [| intros ?]);
      first [apply advancing_id | apply advancing_text_or
            | apply advancing_number_of | apply advancing_ret]. }
  destruct n; first [exact H | apply advancing_abort].
Qed.

Lemma advancing_import_expense (n : value) : advancing (import_expense env n).
Proof.
  assert (H : advancing
    (let! i :=
       (if Val.truthy (Val.get n "id") then as_text (Val.get n "id")
        else fresh env) in
     let! d := text_or (Val.get n "date") "" in
     let! c := text_or (Val.get n "category") "Other" in
     let! t := text_or (Val.get n "desc") "" in
     let! a := number_of (Val.or_else (Val.get n "amount") (VNum Num.zero)) in
     let! o := text_or (Val.get n "notes") "" in
     ret {| e_id := i; e_date := d; category := c; e_desc := t;
            e_amount := Num.max Num.zero a; e_notes := Some o |})).
  { repeat (apply advancing_bind; [| intros ?]);
      first [apply advancing_id | apply advancing_text_or
            | apply advancing_number_of | apply advancing_ret]. }
  destruct n; first [exact H | apply advancing_abort].
Qed.

Lemma advancing_String_of (c : value) : advancing (String_of c).
Proof.
  destruct c as [| | [] | | | |];
    first [apply advancing_ret | apply advancing_abort].
Qed.

Lemma advancing_mapM {A B : Type} (f : A -> Conv B) (l : list A) :
  (forall a, advancing (f a)) -> advancing (mapM f l).
Proof.
  intros Hf. induction l as [| a l IH]; cbn [mapM]; [apply advancing_ret |].
  apply advancing_bind; [apply Hf | intros b].
  apply advancing_bind; [exact IH | intros bs]. apply advancing_ret.
Qed.

Lemma advancing_import_rows (income_items expenses_items : list value)
    (categories_field : value) :
  advancing (import_rows env income_items expenses_items categories_field).
Proof.
  unfold import_rows.
  apply advancing_bind; [apply advancing_mapM, advancing_import_income | intros inc].
  apply advancing_bind; [apply advancing_mapM, advancing_import_expense | intros exp].
  apply advancing_bind; [| intros cat; apply advancing_ret].
  destruct categories_field as [| | | | | [| c cs] |];
    first [apply advancing_ret | apply advancing_mapM, advancing_String_of].
Qed.

(** How [reader.onload] ends, case by case. *)
Lemma onFilePicked_cases (file : FileText) (confirmReplace : bool) (st : State) :
  match onFilePicked env file confirmReplace st with
  | Replaced st' =>
      exists inc exp cat k,
        st' = toast env (Text "Import successful") success
                (setCategories (Array_from_Set (cat ++ map category exp)%list)
                   (setExpenses exp (setIncome inc (setTicks k st))))
        /\ cat <> []
        /\ Forall (fun r => income_sound r = true) inc
        /\ Forall (fun r => expense_sound r = true) exp
        /\ (ticks st <= k)%nat
  | Declined st' => st' = st
  | Rejected e st' =>
      exists k, st' = toast env (ImportFailed e) error (setTicks k st)
                /\ (ticks st <= k)%nat
  | Unmodelled => True
  end.
Proof.
  assert (Hsame : setTicks (ticks st) st = st) by (destruct st; reflexivity).
  assert (Hfail : forall e,
            exists k, toast env (ImportFailed e) error st
                      = toast env (ImportFailed e) error (setTicks k st)
                      /\ (ticks st <= k)%nat).
  { intros e. exists (ticks st). rewrite Hsame. split; [reflexivity | lia]. }
  unfold onFilePicked.
  destruct file as [| | obj]; [| apply Hfail |].
  - cbn. apply Hfail.
  - destruct (negb (Val.truthy obj) || _ || _); [apply Hfail |].
    destruct (negb confirmReplace); [reflexivity |].
    destruct (Val.get obj "income") as [| | | | | income_items |];
      try apply Hfail.
    destruct (Val.get obj "expenses") as [| | | | | expenses_items |];
      try apply Hfail.
    unfold import_rows. unfold bind at 1.
    pose proof (advancing_mapM (import_income env) income_items
                  advancing_import_income (ticks st)) as A1.
    destruct (mapM (import_income env) income_items (ticks st))
      as [[inc | e] k1] eqn:E1; cbn [snd] in A1.
    2: { destruct e; [eexists; split; [reflexivity | exact A1] | exact I]. }
    unfold bind at 1.
    pose proof (advancing_mapM (import_expense env) expenses_items
                  advancing_import_expense k1) as A2.
    destruct (mapM (import_expense env) expenses_items k1)
      as [[exp | e] k2] eqn:E2; cbn [snd] in A2.
    2: { destruct e; [eexists; split; [reflexivity | lia] | exact I]. }
    unfold bind at 1.
    set (cats_conv := match Val.get obj "categories" with
                      | VArr (c :: cs) => mapM String_of (c :: cs)
                      | _ => ret DEFAULT_CATEGORIES
                      end).
    assert (A3 : (k2 <= snd (cats_conv k2))%nat).
    { subst cats_conv.
      destruct (Val.get obj "categories") as [| | | | | [| c cs] |];
        first [apply advancing_ret
              | apply advancing_mapM, advancing_String_of]. }
    destruct (cats_conv k2) as [[cat | e] k3] eqn:E3; cbn [snd] in A3.
    2: { destruct e; [eexists; split; [reflexivity | lia] | exact I]. }
    unfold ret.
    exists inc, exp, cat, k3. split; [reflexivity |].
    split.
    { subst cats_conv.
      destruct (Val.get obj "categories") as [| | | | | [| c cs] |];
        try (unfold ret in E3; injection E3 as <- _; discriminate).
      apply mapM_String_of_length in E3. destruct cat; discriminate. }
    split; [| split; [| lia]].
    + destruct (mapM_inversion (import_income env) _
                  (import_income_result env) _ _ _ _ E1) as [_ HP].
      eapply List.Forall_impl; [| exact HP].
      intros r Hr. now apply income_sound_spec.
    + destruct (mapM_inversion (import_expense env) _
                  (import_expense_result env) _ _ _ _ E2) as [_ HP].
      eapply List.Forall_impl; [| exact HP].
      intros r Hr. now apply expense_sound_spec.
Qed.

Lemma one_positive : Num.of_Z 1 = S754_finite false 4503599627370496 (-52).
Proof. reflexivity. Qed.

Lemma loadRate_rate (saved : Read) (st : State) :
  income (loadRate saved st) = income st
  /\ expenses (loadRate saved st) = expenses st
  /\ categories (loadRate saved st) = categories st
  /\ (rate (loadRate saved st) = rate st
      \/ positive_or_zero (rate (loadRate saved st)) = true).
Proof.
  unfold loadRate.
  destruct saved as [| [s |]]; try (repeat split; now left).
  destruct (negb (Str.truthy s)); [repeat split; now left |].
  destruct (negb (Num.isFinite (Str.toNumber s)) || _) eqn:E;
    [repeat split; now left |].
  repeat split. right. cbn [rate setRate].
  apply orb_false_iff in E as [Hf Hl]. apply negb_false_iff in Hf.
  now apply not_le_zero_sound.
Qed.

Lemma refreshRate_rate (res : Fetched) (cancelled : bool) (st : State) :
  income (refreshRate env res cancelled st) = income st
  /\ expenses (refreshRate env res cancelled st) = expenses st
  /\ categories (refreshRate env res cancelled st) = categories st
  /\ (rate (refreshRate env res cancelled st) = rate st
      \/ positive_or_zero (rate (refreshRate env res cancelled st)) = true).
Proof.
  unfold refreshRate.
  destruct res as [| [] [data |]];
    try (destruct cancelled; repeat split; now left).
  destruct (Val.toNumber _) as [factor |];
    [| destruct cancelled; repeat split; now left].
  destruct (negb (Num.isFinite factor) || _) eqn:E;
    [destruct cancelled; repeat split; now left |].
  destruct cancelled; [repeat split; now left |].
  repeat split. right. cbn [rate setRate].
  apply orb_false_iff in E as [Hf Hl]. apply negb_false_iff in Hf.
  pose proof (not_le_zero_sound _ Hf Hl) as Hp.
  destruct factor as [[] | [] | | [] m e]; try discriminate.
  rewrite one_positive. now apply div_by_positive.
Qed.

Lemma default_categories_distinct : distinct DEFAULT_CATEGORIES = true.
Proof. reflexivity. Qed.

Lemma Array_from_Set_nonempty (c : string) (l : list string) :
  Array_from_Set (c :: l) <> [].
Proof.
  intros H.
  assert (Hin : In c (Array_from_Set (c :: l)))
    by (apply Array_from_Set_spec; left; reflexivity).
  rewrite H in Hin. destruct Hin.
Qed.

Lemma ledger_sound_kept (a : Action) (st st' : State) :
  ledger_sound st = true -> perform env a st = Some st' ->
  ledger_sound st' = true.
Proof.
  intros Hs Hp.
  destruct a as [f | f | | | answer | i kind ok | ok | exportedAt
                 | file confirmReplace | | written | i | saved | res cancelled];
    cbn [perform] in Hp.
  - injection Hp as <-. exact Hs.
  - injection Hp as <-. exact Hs.
  - injection Hp as <-.
    destruct (income_ok st) eqn:E.
    + destruct (onAddIncome_accepts env st E) as (Hi & He & Hc & Hr).
      apply ledger_sound_spec in Hs as (S1 & S2 & S3 & S4 & S5 & S6).
      apply ledger_sound_spec. rewrite Hi, He, Hc, Hr.
      repeat split; try assumption.
      apply List.Forall_app. split; [exact S1 |].
      constructor; [apply new_income_sound, E | constructor].
    + rewrite (onAddIncome_rejects env st E). exact Hs.
  - injection Hp as <-.
    destruct (expense_ok st) eqn:E.
    + destruct (onAddExpense_accepts env st E) as (He & Hi & Hc & Hr).
      apply ledger_sound_spec in Hs as (S1 & S2 & S3 & S4 & S5 & S6).
      apply ledger_sound_spec. rewrite Hi, He, Hc, Hr.
      repeat split; try assumption.
      apply List.Forall_app. split; [exact S2 |].
      constructor; [apply new_expense_sound, E | constructor].
    + rewrite (onAddExpense_rejects env st E). exact Hs.
  - injection Hp as <-.
    destruct (onAddCategory_ledger answer st) as (Hi & He & Hr & Hc).
    destruct Hc as [Hc | (name & Hc & Hn)].
    + now apply (same_ledger_sound st).
    + apply ledger_sound_spec in Hs as (S1 & S2 & S3 & S4 & S5 & S6).
      apply ledger_sound_spec. rewrite Hi, He, Hc, Hr.
      repeat split; try assumption.
      * destruct (categories st); discriminate.
      * apply List.NoDup_app; [exact S4 | repeat constructor; intros [] |].
        intros c Hin [<- | []]. contradiction.
  - injection Hp as <-. unfold onDelete.
    destruct ok; [| exact Hs]. cbn [negb].
    apply ledger_sound_spec in Hs as (S1 & S2 & S3 & S4 & S5 & S6).
    apply ledger_sound_spec.
    destruct kind;
      cbn [income expenses categories rate toast setTicks setToasts setIncome
             setExpenses];
      repeat split; try assumption.
    + apply List.Forall_forall. intros r Hr.
      apply List.filter_In in Hr as [Hr _].
      exact (proj1 (List.Forall_forall _ _) S1 r Hr).
    + apply List.Forall_forall. intros r Hr.
      apply List.filter_In in Hr as [Hr _].
      exact (proj1 (List.Forall_forall _ _) S2 r Hr).
  - injection Hp as <-. unfold clearAll.
    destruct ok; [| exact Hs]. cbn [negb].
    apply ledger_sound_spec in Hs as (S1 & S2 & S3 & S4 & S5 & S6).
    apply ledger_sound_spec.
    cbn [income expenses categories rate toast setTicks setToasts setIncome
           setExpenses setCategories].
    split; [constructor |]. split; [constructor |]. split; [discriminate |].
    split; [apply distinct_NoDup, default_categories_distinct |]. now split.
  - injection Hp as <-. exact Hs.
  - pose proof (onFilePicked_cases file confirmReplace st) as C.
    destruct (onFilePicked env file confirmReplace st) as [s | s | e s |];
      [| | | discriminate]; injection Hp as <-.
    + destruct C as (inc & exp & cat & k & -> & Hc & HI & HE & _).
      apply ledger_sound_spec in Hs as (S1 & S2 & S3 & S4 & S5 & S6).
      apply ledger_sound_spec.
      cbn [income expenses categories rate toast setTicks setToasts setIncome
             setExpenses setCategories].
      repeat split; try assumption.
      * destruct cat as [| c cat]; [congruence |]. apply Array_from_Set_nonempty.
      * apply Array_from_Set_spec.
    + subst s. exact Hs.
    + destruct C as (k & -> & _). exact Hs.
  - injection Hp as <-. exact Hs.
  - injection Hp as <-. unfold save_outcome.
    destruct (written <? 3)%nat; exact Hs.
  - injection Hp as <-. exact Hs.
  - injection Hp as <-.
    destruct (loadRate_rate saved st) as (Hi & He & Hc & Hr).
    destruct Hr as [Hr | Hr]; [now apply (same_ledger_sound st) |].
    apply positive_or_zero_spec in Hr as [R1 R2].
    apply ledger_sound_spec in Hs as (S1 & S2 & S3 & S4 & S5 & S6).
    apply ledger_sound_spec. rewrite Hi, He, Hc. now repeat split.
  - injection Hp as <-.
    destruct (refreshRate_rate res cancelled st) as (Hi & He & Hc & Hr).
    destruct Hr as [Hr | Hr]; [now apply (same_ledger_sound st) |].
    apply positive_or_zero_spec in Hr as [R1 R2].
    apply ledger_sound_spec in Hs as (S1 & S2 & S3 & S4 & S5 & S6).
    apply ledger_sound_spec. rewrite Hi, He, Hc. now repeat split.
Qed.

End Steps.



(** ** The summary never shows NaN *)

Lemma or_else_positive_or_zero (x : number) :
  Num.lt x Num.zero = false ->
  positive_or_zero (Num.or_else x Num.zero) = true.
Proof. destruct x as [[] | [] | | [] m e]; cbv; congruence. Qed.

Lemma sum_positive_or_zero {A : Type} (amt : A -> number) (l : list A) :
  forallb (fun r => negb (Num.lt (amt r) Num.zero)) l = true ->
  forall acc, positive_or_zero acc = true ->
    positive_or_zero
      (fold_left (fun s r => Num.add s (Num.or_else (amt r) Num.zero)) l acc)
    = true.
Proof.
  induction l as [| r l IH]; intros H acc Hacc; [exact Hacc |].
  cbn [forallb] in H. apply andb_prop in H as [Hr Hl].
  apply negb_true_iff in Hr.
  cbn [fold_left]. apply IH; [exact Hl |].
  apply add_positive_or_zero; [exact Hacc | now apply or_else_positive_or_zero].
Qed.

Lemma krwToUsd_positive_or_zero (krw r : number) :
  positive_or_zero krw = true -> positive_or_zero (krwToUsd krw r) = true.
Proof.
  intros H. unfold krwToUsd.
  destruct (negb (Num.isFinite r) || Num.le r Num.zero) eqn:E; [reflexivity |].
  apply orb_false_iff in E as [Hf Hl]. apply negb_false_iff in Hf.
  pose proof (not_le_zero_sound _ Hf Hl) as Hp.
  destruct r as [[] | [] | | [] m e]; try discriminate.
  now apply div_by_positive.
Qed.

Lemma krwToUsd_NaN (krw r : number) :
  Num.isNaN (krwToUsd krw r) = true -> Num.isNaN krw = true.
Proof.
  unfold krwToUsd.
  destruct (negb (Num.isFinite r) || Num.le r Num.zero) eqn:E; [discriminate |].
  apply orb_false_iff in E as [Hf Hl]. apply negb_false_iff in Hf.
  pose proof (not_le_zero_sound _ Hf Hl) as Hp.
  destruct r as [[] | [] | | [] m e]; try discriminate.
  destruct (Num.isNaN krw) eqn:K; [reflexivity |].
  now rewrite (div_not_NaN _ _ _ K).
Qed.

Lemma binary_normalize_not_NaN (m e : Z) :
  Num.isNaN (binary_normalize Num.prec Num.emax m e false) = false.
Proof.
  destruct m as [| p | p]; cbn [binary_normalize]; [reflexivity | |].
  - pose proof (binary_round_sign false p e) as S.
    destruct (binary_round _ _ _ _ _); try reflexivity. contradiction.
  - pose proof (binary_round_sign true p e) as S.
    destruct (binary_round _ _ _ _ _); try reflexivity. contradiction.
Qed.

Lemma sub_NaN (a b : number) :
  positive_or_zero a = true -> positive_or_zero b = true ->
  Num.isNaN (Num.sub a b) = negb (Num.isFinite a) && negb (Num.isFinite b).
Proof.
  destruct a as [[] | [] | | [] ma ea]; try discriminate;
    destruct b as [[] | [] | | [] mb eb]; try discriminate; intros _ _;
    try reflexivity.
  unfold Num.sub, SFsub. cbn [Num.isFinite negb andb].
  apply binary_normalize_not_NaN.
Qed.

(** X11.  When no amount of the ledger is below zero, which every action
    maintains, total income and total expenses are neither NaN nor below
    zero, in won and in dollars and whatever the rate is, even though
    single amounts may be NaN; the remaining balance is NaN exactly when
    both totals are infinite, and the remaining dollars are NaN only if the
    remaining won are. *)
Theorem totals_never_NaN (inc : list IncomeRow) (exps : list ExpenseRow)
    (r : number) :
  no_income_below_zero inc = true -> no_expense_below_zero exps = true ->
  let t := totals inc exps r in
  (Num.isNaN (incomeKRW t) = false /\ Num.lt (incomeKRW t) Num.zero = false)
  /\ (Num.isNaN (expenseKRW t) = false /\ Num.lt (expenseKRW t) Num.zero = false)
  /\ (Num.isNaN (incomeUSD t) = false /\ Num.lt (incomeUSD t) Num.zero = false)
  /\ (Num.isNaN (expenseUSD t) = false /\ Num.lt (expenseUSD t) Num.zero = false)
  /\ Num.isNaN (remainingKRW t)
     = negb (Num.isFinite (incomeKRW t)) && negb (Num.isFinite (expenseKRW t))
  /\ (Num.isNaN (remainingUSD t) = true -> Num.isNaN (remainingKRW t) = true).
Proof.
  intros Hi He t.
  assert (Pi : positive_or_zero (incomeKRW t) = true)
    by (apply (sum_positive_or_zero amount); [exact Hi | reflexivity]).
  assert (Pe : positive_or_zero (expenseKRW t) = true)
    by (apply (sum_positive_or_zero e_amount); [exact He | reflexivity]).
  split; [now apply positive_or_zero_spec |].
  split; [now apply positive_or_zero_spec |].
  split; [now apply positive_or_zero_spec, krwToUsd_positive_or_zero |].
  split; [now apply positive_or_zero_spec, krwToUsd_positive_or_zero |].
  split; [now apply sub_NaN |].
  apply krwToUsd_NaN.
Qed.

Lemma totals_never_NaN_witness :
  (exists row, income NaN_ledger = [row] /\ amount row = Num.NaN)
  /\ Num.isNaN
       (incomeKRW (totals (income NaN_ledger) (expenses NaN_ledger)
                     (rate NaN_ledger))) = false
  /\ Num.isNaN
       (remainingKRW (totals (income NaN_ledger) (expenses NaN_ledger)
                        (rate NaN_ledger))) = false.
Proof.
  pose proof (totals_never_NaN (income NaN_ledger) (expenses NaN_ledger)
                (rate NaN_ledger) eq_refl eq_refl) as H.
  cbv zeta in H. destruct H as ((H1 & _) & _ & _ & _ & H5 & _).
  split; [eexists; split; reflexivity |].
  split; [exact H1 |]. rewrite H5. reflexivity.
Defined.

(** ** Identifiers *)

Lemma split_at_last_hyphen (a a' r r' : string) :
  hyphen_free r = true -> hyphen_free r' = true ->
  a ++ String "-" r = a' ++ String "-" r' -> a = a' /\ r = r'.
Proof.
  intros Hr Hr'. revert a'.
  induction a as [| c a IH]; intros [| c' a'] H.
  - change (String "-" r = String "-" r') in H. injection H as H. now split.
  - change (String "-" r = String c' (a' ++ String "-" r')) in H.
    injection H as Hc H.
    rewrite H, hyphen_free_app in Hr.
    apply andb_prop in Hr as [_ Hr]. discriminate Hr.
  - change (String c (a ++ String "-" r) = String "-" r') in H.
    injection H as Hc H.
    rewrite <- H, hyphen_free_app in Hr'.
    apply andb_prop in Hr' as [_ Hr']. discriminate Hr'.
  - change (String c (a ++ String "-" r) = String c' (a' ++ String "-" r')) in H.
    injection H as Hc H.
    destruct (IH a' H) as [-> ->]. now subst c'.
Qed.

Lemma uid_parts (env : Env) (k k' : nat) :
  hyphen_free (Math_random env k) = true ->
  hyphen_free (Math_random env k') = true ->
  uid env k = uid env k' ->
  Date_now env k = Date_now env k' /\ Math_random env k = Math_random env k'.
Proof.
  intros Hk Hk' H. unfold uid in H.
  change (String "i" (String "d" (String "-"
            (toString36 (Date_now env k) ++ String "-" (Math_random env k))))
          = String "i" (String "d" (String "-"
              (toString36 (Date_now env k') ++ String "-" (Math_random env k')))))
    in H.
  injection H as H.
  destruct (split_at_last_hyphen _ _ _ _ Hk Hk' H) as [Ha Hr].
  split; [now apply toString36_injective | exact Hr].
Qed.

Lemma uid_injective (env : Env) (k k' : nat) :
  fresh_world env -> uid env k = uid env k' -> k = k'.
Proof.
  intros [Hf Hd] H.
  destruct (Nat.eq_dec k k') as [E | N]; [exact E |].
  destruct (uid_parts env k k' (Hf k) (Hf k') H) as [Hc Hr].
  destruct (Hd k k' N); contradiction.
Qed.

(** X12.  Two calls of [uid] that read different clock values or different
    random digits return different identifiers (the digits holding no
    hyphen); every identifier starts with [id-] and is not empty. *)
Theorem uid_distinct (env : Env) (k k' : nat) :
  hyphen_free (Math_random env k) = true ->
  hyphen_free (Math_random env k') = true ->
  Date_now env k <> Date_now env k' \/ Math_random env k <> Math_random env k' ->
  uid env k <> uid env k'
  /\ uid env k <> ""
  /\ exists rest, uid env k = "id-" ++ rest.
Proof.
  intros Hk Hk' Hd. split; [| split; [apply uid_nonempty | eexists; reflexivity]].
  intros H. destruct (uid_parts env k k' Hk Hk' H) as [Hc Hr].
  destruct Hd; contradiction.
Qed.

Lemma uid_distinct_witness :
  uid sample_env 0%nat <> uid sample_env 1%nat
  /\ uid sample_env 0%nat = "id-loyw3v28-k3x9qa"
  /\ uid sample_env 1%nat = "id-loyw3v29-k3x9qa".
Proof.
  split; [| split; reflexivity].
  apply (uid_distinct sample_env 0%nat 1%nat);
    [reflexivity | reflexivity | left; vm_compute; discriminate].
Defined.

Lemma minted_spec (env : Env) (st : State) :
  minted env st
  <-> List.NoDup (map id (income st))
      /\ List.NoDup (map e_id (expenses st))
      /\ (forall i, In i (map id (income st)) -> ~ In i (map e_id (expenses st)))
      /\ (forall i, In i (map id (income st)) \/ In i (map e_id (expenses st)) ->
            exists k, (k < ticks st)%nat /\ i = uid env k).
Proof.
  unfold minted, ids. rewrite <- !NoDup_ListNoDup, NoDup_app.
  setoid_rewrite list_elem_of_In. setoid_rewrite in_app_iff.
  intuition eauto.
Qed.

Lemma filter_map_In {A : Type} (f : A -> string) (p : A -> bool) (l : list A)
    (i : string) :
  In i (map f (List.filter p l)) -> In i (map f l).
Proof.
  intros H. apply in_map_iff in H as (x & <- & Hx).
  apply in_map. now apply List.filter_In in Hx as [Hx _].
Qed.

Lemma filter_map_NoDup {A : Type} (f : A -> string) (p : A -> bool) (l : list A) :
  List.NoDup (map f l) -> List.NoDup (map f (List.filter p l)).
Proof.
  induction l as [| x l IH]; intros H; [constructor |].
  cbn [map] in H. inversion H as [| ? ? Hx Hl]; subst.
  cbn [List.filter]. destruct (p x); [| now apply IH].
  cbn [map]. constructor; [| now apply IH].
  intros Hin. apply Hx. now apply filter_map_In in Hin.
Qed.

Lemma filter_keeps_all {A : Type} (p : A -> bool) (l : list A) :
  (forall x, In x l -> p x = true) -> List.filter p l = l.
Proof.
  induction l as [| x l IH]; intros H; [reflexivity |].
  cbn [List.filter]. rewrite (H x (or_introl eq_refl)).
  f_equal. apply IH. intros y Hy. apply H. now right.
Qed.

(** Filtering out the key of one element of a list without repeated keys
    removes that element and nothing else. *)
Lemma filter_removes_one {A : Type} (f : A -> string) (l : list A) (r : A) :
  List.NoDup (map f l) -> In r l ->
  exists before after,
    l = (before ++ r :: after)%list
    /\ List.filter (fun x => negb (String.eqb (f x) (f r))) l
       = (before ++ after)%list.
Proof.
  intros Hn Hr. destruct (in_split r l Hr) as (before & after & ->).
  exists before, after. split; [reflexivity |].
  rewrite map_app in Hn. cbn [map] in Hn.
  pose proof (List.NoDup_remove_2 _ _ _ Hn) as Hout.
  rewrite List.filter_app. cbn [List.filter].
  rewrite String.eqb_refl. cbn [negb].
  rewrite !filter_keeps_all; [reflexivity | |].
  - intros x Hx. apply negb_true_iff. apply String.eqb_neq. intros E.
    apply Hout. apply in_or_app. right. rewrite <- E. now apply in_map.
  - intros x Hx. apply negb_true_iff. apply String.eqb_neq. intros E.
    apply Hout. apply in_or_app. left. rewrite <- E. now apply in_map.
Qed.

Section Minting.

Variable env : Env.
Hypothesis world : fresh_world env.

Lemma minted_frame (st st' : State) :
  income st' = income st -> expenses st' = expenses st ->
  (ticks st <= ticks st')%nat -> minted env st -> minted env st'.
Proof.
  intros Hi He Ht [Hn Hb]. unfold minted, ids in *. rewrite Hi, He.
  split; [exact Hn |]. intros i Hin.
  destruct (Hb i Hin) as (k & Hk & ->). exists k. split; [lia | reflexivity].
Qed.

Lemma minted_fresh (st : State) (i : string) :
  minted env st -> In i (ids st) -> i <> uid env (ticks st).
Proof.
  intros [_ Hb] Hin E. destruct (Hb i Hin) as (k & Hk & ->).
  apply (uid_injective env _ _ world) in E. lia.
Qed.

Lemma onAddIncome_ticks (st : State) :
  income_ok st = true -> ticks (onAddIncome env st) = S (S (ticks st)).
Proof.
  unfold income_ok, onAddIncome. intros H.
  apply andb_prop in H as [H Ha]. apply andb_prop in H as [Hd Ht].
  rewrite Hd, Ht, Ha. reflexivity.
Qed.

Lemma onAddExpense_ticks (st : State) :
  expense_ok st = true -> ticks (onAddExpense env st) = S (S (ticks st)).
Proof.
  unfold expense_ok, onAddExpense. intros H.
  apply andb_prop in H as [H Ha]. apply andb_prop in H as [H Ht].
  apply andb_prop in H as [Hd Hc].
  rewrite Hd, Hc, Ht, Ha. reflexivity.
Qed.

Lemma onAddCategory_ticks (answer : option string) (st : State) :
  (ticks st <= ticks (onAddCategory env answer st))%nat.
Proof.
  unfold onAddCategory.
  destruct answer as [typed |]; [| lia].
  destruct (negb (Str.truthy (Str.trim typed))); [lia |].
  destruct (existsb _ (categories st)); cbn; lia.
Qed.

Lemma refreshRate_ticks (res : Fetched) (cancelled : bool) (st : State) :
  (ticks st <= ticks (refreshRate env res cancelled st))%nat.
Proof.
  unfold refreshRate.
  destruct res as [| [] [data |]]; try (destruct cancelled; cbn; lia).
  destruct (Val.toNumber _) as [factor |]; [| destruct cancelled; cbn; lia].
  destruct (negb (Num.isFinite factor) || _); destruct cancelled; cbn; lia.
Qed.

Lemma minted_kept (a : Action) (st st' : State) :
  imports_nothing a = true -> minted env st -> perform env a st = Some st' ->
  minted env st'.
Proof.
  intros Ha Hm Hp.
  destruct a as [f | f | | | answer | i kind ok | ok | exportedAt
                 | file confirmReplace | | written | i | saved | res cancelled];
    cbn [perform] in Hp; try discriminate Ha; injection Hp as <-.
  - now apply (minted_frame st).
  - now apply (minted_frame st).
  - destruct (income_ok st) eqn:E.
    + destruct (onAddIncome_accepts env st E) as (Hi & He & _ & _).
      pose proof (onAddIncome_ticks st E) as Ht.
      pose proof (fun i => minted_fresh st i Hm) as Hf.
      apply minted_spec in Hm as (N1 & N2 & D & B).
      apply minted_spec. rewrite Hi, He, Ht, map_app. cbn [map new_income id].
      split; [| split; [exact N2 | split]].
      * apply List.NoDup_app; [exact N1 | repeat constructor; intros [] |].
        intros x Hx [E' | []]. subst x.
        apply (Hf (uid env (ticks st))); [| reflexivity].
        unfold ids. apply in_or_app. now left.
      * intros x Hx Hx'. apply in_app_or in Hx as [Hx | [<- | []]].
        -- exact (D x Hx Hx').
        -- apply (Hf (uid env (ticks st))); [| reflexivity].
           unfold ids. apply in_or_app. now right.
      * intros x [Hx | Hx].
        -- apply in_app_or in Hx as [Hx | [<- | []]].
           ++ destruct (B x (or_introl Hx)) as (k & Hk & ->).
              exists k. split; [lia | reflexivity].
           ++ exists (ticks st). split; [lia | reflexivity].
        -- destruct (B x (or_intror Hx)) as (k & Hk & ->).
           exists k. split; [lia | reflexivity].
    + rewrite (onAddIncome_rejects env st E).
      apply (minted_frame st); try reflexivity; [cbn; lia | exact Hm].
  - destruct (expense_ok st) eqn:E.
    + destruct (onAddExpense_accepts env st E) as (He & Hi & _ & _).
      pose proof (onAddExpense_ticks st E) as Ht.
      pose proof (fun i => minted_fresh st i Hm) as Hf.
      apply minted_spec in Hm as (N1 & N2 & D & B).
      apply minted_spec. rewrite Hi, He, Ht, map_app. cbn [map new_expense e_id].
      split; [exact N1 | split; [| split]].
      * apply List.NoDup_app; [exact N2 | repeat constructor; intros [] |].
        intros x Hx [E' | []]. subst x.
        apply (Hf (uid env (ticks st))); [| reflexivity].
        unfold ids. apply in_or_app. now right.
      * intros x Hx Hx'. apply in_app_or in Hx' as [Hx' | [<- | []]].
        -- exact (D x Hx Hx').
        -- apply (Hf (uid env (ticks st))); [| reflexivity].
           unfold ids. apply in_or_app. now left.
      * intros x [Hx | Hx].
        -- destruct (B x (or_introl Hx)) as (k & Hk & ->).
           exists k. split; [lia | reflexivity].
        -- apply in_app_or in Hx as [Hx | [<- | []]].
           ++ destruct (B x (or_intror Hx)) as (k & Hk & ->).
              exists k. split; [lia | reflexivity].
           ++ exists (ticks st). split; [lia | reflexivity].
    + rewrite (onAddExpense_rejects env st E).
      apply (minted_frame st); try reflexivity; [cbn; lia | exact Hm].
  - destruct (onAddCategory_ledger env answer st) as (Hi & He & _ & _).
    apply (minted_frame st); try assumption. apply onAddCategory_ticks.
  - unfold onDelete. destruct ok; [| exact Hm]. cbn [negb].
    apply minted_spec in Hm as (N1 & N2 & D & B).
    apply minted_spec.
    destruct kind;
      cbn [income expenses ticks toast setTicks setToasts setIncome setExpenses].
    + split; [now apply filter_map_NoDup | split; [exact N2 | split]].
      * intros x Hx. apply D. now apply filter_map_In in Hx.
      * intros x [Hx | Hx].
        -- apply filter_map_In in Hx.
           destruct (B x (or_introl Hx)) as (k & Hk & ->).
           exists k. split; [lia | reflexivity].
        -- destruct (B x (or_intror Hx)) as (k & Hk & ->).
           exists k. split; [lia | reflexivity].
    + split; [exact N1 | split; [now apply filter_map_NoDup | split]].
      * intros x Hx Hx'. apply (D x Hx). now apply filter_map_In in Hx'.
      * intros x [Hx | Hx].
        -- destruct (B x (or_introl Hx)) as (k & Hk & ->).
           exists k. split; [lia | reflexivity].
        -- apply filter_map_In in Hx.
           destruct (B x (or_intror Hx)) as (k & Hk & ->).
           exists k. split; [lia | reflexivity].
  - unfold clearAll. destruct ok; [| exact Hm]. cbn [negb].
    split; [constructor | intros i []].
  - apply (minted_frame st); try reflexivity; [cbn; lia | exact Hm].
  - apply (minted_frame st); try reflexivity; [cbn; lia | exact Hm].
  - unfold save_outcome. destruct (written <? 3)%nat; [| exact Hm].
    apply (minted_frame st); try reflexivity; [cbn; lia | exact Hm].
  - now apply (minted_frame st).
  - destruct (loadRate_rate saved st) as (Hi & He & _ & _).
    apply (minted_frame st); try assumption.
    unfold loadRate. destruct saved as [| [s |]]; try lia.
    destruct (negb (Str.truthy s)); [lia |].
    destruct (negb (Num.isFinite (Str.toNumber s)) || _); cbn; lia.
  - destruct (refreshRate_rate env res cancelled st) as (Hi & He & _ & _).
    apply (minted_frame st); try assumption. apply refreshRate_ticks.
Qed.

Lemma minted_always (actions : list Action) (st st' : State) :
  forallb imports_nothing actions = true -> minted env st ->
  perform_all env actions st = Some st' -> minted env st'.
Proof.
  revert st. induction actions as [| a rest IH]; intros st Ha Hm Hp;
    cbn [perform_all] in Hp.
  - now injection Hp as <-.
  - cbn [forallb] in Ha. apply andb_prop in Ha as [Ha Hrest].
    destruct (perform env a st) as [s |] eqn:E; [| discriminate].
    exact (IH s Hrest (minted_kept a st s Ha Hm E) Hp).
Qed.

End Minting.



(** ** Export followed by import, for every ledger the page can hold *)

Lemma amount_reimport (x : number) (k : nat) :
  exists a,
    number_of (Val.or_else (json_number x) (VNum Num.zero)) k = (inl a, k)
    /\ Num.max Num.zero a = reimported_amount x.
Proof.
  destruct x as [[] | [] | | [] m e]; eexists; split; reflexivity.
Qed.

Lemma reimported_amount_twice (x : number) :
  reimported_amount (reimported_amount x) = reimported_amount x.
Proof. destruct x as [[] | [] | | [] m e]; reflexivity. Qed.

Section Settling.

Variable env : Env.

Lemma import_income_json (r : IncomeRow) (k : nat) :
  income_sound r = true ->
  import_income env (json_income r) k = (inl (reimported_income r), k).
Proof.
  intros H. apply income_sound_spec in H as (Hi & _ & Hn).
  destruct r as [i d t a o]. cbn [id notes] in Hi, Hn.
  destruct o as [o |]; [| congruence].
  apply truthy_nonempty in Hi.
  destruct (amount_reimport a k) as (x & Ex & Hx).
  unfold import_income, json_income, bind. cbn [id date desc amount notes].
  cbn [Val.get Val.own String.eqb Ascii.eqb Bool.eqb app].
  cbn [Val.truthy]. rewrite Hi. cbn [as_text]. unfold ret at 1.
  rewrite !text_or_text, !truthy_text, Ex, text_or_text, truthy_text.
  unfold ret, reimported_income. cbn [id date desc amount notes].
  now rewrite Hx.
Qed.

Lemma import_expense_json (r : ExpenseRow) (k : nat) :
  expense_sound r = true ->
  import_expense env (json_expense r) k = (inl (reimported_expense r), k).
Proof.
  intros H. apply expense_sound_spec in H as (Hi & Hc & _ & Hn).
  destruct r as [i d c t a o]. cbn [e_id category e_notes] in Hi, Hc, Hn.
  destruct o as [o |]; [| congruence].
  apply truthy_nonempty in Hi. apply truthy_nonempty in Hc.
  destruct (amount_reimport a k) as (x & Ex & Hx).
  unfold import_expense, json_expense, bind.
  cbn [e_id e_date category e_desc e_amount e_notes].
  cbn [Val.get Val.own String.eqb Ascii.eqb Bool.eqb app].
  cbn [Val.truthy]. rewrite Hi. cbn [as_text]. unfold ret at 1.
  rewrite !text_or_text, !truthy_text, Hc, Ex, text_or_text, truthy_text.
  unfold ret, reimported_expense.
  cbn [e_id e_date category e_desc e_amount e_notes].
  now rewrite Hx.
Qed.

Lemma import_income_all (rows : list IncomeRow) (k : nat) :
  Forall (fun r => income_sound r = true) rows ->
  mapM (import_income env) (map json_income rows) k
  = (inl (map reimported_income rows), k).
Proof.
  induction 1 as [| r rows Hr _ IH]; [reflexivity |].
  cbn [map mapM]. unfold bind at 1. rewrite (import_income_json r k Hr).
  unfold bind at 1. rewrite IH. reflexivity.
Qed.

Lemma import_expense_all (rows : list ExpenseRow) (k : nat) :
  Forall (fun r => expense_sound r = true) rows ->
  mapM (import_expense env) (map json_expense rows) k
  = (inl (map reimported_expense rows), k).
Proof.
  induction 1 as [| r rows Hr _ IH]; [reflexivity |].
  cbn [map mapM]. unfold bind at 1. rewrite (import_expense_json r k Hr).
  unfold bind at 1. rewrite IH. reflexivity.
Qed.

Lemma reimported_categories (rows : list ExpenseRow) :
  map category (map reimported_expense rows) = map category rows.
Proof. rewrite map_map. reflexivity. Qed.

Lemma export_import_result (exportedAt : string) (st : State) :
  ledger_sound st = true ->
  export_import env exportedAt st
  = Replaced
      (toast env (Text "Import successful") success
         (setCategories
            (Array_from_Set (categories st ++ map category (expenses st))%list)
            (setExpenses (map reimported_expense (expenses st))
               (setIncome (map reimported_income (income st))
                  (snd (exportJSON env exportedAt st)))))).
Proof.
  intros Hs. apply ledger_sound_spec in Hs as (S1 & S2 & S3 & _).
  unfold export_import.
  set (cur := snd (exportJSON env exportedAt st)).
  cbn [exportJSON fst].
  unfold onFilePicked, export_document.
  cbn [Val.truthy Val.get Val.own String.eqb Ascii.eqb Bool.eqb Val.isArray negb orb].
  unfold import_rows. unfold bind at 1.
  rewrite (import_income_all (income st) (ticks cur) S1).
  unfold bind at 1. rewrite (import_expense_all (expenses st) (ticks cur) S2).
  destruct (categories st) as [| c cs] eqn:Ecats; [congruence |].
  cbn [map].
  change (VStr c :: map VStr cs) with (map VStr (c :: cs)).
  unfold bind at 1. rewrite mapM_String_of_texts. unfold ret.
  rewrite reimported_categories.
  assert (Hcur : setTicks (ticks cur) cur = cur) by reflexivity.
  rewrite Hcur. reflexivity.
Qed.

End Settling.

Lemma reimported_sound (st : State) :
  ledger_sound st = true ->
  Forall (fun r => income_sound r = true) (map reimported_income (income st))
  /\ Forall (fun r => expense_sound r = true)
       (map reimported_expense (expenses st)).
Proof.
  intros Hs. apply ledger_sound_spec in Hs as (S1 & S2 & _).
  split; apply List.Forall_forall; intros r Hr;
    apply in_map_iff in Hr as (r0 & <- & Hr0).
  - pose proof (proj1 (List.Forall_forall _ _) S1 r0 Hr0) as H.
    apply income_sound_spec in H as (Hi & _ & Hn).
    apply income_sound_spec. cbn [reimported_income id amount notes].
    repeat split; try assumption.
    destruct (amount r0) as [[] | [] | | [] m e]; reflexivity.
  - pose proof (proj1 (List.Forall_forall _ _) S2 r0 Hr0) as H.
    apply expense_sound_spec in H as (Hi & Hc & _ & Hn).
    apply expense_sound_spec.
    cbn [reimported_expense e_id category e_amount e_notes].
    repeat split; try assumption.
    destruct (e_amount r0) as [[] | [] | | [] m e]; reflexivity.
Qed.

(** X14.  Exporting a well-formed ledger (every ledger the actions of the
    page produce is one) and importing the document at once always
    succeeds.  The records come back in order with their identifiers,
    dates, descriptions, categories and notes; an amount comes back as it
    was when it is finite and above zero and as +0 otherwise; the category
    set becomes the union of the set with the categories of the expenses;
    the rate is not touched by the document.  Doing the same again changes
    nothing any more. *)
Theorem export_import_settles (env : Env) (exportedAt again : string)
    (st : State) :
  ledger_sound st = true ->
  exists st',
    export_import env exportedAt st = Replaced st'
    /\ income st' = map reimported_income (income st)
    /\ expenses st' = map reimported_expense (expenses st)
    /\ categories st'
       = Array_from_Set (categories st ++ map category (expenses st))%list
    /\ rate st' = rate st
    /\ ledger_sound st' = true
    /\ exists st'',
         export_import env again st' = Replaced st''
         /\ income st'' = income st'
         /\ expenses st'' = expenses st'
         /\ categories st'' = categories st'.
Proof.
  intros Hs. eexists. split; [apply (export_import_result env _ _ Hs) |].
  cbn [income expenses categories rate toast setTicks setToasts setCategories
         setExpenses setIncome exportJSON snd].
  do 4 (split; [reflexivity |]).
  match goal with |- ledger_sound ?s = true /\ _ =>
    assert (Hs' : ledger_sound s = true) end.
  { destruct (reimported_sound st Hs) as [R1 R2].
    pose proof Hs as Hs0.
    apply ledger_sound_spec in Hs0 as (S1 & S2 & S3 & S4 & S5 & S6).
    apply ledger_sound_spec.
    cbn [income expenses categories rate toast setTicks setToasts setCategories
           setExpenses setIncome].
    repeat split; try assumption.
    - destruct (categories st) as [| c cs]; [congruence |].
      apply Array_from_Set_nonempty.
    - apply Array_from_Set_spec. }
  split; [exact Hs' |].
  eexists. split; [apply (export_import_result env _ _ Hs') |].
  cbn [income expenses categories rate toast setTicks setToasts setCategories
         setExpenses setIncome exportJSON snd].
  split; [| split].
  - rewrite map_map. apply map_ext. intros r. unfold reimported_income.
    cbn [id date desc amount notes]. now rewrite reimported_amount_twice.
  - rewrite map_map. apply map_ext. intros r. unfold reimported_expense.
    cbn [e_id e_date category e_desc e_amount e_notes].
    now rewrite reimported_amount_twice.
  - rewrite reimported_categories.
    apply Array_from_Set_listed; [apply Array_from_Set_spec |].
    intros x Hx. apply Array_from_Set_spec, in_or_app. now right.
Qed.

Lemma export_import_settles_witness :
  exists st',
    export_import sample_env "2024-01-03T00:00:00.000Z" NaN_ledger = Replaced st'
    /\ (exists r, income NaN_ledger = [r] /\ amount r = Num.NaN)
    /\ (exists r', income st' = [r'] /\ amount r' = Num.zero).
Proof.
  destruct (export_import_settles sample_env "2024-01-03T00:00:00.000Z"
              "2024-01-04T00:00:00.000Z" NaN_ledger eq_refl)
    as (st' & E & Hi & _).
  exists st'. split; [exact E |].
  split; [eexists; split; reflexivity |].
  rewrite Hi. eexists. split; reflexivity.
Defined.

(** ** The ledger in local storage *)

Lemma stored_income_json (r : IncomeRow) :
  json_exact (amount r) = true -> stored_income (json_income r) = Some r.
Proof.
  destruct r as [i d t a o]. cbn [amount]. intros Ha.
  assert (Ej : json_number a = VNum a)
    by (destruct a as [[] | [] | | [] m e]; try discriminate; reflexivity).
  unfold json_income. cbn [id date desc amount notes]. rewrite Ej.
  destruct o as [o |]; reflexivity.
Qed.

Lemma stored_expense_json (r : ExpenseRow) :
  json_exact (e_amount r) = true -> stored_expense (json_expense r) = Some r.
Proof.
  destruct r as [i d c t a o]. cbn [e_amount]. intros Ha.
  assert (Ej : json_number a = VNum a)
    by (destruct a as [[] | [] | | [] m e]; try discriminate; reflexivity).
  unfold json_expense. cbn [e_id e_date category e_desc e_amount e_notes].
  rewrite Ej. destruct o as [o |]; reflexivity.
Qed.

Lemma read_all_json {A : Type} (f : value -> option A) (j : A -> value)
    (p : A -> bool) (l : list A) :
  (forall a, p a = true -> f (j a) = Some a) ->
  forallb p l = true -> read_all f (map j l) = Some l.
Proof.
  intros Hf. induction l as [| a l IH]; intros H; [reflexivity |].
  cbn [forallb] in H. apply andb_prop in H as [Ha Hl].
  cbn [map read_all]. now rewrite (Hf a Ha), (IH Hl).
Qed.

Lemma json_income_not_null (l : list IncomeRow) :
  existsb nullish (map json_income l) = false.
Proof. induction l as [| r l IH]; [reflexivity | exact IH]. Qed.

Lemma json_expense_not_null (l : list ExpenseRow) :
  existsb nullish (map json_expense l) = false.
Proof. induction l as [| r l IH]; [reflexivity | exact IH]. Qed.

Lemma stored_categories_texts (cats : list string) :
  stored_categories (VArr (map VStr cats))
  = Some (match cats with [] => DEFAULT_CATEGORIES | _ => cats end).
Proof.
  destruct cats as [| c cs]; [reflexivity |].
  cbn [map stored_categories]. change (VStr c :: map VStr cs) with (map VStr (c :: cs)).
  apply (read_all_json stored_text VStr (fun _ => true)); [reflexivity |].
  apply forallb_forall. reflexivity.
Qed.

Lemma stored_categories_nonempty (v : value) (cats : list string) :
  stored_categories v = Some cats -> cats <> [].
Proof.
  destruct v as [| | | | | [| c cs] |]; cbn [stored_categories];
    try (intros [= <-]; discriminate).
  cbn [read_all]. destruct (stored_text c); [| discriminate].
  destruct (read_all stored_text cs); [| discriminate].
  intros [= <-]. discriminate.
Qed.

(** X15.  The start-up effect that reads the ledger: when a key cannot be
    read or parsed, or the stored expenses hold a null entry, all three
    collections are reset (empty, empty, default categories) and the error
    toast is shown; when nothing is stored the ledger is empty with the
    default categories and no toast; and whenever stored data is adopted,
    the category set is non-empty, has no repetition and lists every
    non-empty category of a loaded expense.  The rate is never touched. *)
Theorem loadLedger_recovers (env : Env) (store : Storage) (st : State) :
  (budget_income store = Unreadable \/ budget_expenses store = Unreadable
   \/ budget_categories store = Unreadable
   \/ (exists items, budget_expenses store = Kept (VArr items)
                     /\ In VNull items) ->
   loadLedger env store st = Some (corrupted env st))
  /\ (income (corrupted env st) = [] /\ expenses (corrupted env st) = []
      /\ categories (corrupted env st) = DEFAULT_CATEGORIES
      /\ toasts (corrupted env st)
         = (toasts st
            ++ [ {| toast_id := uid env (ticks st);
                    message := Text "Local data was corrupted and has been reset.";
                    type := error |} ])%list)
  /\ loadLedger env empty_storage st
     = Some (setCategories DEFAULT_CATEGORIES (setExpenses [] (setIncome [] st)))
  /\ (forall st',
        loadLedger env store st = Some st' ->
        categories st' <> []
        /\ List.NoDup (categories st')
        /\ (forall e, In e (expenses st') -> category e <> "" ->
                      In (category e) (categories st'))
        /\ rate st' = rate st).
Proof.
  split; [| split; [| split]].
  - unfold loadLedger.
    intros [H | [H | [H | (items & H & Hin)]]]; rewrite H.
    + reflexivity.
    + destruct (parse_slot (budget_income store)); reflexivity.
    + destruct (parse_slot (budget_income store));
        [destruct (parse_slot (budget_expenses store)) |]; reflexivity.
    + assert (E : existsb nullish items = true)
        by (apply existsb_exists; exists VNull; split; [exact Hin | reflexivity]).
      cbn [parse_slot]. rewrite E.
      destruct (parse_slot (budget_income store));
        [destruct (parse_slot (budget_categories store)) |]; reflexivity.
  - repeat split.
  - reflexivity.
  - assert (R : categories (corrupted env st) <> []
                /\ List.NoDup (categories (corrupted env st))
                /\ (forall e, In e (expenses (corrupted env st)) ->
                       category e <> "" ->
                       In (category e) (categories (corrupted env st)))
                /\ rate (corrupted env st) = rate st).
    { split; [discriminate |].
      split; [apply distinct_NoDup, default_categories_distinct |].
      split; [intros e [] | reflexivity]. }
    intros st' H. unfold loadLedger in H.
    destruct (parse_slot (budget_income store)) as [inc |];
      [| injection H as <-; exact R].
    destruct (parse_slot (budget_expenses store)) as [exp |];
      [| injection H as <-; exact R].
    destruct (parse_slot (budget_categories store)) as [cat |];
      [| injection H as <-; exact R].
    destruct (match exp with VArr items => existsb nullish items | _ => false end);
      [injection H as <-; exact R |].
    destruct (stored_rows stored_income inc) as [incs |]; [| discriminate].
    destruct (stored_rows stored_expense exp) as [exps |]; [| discriminate].
    destruct (stored_categories cat) as [cats |] eqn:Ec; [| discriminate].
    injection H as <-.
    cbn [categories expenses rate setCategories setExpenses setIncome].
    apply stored_categories_nonempty in Ec.
    split; [| split; [apply Array_from_Set_spec | split; [| reflexivity]]].
    + destruct cats as [| c cats]; [congruence |]. apply Array_from_Set_nonempty.
    + intros e He Hne. apply Array_from_Set_spec, in_or_app. right.
      apply List.filter_In. split; [now apply in_map |].
      now apply truthy_nonempty.
Qed.

(** X16.  What the save effect writes, the start-up effect reads back:
    when all three writes succeed and every amount is finite and not -0,
    the next start finds the same income and the same expenses, record by
    record, shows no toast, and finds the category set that was saved
    whenever the ledger was well-formed with every expense under a listed
    category; a well-formed ledger is well-formed again after the start.
    When a write fails, the error toast is shown and the keys after it keep
    what they held. *)
Theorem save_then_load (env : Env) (st : State) (store : Storage)
    (next : State) :
  forallb (fun r => json_exact (amount r)) (income st) = true ->
  forallb (fun r => json_exact (e_amount r)) (expenses st) = true ->
  snd (saveLedger env 3 st store) = st
  /\ (exists st',
        loadLedger env (fst (saveLedger env 3 st store)) next = Some st'
        /\ income st' = income st
        /\ expenses st' = expenses st
        /\ categories st'
           = Array_from_Set
               (match categories st with
                | [] => DEFAULT_CATEGORIES
                | _ => categories st
                end
                ++ List.filter Str.truthy (map category (expenses st)))%list
        /\ (ledger_sound st = true ->
            (forall e, In e (expenses st) -> In (category e) (categories st)) ->
            categories st' = categories st)
        /\ toasts st' = toasts next
        /\ rate st' = rate next
        /\ (ledger_sound st = true -> ledger_sound next = true ->
            ledger_sound st' = true))
  /\ (forall written, (written < 3)%nat ->
        snd (saveLedger env written st store)
        = toast env (Text "Failed to save to local storage.") error st
        /\ budget_categories (fst (saveLedger env written st store))
           = budget_categories store).
Proof.
  intros Hi He. split; [reflexivity |]. split.
  - unfold saveLedger, loadLedger.
    cbn [Nat.ltb Nat.leb fst budget_income budget_expenses budget_categories
           parse_slot].
    rewrite json_expense_not_null. cbn [stored_rows].
    rewrite (read_all_json stored_income json_income
               (fun r => json_exact (amount r)) (income st)
               stored_income_json Hi).
    rewrite (read_all_json stored_expense json_expense
               (fun r => json_exact (e_amount r)) (expenses st)
               stored_expense_json He).
    rewrite stored_categories_texts.
    eexists. split; [reflexivity |].
    cbn [income expenses categories toasts rate setCategories setExpenses
           setIncome].
    do 3 (split; [reflexivity |]).
    split; [| split; [reflexivity | split; [reflexivity |]]].
    + intros Hs Hin. apply ledger_sound_spec in Hs as (_ & _ & S3 & S4 & _).
      destruct (categories st) as [| c cs] eqn:Ec; [congruence |].
      apply Array_from_Set_listed; [exact S4 |].
      intros x Hx. apply List.filter_In in Hx as [Hx _].
      apply in_map_iff in Hx as (e & <- & Hx). now apply Hin.
    + intros Hs Hn.
      apply ledger_sound_spec in Hs as (S1 & S2 & S3 & _).
      apply ledger_sound_spec in Hn as (_ & _ & _ & _ & N5 & N6).
      apply ledger_sound_spec.
      cbn [income expenses categories rate setCategories setExpenses setIncome].
      repeat split; try assumption.
      * destruct (categories st) as [| c cs]; [congruence |].
        apply Array_from_Set_nonempty.
      * apply Array_from_Set_spec.
  - intros written Hw. unfold saveLedger, save_outcome.
    destruct written as [| [| [| n]]]; [| | | lia]; split; reflexivity.
Qed.

Lemma save_then_load_witness :
  exists st',
    loadLedger sample_env (fst (saveLedger sample_env 3 sample_ledger empty_storage))
      initial_state = Some st'
    /\ income st' = income sample_ledger
    /\ expenses st' = expenses sample_ledger
    /\ categories st' = categories sample_ledger.
Proof.
  destruct (save_then_load sample_env sample_ledger empty_storage initial_state
              eq_refl eq_refl)
    as (_ & (st' & E & Hi & He & _ & Hc & _) & _).
  exists st'. split; [exact E |]. split; [exact Hi |]. split; [exact He |].
  apply Hc; [reflexivity |].
  intros e [<- | []]. vm_compute. tauto.
Defined.

(** ** The balance of whole amounts *)

Lemma of_Z_neg_canonical (n : positive) :
  Z.pos n < 2 ^ 53 ->
  exists q : positive,
    Num.of_Z (Z.neg n)
      = S754_finite true q (Z.pos (digits2_pos n) - 53)
    /\ Num.of_Z (Z.pos n)
      = S754_finite false q (Z.pos (digits2_pos n) - 53).
Proof.
  intros Hn.
  destruct (canonical_mantissa_of n Hn) as [q [Hq Hd]].
  pose proof (digits_bound n Hn) as Hb.
  exists q. unfold Num.of_Z, binary_normalize.
  replace (Z.pos (digits2_pos n) - 53)
    with (0 - (53 - Z.pos (digits2_pos n))) by lia.
  split; apply binary_round_widen; try assumption; lia.
Qed.

(** Subtracting whole numbers below 2^53 is exact, also when the result is
    below zero. *)
Lemma of_Z_sub_signed (a b : Z) :
  0 <= a < 2 ^ 53 -> 0 <= b < 2 ^ 53 ->
  Num.sub (Num.of_Z a) (Num.of_Z b) = Num.of_Z (a - b).
Proof.
  intros Ha Hb.
  destruct (Z_le_gt_dec b a) as [Hle | Hgt]; [apply of_Z_sub; lia |].
  destruct b as [| b | b]; [lia | | lia].
  destruct a as [| a | a]; [| | lia].
  { change (0 - Z.pos b) with (Z.neg b).
    destruct (of_Z_neg_canonical b) as (q & -> & ->); [lia | reflexivity]. }
  destruct (of_Z_pos_canonical a) as [qa [-> [Hqa Hda]]]; [lia |].
  destruct (of_Z_pos_canonical b) as [qb [-> [Hqb Hdb]]]; [lia |].
  pose proof (digits_bound a ltac:(lia)) as Hba.
  pose proof (digits_bound b ltac:(lia)) as Hbb.
  set (ea := Z.pos (digits2_pos a) - 53) in *.
  set (eb := Z.pos (digits2_pos b) - 53) in *.
  unfold Num.sub, SFsub. cbn [cond_Zopp].
  set (ez := Z.min ea eb).
  assert (Hez : ez <= ea /\ ez <= eb /\ ez <= 0 /\ -52 <= ez) by (unfold ez, ea, eb; lia).
  pose proof (shl_align_value qa ea ez ltac:(lia)) as Hsa.
  pose proof (shl_align_value qb eb ez ltac:(lia)) as Hsb.
  assert (Hva : Z.pos (fst (shl_align qa ea ez)) = Z.pos a * 2 ^ (- ez)).
  { rewrite Hsa, Hqa, <- Z.mul_assoc, <- Z.pow_add_r by (unfold ea; lia).
    f_equal. f_equal. unfold ea. lia. }
  assert (Hvb : Z.pos (fst (shl_align qb eb ez)) = Z.pos b * 2 ^ (- ez)).
  { rewrite Hsb, Hqb, <- Z.mul_assoc, <- Z.pow_add_r by (unfold eb; lia).
    f_equal. f_equal. unfold eb. lia. }
  rewrite Hva, Hvb, <- Z.mul_sub_distr_r.
  assert (Hp : 0 < 2 ^ (- ez)) by (apply Z.pow_pos_nonneg; lia).
  destruct (Z.pos a - Z.pos b) as [| d | d] eqn:Hd; [lia | lia |].
  assert (Hm : exists m, Z.neg d * 2 ^ (- ez) = Z.neg m).
  { destruct (Z.neg d * 2 ^ (- ez)) as [| m | m] eqn:Hm; [lia | lia | eauto]. }
  destruct Hm as [m Hm]. rewrite Hm.
  unfold Num.of_Z, binary_normalize.
  apply binary_round_exact; lia.
Qed.

Lemma whole_income_sum_nonneg (l : list IncomeRow) :
  Forall (fun r => whole_amount (amount r)) l -> 0 <= whole_income_sum l.
Proof.
  induction 1 as [| r l [_ Hr] _ IH]; cbn [whole_income_sum fold_right]; [lia |].
  fold (whole_income_sum l). lia.
Qed.

Lemma fold_whole_income (l : list IncomeRow) :
  Forall (fun r => whole_amount (amount r)) l ->
  forall z, 0 <= z -> z + whole_income_sum l < 2 ^ 53 ->
  fold_left (fun s r => Num.add s (Num.or_else (amount r) Num.zero))
    l (Num.of_Z z)
  = Num.of_Z (z + whole_income_sum l).
Proof.
  induction 1 as [| r l [Hr Hp] Hl IH]; intros z Hz Hb;
    cbn [fold_left whole_income_sum fold_right] in *.
  - rewrite Z.add_0_r. reflexivity.
  - fold (whole_income_sum l) in *.
    pose proof (whole_income_sum_nonneg l Hl) as Hn.
    set (a := Num.to_Z (amount r)) in *. rewrite Hr.
    rewrite or_else_whole by lia. rewrite of_Z_add by lia.
    rewrite IH by lia. f_equal. lia.
Qed.

Lemma whole_income_sum_perm (l l' : list IncomeRow) :
  Permutation l l' -> whole_income_sum l = whole_income_sum l'.
Proof.
  induction 1 as [| x l l' _ IH | x y l | l l' l'' _ IH1 _ IH2];
    cbn [whole_income_sum fold_right] in *; try lia.
  fold (whole_income_sum l) in *. fold (whole_income_sum l') in *. lia.
Qed.

Lemma whole_sum_perm (l l' : list ExpenseRow) :
  Permutation l l' -> whole_sum l = whole_sum l'.
Proof.
  induction 1 as [| x l l' _ IH | x y l | l l' l'' _ IH1 _ IH2];
    cbn [whole_sum fold_right] in *; try lia.
  fold (whole_sum l) in *. fold (whole_sum l') in *. lia.
Qed.

Lemma whole_totals (inc : list IncomeRow) (exps : list ExpenseRow) (r : number) :
  Forall (fun x => whole_amount (amount x)) inc ->
  Forall (fun e => whole_amount (e_amount e)) exps ->
  whole_income_sum inc < 2 ^ 53 -> whole_sum exps < 2 ^ 53 ->
  totals inc exps r
  = {| incomeKRW := Num.of_Z (whole_income_sum inc);
       expenseKRW := Num.of_Z (whole_sum exps);
       remainingKRW := Num.of_Z (whole_income_sum inc - whole_sum exps);
       incomeUSD := krwToUsd (Num.of_Z (whole_income_sum inc)) r;
       expenseUSD := krwToUsd (Num.of_Z (whole_sum exps)) r;
       remainingUSD :=
         krwToUsd (Num.of_Z (whole_income_sum inc - whole_sum exps)) r |}.
Proof.
  intros Hi He Bi Be. unfold totals. cbv zeta.
  pose proof (whole_income_sum_nonneg inc Hi) as Ni.
  pose proof (whole_sum_nonneg exps He) as Ne.
  pose proof (fold_whole_income inc Hi 0 ltac:(lia) ltac:(lia)) as Fi.
  pose proof (fold_whole false exps He 0 ltac:(lia) ltac:(lia)) as Fe.
  change (Num.of_Z 0) with Num.zero in Fi, Fe. cbv beta iota in Fe.
  rewrite Fi, Fe, !Z.add_0_l, of_Z_sub_signed by lia. reflexivity.
Qed.

(** X17.  For a ledger of whole, non-negative amounts whose sums stay
    below 2^53 (the amounts the two forms produce are whole), the summary
    is exact integer arithmetic: the totals are the sums, the remaining
    balance is their difference, also when it is below zero, and none of
    the figures depends on the order of the records. *)
Theorem totals_exact (inc inc' : list IncomeRow) (exps exps' : list ExpenseRow)
    (r : number) :
  Forall (fun x => whole_amount (amount x)) inc ->
  Forall (fun e => whole_amount (e_amount e)) exps ->
  whole_income_sum inc < 2 ^ 53 -> whole_sum exps < 2 ^ 53 ->
  Permutation inc inc' -> Permutation exps exps' ->
  incomeKRW (totals inc exps r) = Num.of_Z (whole_income_sum inc)
  /\ expenseKRW (totals inc exps r) = Num.of_Z (whole_sum exps)
  /\ remainingKRW (totals inc exps r)
     = Num.of_Z (whole_income_sum inc - whole_sum exps)
  /\ totals inc' exps' r = totals inc exps r.
Proof.
  intros Hi He Bi Be Pi Pe.
  rewrite (whole_totals inc exps r Hi He Bi Be).
  do 3 (split; [reflexivity |]).
  rewrite (whole_totals inc' exps' r).
  - now rewrite <- (whole_income_sum_perm _ _ Pi), <- (whole_sum_perm _ _ Pe).
  - exact (Permutation_Forall Pi Hi).
  - exact (Permutation_Forall Pe He).
  - now rewrite <- (whole_income_sum_perm _ _ Pi).
  - now rewrite <- (whole_sum_perm _ _ Pe).
Qed.

Lemma totals_exact_witness :
  remainingKRW
    (totals (income overdrawn_ledger) (expenses overdrawn_ledger)
       (rate overdrawn_ledger))
  = Num.of_Z (1200 - 35000)
  /\ Num.lt
       (remainingKRW
          (totals (income overdrawn_ledger) (expenses overdrawn_ledger)
             (rate overdrawn_ledger)))
       Num.zero = true.
Proof.
  assert (Hi : Forall (fun x => whole_amount (amount x)) (income overdrawn_ledger)).
  { repeat constructor. vm_compute. discriminate. }
  assert (He : Forall (fun e => whole_amount (e_amount e))
                 (expenses overdrawn_ledger)).
  { repeat constructor. vm_compute. discriminate. }
  destruct (totals_exact (income overdrawn_ledger) (income overdrawn_ledger)
              (expenses overdrawn_ledger) (expenses overdrawn_ledger)
              (rate overdrawn_ledger) Hi He eq_refl eq_refl
              (Permutation_refl _) (Permutation_refl _))
    as (_ & _ & H & _).
  split; [exact H |]. rewrite H. reflexivity.
Defined.

(** ** Toasts *)

Section Toasts.

Variable env : Env.

Lemma toast_step_same (st st' : State) :
  (ticks st <= ticks st')%nat -> toasts st' = toasts st -> toast_step env st st'.
Proof. intros Ht H. split; [exact Ht | now left]. Qed.

Lemma toast_step_toast (msg : Message) (ty : ToastType) (st s : State) :
  (ticks st <= ticks s)%nat -> toasts s = toasts st ->
  toast_step env st (toast env msg ty s).
Proof.
  intros Ht H. split; [cbn; lia |]. right. exists (ticks s), msg, ty.
  split; [cbn; lia |]. cbn. now rewrite H.
Qed.

Lemma onAddIncome_toast_step (st : State) : toast_step env st (onAddIncome env st).
Proof.
  destruct (income_ok st) eqn:E.
  - unfold income_ok in E.
    apply andb_prop in E as [E Ha]. apply andb_prop in E as [Hd Ht].
    unfold onAddIncome. rewrite Hd, Ht, Ha. cbn [negb].
    split; [cbn; lia |]. right.
    exists (S (ticks st)), (Text "Income added"), success.
    split; [cbn; lia | reflexivity].
  - rewrite (onAddIncome_rejects env st E).
    split; [cbn; lia |]. right.
    exists (ticks st), (Text "Please fix the errors above."), error.
    split; [cbn; lia | reflexivity].
Qed.

Lemma onAddExpense_toast_step (st : State) : toast_step env st (onAddExpense env st).
Proof.
  destruct (expense_ok st) eqn:E.
  - unfold expense_ok in E.
    apply andb_prop in E as [E Ha]. apply andb_prop in E as [E Ht].
    apply andb_prop in E as [Hd Hc].
    unfold onAddExpense. rewrite Hd, Hc, Ht, Ha. cbn [negb].
    split; [cbn; lia |]. right.
    exists (S (ticks st)), (Text "Expense added"), success.
    split; [cbn; lia | reflexivity].
  - rewrite (onAddExpense_rejects env st E).
    split; [cbn; lia |]. right.
    exists (ticks st), (Text "Please fix the errors above."), error.
    split; [cbn; lia | reflexivity].
Qed.

Lemma perform_toast_step (a : Action) (st st' : State) :
  (forall i, a <> Expire i) -> perform env a st = Some st' ->
  toast_step env st st'.
Proof.
  intros Ha Hp.
  destruct a as [f | f | | | answer | i kind ok | ok | exportedAt
                 | file confirmReplace | | written | i | saved | res cancelled];
    cbn [perform] in Hp.
  - injection Hp as <-. now apply toast_step_same.
  - injection Hp as <-. now apply toast_step_same.
  - injection Hp as <-. apply onAddIncome_toast_step.
  - injection Hp as <-. apply onAddExpense_toast_step.
  - injection Hp as <-. unfold onAddCategory.
    destruct answer as [typed |]; [| now apply toast_step_same].
    destruct (negb (Str.truthy (Str.trim typed))); [now apply toast_step_same |].
    destruct (existsb _ (categories st)); now apply toast_step_toast.
  - injection Hp as <-. unfold onDelete.
    destruct ok; [| now apply toast_step_same]. cbn [negb].
    destruct kind; now apply toast_step_toast.
  - injection Hp as <-. unfold clearAll.
    destruct ok; [| now apply toast_step_same]. now apply toast_step_toast.
  - injection Hp as <-. now apply toast_step_toast.
  - pose proof (onFilePicked_cases env file confirmReplace st) as C.
    destruct (onFilePicked env file confirmReplace st) as [s | s | e s |];
      [| | | discriminate]; injection Hp as <-.
    + destruct C as (inc & exp & cat & k & -> & _ & _ & _ & Hk).
      now apply toast_step_toast.
    + subst s. now apply toast_step_same.
    + destruct C as (k & -> & Hk). now apply toast_step_toast.
  - injection Hp as <-. now apply toast_step_toast.
  - injection Hp as <-. unfold save_outcome.
    destruct (written <? 3)%nat;
      [now apply toast_step_toast | now apply toast_step_same].
  - exfalso. exact (Ha i eq_refl).
  - injection Hp as <-. apply toast_step_same.
    + unfold loadRate. destruct saved as [| [s |]]; try lia.
      destruct (negb (Str.truthy s)); [lia |].
      destruct (negb (Num.isFinite (Str.toNumber s)) || _); cbn; lia.
    + unfold loadRate. destruct saved as [| [s |]]; try reflexivity.
      destruct (negb (Str.truthy s)); [reflexivity |].
      destruct (negb (Num.isFinite (Str.toNumber s)) || _); reflexivity.
  - injection Hp as <-. unfold refreshRate.
    destruct res as [| [] [data |]];
      try (destruct cancelled;
           [now apply toast_step_same | now apply toast_step_toast]).
    destruct (Val.toNumber _) as [factor |];
      [| destruct cancelled;
         [now apply toast_step_same | now apply toast_step_toast]].
    destruct (negb (Num.isFinite factor) || _);
      destruct cancelled;
      first [now apply toast_step_same | now apply toast_step_toast].
Qed.

Hypothesis world : fresh_world env.

Lemma toasts_minted_step (st st' : State) :
  toasts_minted env st -> toast_step env st st' -> toasts_minted env st'.
Proof.
  intros [Hn Hb] [Ht [H | (k & msg & ty & Hk & H)]]; unfold toasts_minted;
    rewrite H.
  - split; [exact Hn |]. intros t Hin.
    destruct (Hb t Hin) as (j & Hj & E). exists j. split; [lia | exact E].
  - rewrite map_app. cbn [map toast_id]. split.
    + apply List.NoDup_app; [exact Hn | repeat constructor; intros [] |].
      intros x Hx [E | []]. subst x.
      apply in_map_iff in Hx as (t & E & Hin).
      destruct (Hb t Hin) as (j & Hj & E'). rewrite E' in E.
      apply (uid_injective env _ _ world) in E. lia.
    + intros t Hin. apply in_app_or in Hin as [Hin | [<- | []]].
      * destruct (Hb t Hin) as (j & Hj & E). exists j. split; [lia | exact E].
      * exists k. split; [lia | reflexivity].
Qed.

Lemma toasts_minted_expire (i : string) (st : State) :
  toasts_minted env st -> toasts_minted env (expireToast i st).
Proof.
  intros [Hn Hb]. unfold toasts_minted, expireToast. cbn [toasts ticks setToasts].
  split; [now apply filter_map_NoDup |].
  intros t Hin. apply List.filter_In in Hin as [Hin _]. now apply Hb.
Qed.

Lemma toasts_minted_always (actions : list Action) (st st' : State) :
  toasts_minted env st -> perform_all env actions st = Some st' ->
  toasts_minted env st'.
Proof.
  revert st. induction actions as [| a rest IH]; intros st Hm Hp;
    cbn [perform_all] in Hp.
  - now injection Hp as <-.
  - destruct (perform env a st) as [s |] eqn:E; [| discriminate].
    apply (IH s); [| exact Hp].
    destruct (match a with Expire i => Some i | _ => None end) as [i |] eqn:Ea.
    + destruct a; try discriminate Ea.
      cbn [perform] in E. injection E as <-. now apply toasts_minted_expire.
    + apply (toasts_minted_step st); [exact Hm |].
      apply (perform_toast_step a st s); [| exact E].
      intros i ->. discriminate Ea.
Qed.

End Toasts.



(** ** Adding and deleting *)

Lemma filter_drops_last {A : Type} (f : A -> string) (l : list A) (r : A) :
  Forall (fun x => f x <> f r) l ->
  List.filter (fun x => negb (String.eqb (f x) (f r))) (l ++ [r])%list = l.
Proof.
  intros H. rewrite List.filter_app. cbn [List.filter].
  rewrite String.eqb_refl. cbn [negb]. rewrite app_nil_r.
  apply filter_keeps_all. intros x Hx.
  apply negb_true_iff, String.eqb_neq.
  exact (proj1 (List.Forall_forall _ _) H x Hx).
Qed.

(** X19.  Deleting the record that was just added restores the
    collection, provided that no older record carries the identifier that
    [uid] returned for the new one (otherwise the older record is deleted
    with it); the other collection and the category set are untouched
    throughout. *)
Theorem delete_undoes_add (env : Env) (st : State) :
  Forall (fun r => id r <> uid env (ticks st)) (income st) ->
  Forall (fun r => e_id r <> uid env (ticks st)) (expenses st) ->
  (income_ok st = true ->
   let after :=
     onDelete env (id (new_income env st)) KIncome true (onAddIncome env st) in
   income after = income st /\ expenses after = expenses st
   /\ categories after = categories st)
  /\ (expense_ok st = true ->
      let after :=
        onDelete env (e_id (new_expense env st)) KExpense true
          (onAddExpense env st) in
      income after = income st /\ expenses after = expenses st
      /\ categories after = categories st).
Proof.
  intros Hi He. split; intros Hok after; subst after.
  - destruct (onAddIncome_accepts env st Hok) as (Ei & Ee & Ec & _).
    unfold onDelete. cbn [negb].
    cbn [income expenses categories toast setTicks setToasts setIncome].
    rewrite Ei, Ee, Ec. split; [| split; reflexivity].
    now apply (filter_drops_last id).
  - destruct (onAddExpense_accepts env st Hok) as (Ee & Ei & Ec & _).
    unfold onDelete. cbn [negb].
    cbn [income expenses categories toast setTicks setToasts setExpenses].
    rewrite Ei, Ee, Ec. split; [reflexivity | split; [| reflexivity]].
    now apply (filter_drops_last e_id).
Qed.

Lemma delete_undoes_add_witness :
  income_ok (groceries_form (onAddIncome sample_env salary_form)) = false
  /\ expense_ok (groceries_form (onAddIncome sample_env salary_form)) = true
  /\ expenses
       (onDelete sample_env "id-loyw3v2a-k3x9qa" KExpense true sample_ledger)
     = []
  /\ income
       (onDelete sample_env "id-loyw3v2a-k3x9qa" KExpense true sample_ledger)
     = income (onAddIncome sample_env salary_form).
Proof.
  split; [reflexivity |]. split; [reflexivity |].
  assert (Hi : Forall (fun r => id r <> uid sample_env
                                         (ticks (groceries_form
                                                   (onAddIncome sample_env salary_form))))
                 (income (groceries_form (onAddIncome sample_env salary_form)))).
  { repeat constructor. vm_compute. discriminate. }
  destruct (proj2 (delete_undoes_add sample_env
                     (groceries_form (onAddIncome sample_env salary_form))
                     Hi (List.Forall_nil _)) eq_refl)
    as (Ei & Ee & _).
  split; [exact Ee | exact Ei].
Defined.

(** ** An expense in the summary *)

Lemma breakdown_snoc (l : list ExpenseRow) (e : ExpenseRow) :
  breakdown (l ++ [e])
  = if inherited (category e) then breakdown l
    else <[ category e :=
              Num.add (count_or_0 (breakdown l) (category e))
                (Num.or_else (e_amount e) Num.zero) ]> (breakdown l).
Proof. unfold breakdown. rewrite fold_left_app. reflexivity. Qed.

Lemma expenseKRW_snoc (inc : list IncomeRow) (l : list ExpenseRow)
    (e : ExpenseRow) (r : number) :
  expenseKRW (totals inc (l ++ [e]) r)
  = Num.add (expenseKRW (totals inc l r)) (Num.or_else (e_amount e) Num.zero).
Proof. unfold totals. cbn [expenseKRW]. rewrite fold_left_app. reflexivity. Qed.



(** ** Today's date *)

Lemma in_range (lo len z : Z) :
  0 <= lo -> lo <= z < lo + len ->
  In (Z.to_nat z) (seq (Z.to_nat lo) (Z.to_nat len)).
Proof. intros H0 H. apply in_seq. lia. Qed.

Lemma year_numeral (y : Z) :
  1000 <= y <= 9999 -> numeral_of 4 (String_of_integer y) y = true.
Proof.
  intros H.
  assert (A : forallb (fun n => numeral_of 4 (String_of_integer (Z.of_nat n))
                                  (Z.of_nat n))
                (seq (Z.to_nat 1000) (Z.to_nat 9000)) = true)
    by (vm_compute; reflexivity).
  pose proof (proj1 (forallb_forall _ _) A (Z.to_nat y)
                (in_range 1000 9000 y ltac:(lia) ltac:(lia))) as Hy.
  cbv beta in Hy. now rewrite Z2Nat.id in Hy by lia.
Qed.

Lemma two_digit_numeral (n : Z) :
  0 <= n <= 99 -> numeral_of 2 (padStart2 (String_of_integer n)) n = true.
Proof.
  intros H.
  assert (A : forallb (fun k => numeral_of 2
                                  (padStart2 (String_of_integer (Z.of_nat k)))
                                  (Z.of_nat k))
                (seq (Z.to_nat 0) (Z.to_nat 100)) = true)
    by (vm_compute; reflexivity).
  pose proof (proj1 (forallb_forall _ _) A (Z.to_nat n)
                (in_range 0 100 n ltac:(lia) ltac:(lia))) as Hn.
  cbv beta in Hn. now rewrite Z2Nat.id in Hn by lia.
Qed.

Lemma digit_not_space (c : ascii) (d : Z) :
  Str.digit_of 10 c = Some d -> Str.is_ws c = false.
Proof.
  destruct c as [[] [] [] [] [] [] [] []]; try discriminate; reflexivity.
Qed.

Lemma date_stamp_shape (t : LocalDate) :
  1000 <= getFullYear t <= 9999 -> 0 <= getMonth t <= 11 ->
  1 <= getDate t <= 31 ->
  read_date (date_stamp t)
  = Some (getFullYear t, getMonth t + 1, getDate t)
  /\ String.length (date_stamp t) = 10%nat
  /\ Str.trim (date_stamp t) = date_stamp t.
Proof.
  intros Hy Hm Hd.
  pose proof (year_numeral _ Hy) as Y.
  pose proof (two_digit_numeral (getMonth t + 1) ltac:(lia)) as M.
  pose proof (two_digit_numeral (getDate t) ltac:(lia)) as D.
  unfold numeral_of in Y, M, D.
  apply andb_prop in Y as [Yl Yv]. apply andb_prop in M as [Ml Mv].
  apply andb_prop in D as [Dl Dv].
  unfold date_stamp.
  destruct (String_of_integer (getFullYear t))
    as [| y1 [| y2 [| y3 [| y4 [| ? ?]]]]]; try discriminate Yl.
  destruct (padStart2 (String_of_integer (getMonth t + 1)))
    as [| m1 [| m2 [| ? ?]]]; try discriminate Ml.
  destruct (padStart2 (String_of_integer (getDate t)))
    as [| d1 [| d2 [| ? ?]]]; try discriminate Dl.
  change (String y1 (String y2 (String y3 (String y4 "")))
          ++ "-" ++ String m1 (String m2 "") ++ "-" ++ String d1 (String d2 ""))
    with (String y1 (String y2 (String y3 (String y4 (String "-"
            (String m1 (String m2 (String "-" (String d1 (String d2 "")))))))))).
  set (stamp := String y1 _).
  assert (R : read_date stamp
              = Some (getFullYear t, getMonth t + 1, getDate t)).
  { unfold stamp, read_date. cbn [Ascii.eqb Bool.eqb andb].
    destruct (decimal_value (String y1 _) 0) as [y |]; [| discriminate Yv].
    destruct (decimal_value (String m1 _) 0) as [m |]; [| discriminate Mv].
    destruct (decimal_value (String d1 _) 0) as [d |]; [| discriminate Dv].
    apply Z.eqb_eq in Yv, Mv, Dv. now subst. }
  assert (W1 : Str.is_ws y1 = false).
  { cbn [decimal_value] in Yv.
    destruct (Str.digit_of 10 y1) eqn:E; [| discriminate Yv].
    exact (digit_not_space _ _ E). }
  assert (W2 : Str.is_ws d2 = false).
  { cbn [decimal_value] in Dv.
    destruct (Str.digit_of 10 d1); [| discriminate Dv].
    destruct (Str.digit_of 10 d2) eqn:E; [| discriminate Dv].
    exact (digit_not_space _ _ E). }
  split; [exact R |]. split; [reflexivity |].
  unfold stamp, Str.trim, Str.trim_list.
  cbn [list_ascii_of_string Str.trimStart_list]. rewrite W1.
  cbn [rev app Str.trimStart_list]. rewrite W2.
  reflexivity.
Qed.

(** X21.  For a date whose year has four digits, the text that the page
    makes of today's date has the form YYYY-MM-DD with the month counted
    from 1: it reads back as that year, month and day, it has no white
    space around it and is not empty, so that a form which the start-up
    effect filled in passes the date check of the submit handlers; the
    effect never overwrites a date that the form already holds and leaves
    the records alone; and the name of the exported file carries the same
    text after its prefix. *)
Theorem date_stamp_reads_back (t t' : LocalDate) (st : State) :
  1000 <= getFullYear t <= 9999 -> 0 <= getMonth t <= 11 ->
  1 <= getDate t <= 31 ->
  read_date (date_stamp t)
  = Some (getFullYear t, getMonth t + 1, getDate t)
  /\ String.length (date_stamp t) = 10%nat
  /\ Str.trim (date_stamp t) = date_stamp t
  /\ Str.truthy (Str.trim (date_stamp t)) = true
  /\ (f_date (incomeForm st) = "" ->
      f_date (incomeForm (initDates t t' true true st)) = date_stamp t)
  /\ (f_date (incomeForm st) <> "" ->
      f_date (incomeForm (initDates t t' true true st)) = f_date (incomeForm st))
  /\ read_date (String.substring 14 10 (export_name t))
     = Some (getFullYear t, getMonth t + 1, getDate t)
  /\ income (initDates t t' true true st) = income st
  /\ expenses (initDates t t' true true st) = expenses st.
Proof.
  intros Hy Hm Hd.
  destruct (date_stamp_shape t Hy Hm Hd) as (R & L & T).
  split; [exact R |]. split; [exact L |]. split; [exact T |].
  split.
  { rewrite T. destruct (date_stamp t); [discriminate L | reflexivity]. }
  assert (N : String.substring 14 10 (export_name t) = date_stamp t).
  { unfold export_name. revert L. generalize (date_stamp t). intros s L.
    destruct s
      as [| c1 [| c2 [| c3 [| c4 [| c5 [| c6 [| c7 [| c8 [| c9 [| c10
            [| ? ?]]]]]]]]]]]; try discriminate L.
    reflexivity. }
  unfold initDates.
  split; [| split; [| split; [now rewrite N |]]].
  - intros E. rewrite E. cbn [Str.truthy negb andb].
    destruct (negb (Str.truthy (x_date (expenseForm st))) && true); reflexivity.
  - intros E. apply truthy_nonempty in E. rewrite E. cbn [negb andb].
    destruct (negb (Str.truthy (x_date (expenseForm st))) && true); reflexivity.
  - destruct (negb (Str.truthy (f_date (incomeForm st))) && true);
      destruct (negb (Str.truthy (x_date (expenseForm st))) && true);
      split; reflexivity.
Qed.

Lemma date_stamp_reads_back_witness :
  date_stamp new_year_2024 = "2024-01-01"
  /\ read_date (date_stamp new_year_2024) = Some (2024, 1, 1)
  /\ f_date (incomeForm
               (initDates new_year_2024 new_year_2024 true true initial_state))
     = "2024-01-01".
Proof.
  destruct (date_stamp_reads_back new_year_2024 new_year_2024 initial_state
              ltac:(cbn; lia) ltac:(cbn; lia) ltac:(cbn; lia))
    as (R & _ & _ & _ & F & _).
  split; [reflexivity |]. split; [exact R |]. exact (F eq_refl).
Defined.
